(** * GitHub organisation statistics: the analysis function

    A shallow embedding of [functions/github-analysis/index.ts] (class
    [GitHubApiService]) and the properties of its aggregation pipeline.

    Conventions of the embedding.
    - A JavaScript string is a [string]: a sequence of code units below
      256.  That is exactly what [atob] produces for file contents; for
      file paths it restricts the model to Latin-1 names, on which
      [toLowerCase] and [trim] are the functions written below.
    - A JavaScript number that holds a count or a size is a [Z] (exact
      in binary64 up to 2^53); a number that may be [NaN] is an
      [option Z].  A percentage is a binary64 number, given by its exact
      value as a [Q]: the division and the multiplication that produce
      it round to nearest, ties to even ([Binary64.round]).
    - [async] code runs in the monad [IO]: it threads the log of the
      requests sent so far and ends with a value, with a thrown error, or
      out of fuel (only the two [while (hasMore)] loops can use up fuel).
    - A JavaScript object or [Map] keyed by strings keeps its keys in
      insertion order, and that order is visible in the result
      ([Object.keys], [Map.values], the stable sort of the language
      table), so such a map is an association list ([OMap]). *)

From Stdlib Require Import List String Ascii ZArith QArith Bool Lia Arith.
From Stdlib Require Import Sorting.Sorted Sorting.Permutation DecimalString.
From Stdlib Require Import Qpower Qabs Lqa.
Import ListNotations.

Local Open Scope string_scope.
Local Open Scope Z_scope.
Local Open Scope list_scope.

(* ================================================================== *)
(** ** JavaScript built-ins used by the service *)
(* ================================================================== *)

Module JS.

Definition LF : ascii := ascii_of_nat 10.

(** [s.split(sep)] for a one-character separator: never empty, one more
    piece than there are separators. *)
Fixpoint split (sep : ascii) (s : string) : list string :=
  match s with
  | EmptyString => [EmptyString]
  | String c s' =>
      if Ascii.eqb c sep then EmptyString :: split sep s'
      else match split sep s' with
           | [] => [String c EmptyString]
           | piece :: pieces => String c piece :: pieces
           end
  end.

(** [a.pop()] on a fresh array: its last element, [undefined] when empty. *)
Fixpoint pop {A : Type} (l : list A) : option A :=
  match l with
  | [] => None
  | [x] => Some x
  | _ :: l' => pop l'
  end.

(** WhiteSpace and LineTerminator code units below 256:
    TAB, LF, VT, FF, CR, SP, NBSP. *)
Definition isWhiteSpace (c : ascii) : bool :=
  let n := nat_of_ascii c in
  ((9 <=? n)%nat && (n <=? 13)%nat) || (n =? 32)%nat || (n =? 160)%nat.

Fixpoint trimStart (s : string) : string :=
  match s with
  | EmptyString => EmptyString
  | String c s' => if isWhiteSpace c then trimStart s' else s
  end.

Fixpoint trimEnd (s : string) : string :=
  match s with
  | EmptyString => EmptyString
  | String c s' =>
      match trimEnd s' with
      | EmptyString => if isWhiteSpace c then EmptyString
                       else String c EmptyString
      | t => String c t
      end
  end.

Definition trim (s : string) : string := trimEnd (trimStart s).

(** Lower-casing of a code unit below 256: A-Z and the Latin-1 capitals
    (0xC0-0xDE without the multiplication sign 0xD7) move up by 32. *)
Definition toLowerCase_unit (c : ascii) : ascii :=
  let n := nat_of_ascii c in
  if ((65 <=? n)%nat && (n <=? 90)%nat)
     || ((192 <=? n)%nat && (n <=? 222)%nat && negb (n =? 215)%nat)
  then ascii_of_nat (n + 32) else c.

Fixpoint toLowerCase (s : string) : string :=
  match s with
  | EmptyString => EmptyString
  | String c s' => String (toLowerCase_unit c) (toLowerCase s')
  end.

(** [line.startsWith(p)] *)
Definition startsWith (line p : string) : bool := String.prefix p line.

(** [s.replace(/\n/g, '')] *)
Fixpoint removeLF (s : string) : string :=
  match s with
  | EmptyString => EmptyString
  | String c s' => if Ascii.eqb c LF then removeLF s' else String c (removeLF s')
  end.

(** [a.slice(0, n)] *)
Definition slice0 {A : Type} (n : nat) (l : list A) : list A := firstn n l.

(** [a.find(p)] *)
Definition find {A : Type} (p : A -> bool) (l : list A) : option A :=
  List.find p l.

(** *** [atob]: forgiving base64 decoding (WHATWG), [None] when it throws *)

Definition isAsciiWhitespace (c : ascii) : bool :=
  let n := nat_of_ascii c in
  (n =? 9)%nat || (n =? 10)%nat || (n =? 12)%nat || (n =? 13)%nat || (n =? 32)%nat.

Definition b64_value (c : ascii) : option N :=
  let n := N_of_ascii c in
  if ((65 <=? n) && (n <=? 90))%N then Some (n - 65)%N
  else if ((97 <=? n) && (n <=? 122))%N then Some (n - 71)%N
  else if ((48 <=? n) && (n <=? 57))%N then Some (n + 4)%N
  else if (n =? 43)%N then Some 62%N
  else if (n =? 47)%N then Some 63%N
  else None.

Fixpoint b64_values (l : list ascii) : option (list N) :=
  match l with
  | [] => Some []
  | c :: l' =>
      match b64_value c, b64_values l' with
      | Some v, Some vs => Some (v :: vs)
      | _, _ => None
      end
  end.

Definition byte_of (n : N) : ascii := ascii_of_N (n mod 256).

(** Four sextets give three bytes; a tail of two gives one byte and a
    tail of three gives two (the spare bits are dropped). *)
Fixpoint b64_bytes (fuel : nat) (vs : list N) : list ascii :=
  match fuel with
  | O => []
  | S fuel' =>
      match vs with
      | a :: b :: c :: d :: rest =>
          let w := (a * 262144 + b * 4096 + c * 64 + d)%N in
          byte_of (w / 65536) :: byte_of (w / 256) :: byte_of w
            :: b64_bytes fuel' rest
      | [a; b; c] =>
          let w := (a * 4096 + b * 64 + c)%N in
          [byte_of (w / 1024); byte_of (w / 4)]
      | [a; b] =>
          let w := (a * 64 + b)%N in [byte_of (w / 16)]
      | _ => []
      end
  end.

Definition strip_padding (l : list ascii) : list ascii :=
  if (Nat.modulo (List.length l) 4 =? 0)%nat then
    match rev l with
    | "="%char :: "="%char :: r => rev r
    | "="%char :: r => rev r
    | _ => l
    end
  else l.

Definition atob (s : string) : option string :=
  let data := filter (fun c => negb (isAsciiWhitespace c)) (list_ascii_of_string s) in
  let data := strip_padding data in
  if (Nat.modulo (List.length data) 4 =? 1)%nat then None
  else match b64_values data with
       | None => None
       | Some vs => Some (string_of_list_ascii (b64_bytes (List.length vs) vs))
       end.

(** *** Numbers that may be [NaN] *)

(** [x - y] on numbers that may be [NaN]. *)
Definition sub (x y : option Z) : option Z :=
  match x, y with
  | Some a, Some b => Some (a - b)
  | _, _ => None
  end.

(** [x > y]: false as soon as one side is [NaN]. *)
Definition gt (x y : option Z) : bool :=
  match x, y with
  | Some a, Some b => b <? a
  | _, _ => false
  end.

(** *** [Array.prototype.sort(comparefn)]

    The language fixes the result for a consistent comparator: the
    stable sorted permutation.  The model is the straight insertion
    sort (each element moves left past the elements that must follow
    it), which returns that permutation.  A comparator result of [NaN]
    counts as [+0], as in SortCompare; a comparator that answers [NaN]
    for some pairs only is not consistent, and the insertion sort then
    stands for the engine's choice. *)

Definition sortCompare {A : Type} (comparefn : A -> A -> option Z) (x y : A) : Z :=
  match comparefn x y with
  | Some v => v
  | None => 0
  end.

(** [r] is the sorted prefix, last element first. *)
Fixpoint sort_insert {A : Type} (comparefn : A -> A -> option Z)
         (x : A) (r : list A) : list A :=
  match r with
  | [] => [x]
  | y :: r' =>
      if 0 <? sortCompare comparefn y x
      then y :: sort_insert comparefn x r'
      else x :: r
  end.

Definition sort {A : Type} (comparefn : A -> A -> option Z) (l : list A) : list A :=
  rev (fold_left (fun r x => sort_insert comparefn x r) l []).

End JS.

(* ================================================================== *)
(** ** Insertion-ordered string-keyed maps (objects and [Map]s) *)
(* ================================================================== *)

Module OMap.

Definition t (V : Type) : Type := list (string * V).

Definition empty {V : Type} : t V := [].

Fixpoint get {V : Type} (m : t V) (k : string) : option V :=
  match m with
  | [] => None
  | (k', v) :: m' => if String.eqb k' k then Some v else get m' k
  end.

Definition has {V : Type} (m : t V) (k : string) : bool :=
  match get m k with Some _ => true | None => false end.

(** [m.set(k, v)] / [o[k] = v]: an existing key keeps its place, a new
    key goes last. *)
Fixpoint set {V : Type} (m : t V) (k : string) (v : V) : t V :=
  match m with
  | [] => [(k, v)]
  | (k', v') :: m' =>
      if String.eqb k' k then (k', v) :: m' else (k', v') :: set m' k v
  end.

Definition keys {V : Type} (m : t V) : list string := map fst m.
Definition values {V : Type} (m : t V) : list V := map snd m.

End OMap.

(* ================================================================== *)
(** ** Line classifier *)
(* ================================================================== *)

Record LineStats : Type := mkLineStats {
  totalLines : Z;
  codeLines : Z;
  commentLines : Z;
  blankLines : Z
}.

Record MultiPattern : Type := mkMulti { m_start : string; m_end : string }.

Record CommentPatterns : Type := mkPatterns {
  single : list string;
  multi : list MultiPattern
}.

Definition languageMap : OMap.t string :=
  [ (".js", "JavaScript"); (".jsx", "JavaScript");
    (".ts", "TypeScript"); (".tsx", "TypeScript");
    (".py", "Python"); (".java", "Java"); (".cpp", "C++"); (".c", "C");
    (".h", "C/C++"); (".cs", "C#"); (".php", "PHP"); (".rb", "Ruby");
    (".go", "Go"); (".rs", "Rust"); (".swift", "Swift"); (".kt", "Kotlin");
    (".scala", "Scala"); (".html", "HTML"); (".css", "CSS");
    (".scss", "SCSS"); (".vue", "Vue"); (".svelte", "Svelte") ].

(** ['.' + path.split('.').pop()?.toLowerCase()] *)
Definition extensionOf (path : string) : string :=
  String "."%char
    match JS.pop (JS.split "."%char path) with
    | Some last => JS.toLowerCase last
    | None => "undefined"
    end.

Definition getLanguageFromFile (filePath : string) : string :=
  let ext := extensionOf filePath in
  match OMap.get languageMap ext with
  | Some language => language
  | None => "Other"
  end.

(** Three double-quote characters, the Python block delimiter. *)
Definition tripleQuote : string :=
  let dq := ascii_of_nat 34 in String dq (String dq (String dq EmptyString)).

Definition c_style : CommentPatterns := mkPatterns ["//"] [mkMulti "/*" "*/"].

Definition commentPatternTable : OMap.t CommentPatterns :=
  [ ("JavaScript", c_style); ("TypeScript", c_style);
    ("Python", mkPatterns ["#"]
                 [mkMulti tripleQuote tripleQuote; mkMulti "'''" "'''"]);
    ("Java", c_style); ("C++", c_style); ("C", c_style); ("C#", c_style);
    ("PHP", mkPatterns ["//"; "#"] [mkMulti "/*" "*/"]);
    ("Ruby", mkPatterns ["#"] [mkMulti "=begin" "=end"]);
    ("Go", c_style); ("Rust", c_style);
    ("HTML", mkPatterns [] [mkMulti "<!--" "-->"]);
    ("CSS", mkPatterns [] [mkMulti "/*" "*/"]) ].

Definition getCommentPatterns (language : string) : CommentPatterns :=
  match OMap.get commentPatternTable language with
  | Some p => p
  | None => mkPatterns [] []
  end.

Definition isCommentLine (line : string) (patterns : CommentPatterns) : bool :=
  existsb (fun pattern => JS.startsWith line pattern) (single patterns)
  || existsb (fun pattern => JS.startsWith line (m_start pattern)) (multi patterns).

(** The three counters of the loop of [analyzeTextContent]. *)
Record Counters : Type := mkCounters { n_code : Z; n_comment : Z; n_blank : Z }.

Definition classifyLine (patterns : CommentPatterns) (acc : Counters) (line : string)
  : Counters :=
  let trimmedLine := JS.trim line in
  if String.eqb trimmedLine EmptyString then
    mkCounters (n_code acc) (n_comment acc) (n_blank acc + 1)
  else if isCommentLine trimmedLine patterns then
    mkCounters (n_code acc) (n_comment acc + 1) (n_blank acc)
  else
    mkCounters (n_code acc + 1) (n_comment acc) (n_blank acc).

Definition analyzeTextContent (content filePath : string) : LineStats :=
  let lines := JS.split JS.LF content in
  let language := getLanguageFromFile filePath in
  let commentPatterns := getCommentPatterns language in
  let acc := fold_left (classifyLine commentPatterns) lines (mkCounters 0 0 0) in
  mkLineStats (Z.of_nat (List.length lines)) (n_code acc) (n_comment acc) (n_blank acc).


(* ================================================================== *)
(** ** Data model *)
(* ================================================================== *)

(** Of the records that the API returns ([Repository], [User], the
    organisation) only the fields that the service reads are kept; the
    records that the service builds have all their fields. *)

Module GitHubConfig.
Record t : Type := mk { token : string; organization : string }.
End GitHubConfig.

Module Organization.
Record t : Type := mk { login : string }.
End Organization.

Module Repository.
Record t : Type := mk {
  id : Z;
  name : string;
  full_name : string;
  default_branch : string
}.
End Repository.

Module User.
(** [email] is [None] for [null] and for the entries of the member
    listing, which carry no email at all. *)
Record t : Type := mk { login : string; email : option string }.
End User.

Module GitPerson.
Record t : Type := mk { name : string; email : string; date : string }.
End GitPerson.

(** A commit as the commit listing returns it. *)
Module RawCommit.
Record t : Type := mk {
  sha : string;
  commit_author : option GitPerson.t;
  commit_committer : option GitPerson.t;
  commit_message : string;
  html_url : string
}.
End RawCommit.

Module Commit.
Record t : Type := mk {
  sha : string;
  author : GitPerson.t;
  committer : GitPerson.t;
  message : string;
  url : string
}.
End Commit.

(** A pull request as the listing returns it. *)
Module RawPullRequest.
Record t : Type := mk {
  id : Z;
  number : Z;
  title : string;
  state : string;
  user : User.t;
  created_at : string;
  updated_at : string;
  closed_at : option string;
  merged_at : option string;
  html_url : string;
  additions : option Z;
  deletions : option Z;
  changed_files : option Z
}.
End RawPullRequest.

Module PullRequest.
Record t : Type := mk {
  id : Z;
  number : Z;
  title : string;
  state : string;
  user : User.t;
  created_at : string;
  updated_at : string;
  closed_at : option string;
  merged_at : option string;
  html_url : string;
  additions : Z;
  deletions : Z;
  changed_files : Z
}.
End PullRequest.

Module TreeEntry.
Record t : Type := mk { path : string; type : string; size : Z; url : string }.
End TreeEntry.

Module Blob.
Record t : Type := mk { encoding : string; content : string }.
End Blob.

Module LanguageEntry.
Record t : Type := mk { lines : Z; files : Z; percentage : Q }.
End LanguageEntry.

Module CodeStats.
Record t : Type := mk {
  repository : string;
  branch : string;
  totalLines : Z;
  codeLines : Z;
  commentLines : Z;
  blankLines : Z;
  fileCount : Z;
  languageBreakdown : OMap.t LanguageEntry.t
}.
End CodeStats.

Module UserStats.
Record t : Type := mk {
  user : User.t;
  commits : Z;
  pullRequests : Z;
  linesAdded : Z;
  linesDeleted : Z;
  lastActivity : string
}.
End UserStats.

Module RecentActivity.
Record t : Type := mk {
  commits : list Commit.t;
  pullRequests : list PullRequest.t
}.
End RecentActivity.

Module OrganizationStats.
Record t : Type := mk {
  organization : string;
  totalRepositories : Z;
  totalMembers : Z;
  totalCommits : Z;
  totalPullRequests : Z;
  totalLinesOfCode : Z;
  topLanguages : OMap.t Z;
  repositories : list Repository.t;
  members : list User.t;
  userStats : list UserStats.t;
  codeStats : list CodeStats.t;
  recentActivity : RecentActivity.t
}.
End OrganizationStats.

(* ================================================================== *)
(** ** The remote API and the monad of [async] code *)
(* ================================================================== *)

(** The URL of a request, by endpoint. *)
Inductive Request : Type :=
| GET_org (org : string)
| GET_org_repos (org : string) (per_page page : nat)
| GET_org_members (org : string) (per_page page : nat)
| GET_user_detail (login : string)
| GET_commits (org repo sha : string) (per_page page : nat)
| GET_pulls (org repo : string) (per_page page : nat)
| GET_tree (full_name branch : string)
| GET_url (url : string).

Inductive Error : Type :=
| GitHubApiError (status : Z) (statusText : string)
| FetchRejected (message : string)
| InvalidCharacterError.

(** What [fetch] and [response.json()] give for one request. *)
Inductive Response (A : Type) : Type :=
| Ok (data : A)
| NotOk (status : Z) (statusText : string)
| Rejected (message : string).
Arguments Ok {A} data.
Arguments NotOk {A} status statusText.
Arguments Rejected {A} message.

(** The remote side: the answer to every request, typed by endpoint. *)
Record Server : Type := mkServer {
  srv_org : string -> Response Organization.t;
  srv_org_repos : string -> nat -> nat -> Response (list Repository.t);
  srv_org_members : string -> nat -> nat -> Response (list User.t);
  srv_user_detail : string -> Response User.t;
  srv_commits : string -> string -> string -> nat -> nat -> Response (list RawCommit.t);
  srv_pulls : string -> string -> nat -> nat -> Response (list RawPullRequest.t);
  srv_tree : string -> string -> Response (list TreeEntry.t);
  srv_url : string -> Response Blob.t
}.

Inductive Outcome (A : Type) : Type :=
| Ret (a : A)
| Throw (e : Error)
| OutOfFuel.
Arguments Ret {A} a.
Arguments Throw {A} e.
Arguments OutOfFuel {A}.

Definition IO (A : Type) : Type := list Request -> Outcome A * list Request.

Definition ret {A : Type} (a : A) : IO A := fun log => (Ret a, log).

Definition throw {A : Type} (e : Error) : IO A := fun log => (Throw e, log).

Definition outOfFuel {A : Type} : IO A := fun log => (OutOfFuel, log).

Definition bind {A B : Type} (m : IO A) (k : A -> IO B) : IO B :=
  fun log =>
    match m log with
    | (Ret a, log') => k a log'
    | (Throw e, log') => (Throw e, log')
    | (OutOfFuel, log') => (OutOfFuel, log')
    end.

(** [try { m } catch (error) { handler }] *)
Definition try_catch {A : Type} (m : IO A) (handler : Error -> IO A) : IO A :=
  fun log =>
    match m log with
    | (Throw e, log') => handler e log'
    | other => other
    end.

Declare Scope io_scope.
Delimit Scope io_scope with io.
Notation "x <- c1 ;; c2" := (bind c1 (fun x => c2))
  (at level 61, c1 at next level, right associativity) : io_scope.
Notation "' pat <- c1 ;; c2" :=
  (bind c1 (fun x => match x with pat => c2 end))
  (at level 61, pat pattern, c1 at next level, right associativity) : io_scope.
Local Open Scope io_scope.

(** The result of a [try] block, for a [catch] that leaves the loop. *)
Definition attempt {A : Type} (m : IO A) : IO (Error + A) :=
  try_catch (a <- m ;; ret (inr a)) (fun e => ret (inl e)).

(** [Promise.all(l.map(f))]: the calls start in list order. *)
Fixpoint mapIO {A B : Type} (f : A -> IO B) (l : list A) : IO (list B) :=
  match l with
  | [] => ret []
  | a :: l' => b <- f a ;; bs <- mapIO f l' ;; ret (b :: bs)
  end.

(** [makeRequest(url)]: the request is sent, and its answer decides
    between the decoded body and a thrown error. *)
Definition makeRequest {A : Type} (url : Request) (response : Response A) : IO A :=
  fun log =>
    match response with
    | Ok data => (Ret data, log ++ [url])
    | NotOk status statusText => (Throw (GitHubApiError status statusText), log ++ [url])
    | Rejected message => (Throw (FetchRejected message), log ++ [url])
    end.

(* ================================================================== *)
(** ** class [GitHubApiService] *)
(* ================================================================== *)

Definition zeroLineStats : LineStats := mkLineStats 0 0 0 0.

Definition includeExtensions : list string :=
  [ ".js"; ".jsx"; ".ts"; ".tsx"; ".py"; ".java"; ".cpp"; ".c"; ".h"; ".cs";
    ".php"; ".rb"; ".go"; ".rs"; ".swift"; ".kt"; ".scala"; ".clj"; ".hs";
    ".ml"; ".r"; ".m"; ".pl"; ".sh"; ".sql"; ".html"; ".css"; ".scss";
    ".less"; ".vue"; ".svelte"; ".dart"; ".lua"; ".nim"; ".zig" ].

(** [a.includes(s)] on an array of strings. *)
Definition includes (a : list string) (s : string) : bool :=
  existsb (String.eqb s) a.

(** The callback of [data.tree.filter] in [getRepositoryFiles]. *)
Definition isCodeFile (item : TreeEntry.t) : bool :=
  if negb (String.eqb (TreeEntry.type item) "blob") then false
  else includes includeExtensions (extensionOf (TreeEntry.path item)).

(** [s || d] on strings: the empty string is falsy. *)
Definition orElse (s d : string) : string :=
  if String.eqb s EmptyString then d else s.

(** [person?.field || d] *)
Definition fieldOr (person : option GitPerson.t) (field : GitPerson.t -> string)
           (d : string) : string :=
  match person with
  | Some p => orElse (field p) d
  | None => d
  end.

Definition personOf (person : option GitPerson.t) : GitPerson.t :=
  GitPerson.mk (fieldOr person GitPerson.name "Unknown")
               (fieldOr person GitPerson.email EmptyString)
               (fieldOr person GitPerson.date EmptyString).

(** The callback of [data.map] in [getRepositoryCommits]. *)
Definition mapCommit (commit : RawCommit.t) : Commit.t :=
  Commit.mk (RawCommit.sha commit)
            (personOf (RawCommit.commit_author commit))
            (personOf (RawCommit.commit_committer commit))
            (RawCommit.commit_message commit)
            (RawCommit.html_url commit).

(** A string that may be missing, used as a condition. *)
Definition truthy (s : option string) : bool :=
  match s with
  | Some v => negb (String.eqb v EmptyString)
  | None => false
  end.

(** [n || 0] *)
Definition numberOr0 (n : option Z) : Z :=
  match n with Some v => v | None => 0 end.

(** The callback of [data.map] in [getRepositoryPullRequests]. *)
Definition mapPullRequest (pr : RawPullRequest.t) : PullRequest.t :=
  PullRequest.mk (RawPullRequest.id pr) (RawPullRequest.number pr)
    (RawPullRequest.title pr)
    (if truthy (RawPullRequest.merged_at pr) then "merged" else RawPullRequest.state pr)
    (RawPullRequest.user pr) (RawPullRequest.created_at pr)
    (RawPullRequest.updated_at pr) (RawPullRequest.closed_at pr)
    (RawPullRequest.merged_at pr) (RawPullRequest.html_url pr)
    (numberOr0 (RawPullRequest.additions pr))
    (numberOr0 (RawPullRequest.deletions pr))
    (numberOr0 (RawPullRequest.changed_files pr)).

(** The statements of the file loop of [analyzeRepositoryCode] that
    follow the two [await]ed calls. *)
Definition accumulate (stats : CodeStats.t) (language : string) (fileStats : LineStats)
  : CodeStats.t :=
  let breakdown := CodeStats.languageBreakdown stats in
  let breakdown :=
    match OMap.get breakdown language with
    | Some _ => breakdown
    | None => OMap.set breakdown language (LanguageEntry.mk 0 0 0%Q)
    end in
  let breakdown :=
    match OMap.get breakdown language with
    | Some e =>
        OMap.set breakdown language
          (LanguageEntry.mk (LanguageEntry.lines e + totalLines fileStats)
                            (LanguageEntry.files e + 1)
                            (LanguageEntry.percentage e))
    | None => breakdown
    end in
  CodeStats.mk (CodeStats.repository stats) (CodeStats.branch stats)
    (CodeStats.totalLines stats + totalLines fileStats)
    (CodeStats.codeLines stats + codeLines fileStats)
    (CodeStats.commentLines stats + commentLines fileStats)
    (CodeStats.blankLines stats + blankLines fileStats)
    (CodeStats.fileCount stats)
    breakdown.

(** The arithmetic of JavaScript numbers on fractions: IEEE 754 binary64
    with rounding to nearest, ties to even.  A finite number is given by
    its exact value.  Results of magnitude 2^1024 and above (Infinity) are
    not modelled; the quotients and products taken here are at most 100. *)
Module Binary64.

(** [2 ^ e], for any integer [e]. *)
Definition pow2 (e : Z) : Q := Qpower 2 e.

(** The integer nearest to [y], the even one of two that are equally
    near. *)
Definition nearestInteger (y : Q) : Z :=
  let p := Qnum y in
  let q := Zpos (Qden y) in
  let fl := p / q in
  match 2 * (p mod q) ?= q with
  | Lt => fl
  | Gt => fl + 1
  | Eq => if Z.even fl then fl else fl + 1
  end.

(** The exponent [e] of the last of 53 significant bits of [x > 0]:
    [2 ^ (e + 52) <= x < 2 ^ (e + 53)]. *)
Definition normalExponent (x : Q) : Z :=
  let e0 := Z.log2 (Qnum x) - Z.log2 (Zpos (Qden x)) - 52 in
  if Qle_bool (pow2 (e0 + 52)) x then e0 else e0 - 1.

(** Below [2 ^ -1022] the numbers are subnormal: multiples of
    [2 ^ -1074]. *)
Definition exponent (x : Q) : Z := Z.max (normalExponent x) (-1074).

Definition roundPositive (x : Q) : Q :=
  let e := exponent x in
  Qred (inject_Z (nearestInteger (x * pow2 (- e))) * pow2 e).

(** The binary64 number nearest to [x]. *)
Definition round (x : Q) : Q :=
  match Qnum x with
  | Z0 => 0%Q
  | Zpos _ => roundPositive x
  | Zneg _ => Qopp (roundPositive (Qopp x))
  end.

(** [a / b] and [a * b] on numbers. *)
Definition div (a b : Q) : Q := round (a / b).
Definition mul (a b : Q) : Q := round (a * b).

End Binary64.

(** [(lines / totalLines) * 100] *)
Definition percentageOf (lines total : Z) : Q :=
  Binary64.mul (Binary64.div (inject_Z lines) (inject_Z total)) (inject_Z 100).

(** The [Object.keys(...).forEach] that ends [analyzeRepositoryCode]. *)
Definition calculatePercentages (stats : CodeStats.t) : CodeStats.t :=
  let total := CodeStats.totalLines stats in
  let update (kv : string * LanguageEntry.t) :=
    let (language, e) := kv in
    if 0 <? total then
      (language, LanguageEntry.mk (LanguageEntry.lines e) (LanguageEntry.files e)
                   (percentageOf (LanguageEntry.lines e) total))
    else (language, e) in
  CodeStats.mk (CodeStats.repository stats) (CodeStats.branch stats)
    total (CodeStats.codeLines stats) (CodeStats.commentLines stats)
    (CodeStats.blankLines stats) (CodeStats.fileCount stats)
    (map update (CodeStats.languageBreakdown stats)).

Definition initialStats (repo : Repository.t) : CodeStats.t :=
  CodeStats.mk (Repository.name repo) (Repository.default_branch repo)
    0 0 0 0 0 OMap.empty.

Definition withFileCount (stats : CodeStats.t) (n : Z) : CodeStats.t :=
  CodeStats.mk (CodeStats.repository stats) (CodeStats.branch stats)
    (CodeStats.totalLines stats) (CodeStats.codeLines stats)
    (CodeStats.commentLines stats) (CodeStats.blankLines stats)
    n (CodeStats.languageBreakdown stats).

Section GitHubApiService.

Variable srv : Server.
Variable config : GitHubConfig.t.

Let organization : string := GitHubConfig.organization config.

Definition getOrganization : IO Organization.t :=
  makeRequest (GET_org organization) (srv_org srv organization).

(** [while (hasMore) { ... }] of [getRepositories]; one unit of fuel
    per turn of the loop. *)
Fixpoint getRepositories_loop (fuel : nat) (repositories : list Repository.t)
         (page : nat) (hasMore : bool) : IO (list Repository.t) :=
  if hasMore then
    match fuel with
    | O => outOfFuel
    | S fuel' =>
        data <- makeRequest (GET_org_repos organization 100 page)
                            (srv_org_repos srv organization 100 page) ;;
        let repositories := repositories ++ data in
        let hasMore := (List.length data =? 100)%nat in
        let page := (page + 1)%nat in
        getRepositories_loop fuel' repositories page hasMore
    end
  else ret repositories.

Definition getRepositories (fuel : nat) : IO (list Repository.t) :=
  getRepositories_loop fuel [] 1%nat true.

(** The callback of [data.map] in [getOrganizationMembers]. *)
Definition memberDetail (member : User.t) : IO User.t :=
  try_catch
    (makeRequest (GET_user_detail (User.login member))
                 (srv_user_detail srv (User.login member)))
    (fun _ => ret member).

Fixpoint getOrganizationMembers_loop (fuel : nat) (members : list User.t)
         (page : nat) (hasMore : bool) : IO (list User.t) :=
  if hasMore then
    match fuel with
    | O => outOfFuel
    | S fuel' =>
        data <- makeRequest (GET_org_members organization 100 page)
                            (srv_org_members srv organization 100 page) ;;
        detailedMembers <- mapIO memberDetail data ;;
        let members := members ++ detailedMembers in
        let hasMore := (List.length data =? 100)%nat in
        let page := (page + 1)%nat in
        getOrganizationMembers_loop fuel' members page hasMore
    end
  else ret members.

Definition getOrganizationMembers (fuel : nat) : IO (list User.t) :=
  getOrganizationMembers_loop fuel [] 1%nat true.

(** [while (hasMore && page <= 10)]: the [catch] leaves the loop. *)
Fixpoint getRepositoryCommits_loop (fuel : nat) (repo branch : string)
         (commits : list Commit.t) (page : nat) (hasMore : bool)
  : IO (list Commit.t) :=
  if hasMore && (page <=? 10)%nat then
    match fuel with
    | O => outOfFuel
    | S fuel' =>
        r <- attempt (makeRequest (GET_commits organization repo branch 100 page)
                        (srv_commits srv organization repo branch 100 page)) ;;
        match r with
        | inr data =>
            let commits := commits ++ map mapCommit data in
            let hasMore := (List.length data =? 100)%nat in
            let page := (page + 1)%nat in
            getRepositoryCommits_loop fuel' repo branch commits page hasMore
        | inl _ => ret commits
        end
    end
  else ret commits.

(** Ten turns are all the loop condition allows. *)
Definition getRepositoryCommits (repo branch : string) : IO (list Commit.t) :=
  getRepositoryCommits_loop 10 repo branch [] 1%nat true.

(** [while (hasMore && page <= 5)] *)
Fixpoint getRepositoryPullRequests_loop (fuel : nat) (repo : string)
         (pullRequests : list PullRequest.t) (page : nat) (hasMore : bool)
  : IO (list PullRequest.t) :=
  if hasMore && (page <=? 5)%nat then
    match fuel with
    | O => outOfFuel
    | S fuel' =>
        r <- attempt (makeRequest (GET_pulls organization repo 100 page)
                        (srv_pulls srv organization repo 100 page)) ;;
        match r with
        | inr data =>
            let pullRequests := pullRequests ++ map mapPullRequest data in
            let hasMore := (List.length data =? 100)%nat in
            let page := (page + 1)%nat in
            getRepositoryPullRequests_loop fuel' repo pullRequests page hasMore
        | inl _ => ret pullRequests
        end
    end
  else ret pullRequests.

Definition getRepositoryPullRequests (repo : string) : IO (list PullRequest.t) :=
  getRepositoryPullRequests_loop 5 repo [] 1%nat true.

Definition getRepositoryFiles (repo : Repository.t) : IO (list TreeEntry.t) :=
  try_catch
    (tree <- makeRequest
               (GET_tree (Repository.full_name repo) (Repository.default_branch repo))
               (srv_tree srv (Repository.full_name repo)
                         (Repository.default_branch repo)) ;;
     let codeFiles := filter isCodeFile tree in
     ret (JS.slice0 100 codeFiles))
    (fun _ => ret []).

Definition analyzeFileContent (file : TreeEntry.t) : IO LineStats :=
  try_catch
    (if 100000 <? TreeEntry.size file then ret zeroLineStats
     else
       data <- makeRequest (GET_url (TreeEntry.url file))
                           (srv_url srv (TreeEntry.url file)) ;;
       if String.eqb (Blob.encoding data) "base64" then
         match JS.atob (JS.removeLF (Blob.content data)) with
         | Some content => ret (analyzeTextContent content (TreeEntry.path file))
         | None => throw InvalidCharacterError
         end
       else ret zeroLineStats)
    (fun _ => ret zeroLineStats).

(** [for (const file of files) { try { ... } catch { } }] *)
Fixpoint analyzeFiles (files : list TreeEntry.t) (stats : CodeStats.t)
  : IO CodeStats.t :=
  match files with
  | [] => ret stats
  | file :: rest =>
      stats <- try_catch
                 (fileStats <- analyzeFileContent file ;;
                  let language := getLanguageFromFile (TreeEntry.path file) in
                  ret (accumulate stats language fileStats))
                 (fun _ => ret stats) ;;
      analyzeFiles rest stats
  end.

(** [analyzeRepositoryCode] from the line that follows
    [getRepositoryFiles]. *)
Definition analyzeSelectedFiles (repo : Repository.t) (files : list TreeEntry.t)
  : IO CodeStats.t :=
  let stats := withFileCount (initialStats repo) (Z.of_nat (List.length files)) in
  stats <- analyzeFiles files stats ;;
  ret (calculatePercentages stats).

(** The outer handler returns [stats] as it stands; nothing inside
    throws (each callee has its own handler), so that is never more
    than the initial record here. *)
Definition analyzeRepositoryCode (repo : Repository.t) : IO CodeStats.t :=
  try_catch
    (files <- getRepositoryFiles repo ;;
     analyzeSelectedFiles repo files)
    (fun _ => ret (initialStats repo)).

End GitHubApiService.

(* ================================================================== *)
(** ** Organisation aggregator *)
(* ================================================================== *)

(** [member.email === email] *)
Definition emailIs (email : string) (member : User.t) : bool :=
  match User.email member with
  | Some e => String.eqb e email
  | None => false
  end.

Definition findUserByEmail (members : list User.t) (email : string) : option User.t :=
  JS.find (emailIs email) members.

Definition sumZ {A : Type} (f : A -> Z) (l : list A) : Z :=
  fold_left (fun total a => total + f a) l 0.

Section Aggregator.

(** [new Date(s).getTime()]: milliseconds since the epoch, [None] for
    an invalid date.  The parser belongs to the platform; the
    aggregator is stated for any. *)
Variable Date_parse : string -> option Z.

(** [new Date(userStats.lastActivity || 0)] *)
Definition lastActivityTime (lastActivity : string) : option Z :=
  if String.eqb lastActivity EmptyString then Some 0 else Date_parse lastActivity.

Definition initUserStats (m : OMap.t UserStats.t) (member : User.t)
  : OMap.t UserStats.t :=
  OMap.set m (User.login member) (UserStats.mk member 0 0 0 0 EmptyString).

(** The callback of [commits.forEach] in [computeUserStats]. *)
Definition processCommit (members : list User.t) (m : OMap.t UserStats.t)
           (commit : Commit.t) : OMap.t UserStats.t :=
  match findUserByEmail members (GitPerson.email (Commit.author commit)) with
  | None => m
  | Some member =>
      let authorLogin := User.login member in
      if negb (String.eqb authorLogin EmptyString) && OMap.has m authorLogin then
        match OMap.get m authorLogin with
        | None => m
        | Some userStats =>
            let commitDate := Date_parse (GitPerson.date (Commit.author commit)) in
            let lastActivity := lastActivityTime (UserStats.lastActivity userStats) in
            OMap.set m authorLogin
              (UserStats.mk (UserStats.user userStats)
                 (UserStats.commits userStats + 1)
                 (UserStats.pullRequests userStats)
                 (UserStats.linesAdded userStats)
                 (UserStats.linesDeleted userStats)
                 (if JS.gt commitDate lastActivity
                  then GitPerson.date (Commit.author commit)
                  else UserStats.lastActivity userStats))
        end
      else m
  end.

(** The callback of [pullRequests.forEach] in [computeUserStats]. *)
Definition processPullRequest (m : OMap.t UserStats.t) (pr : PullRequest.t)
  : OMap.t UserStats.t :=
  let userLogin := User.login (PullRequest.user pr) in
  match OMap.get m userLogin with
  | None => m
  | Some userStats =>
      let prDate := Date_parse (PullRequest.created_at pr) in
      let lastActivity := lastActivityTime (UserStats.lastActivity userStats) in
      OMap.set m userLogin
        (UserStats.mk (UserStats.user userStats)
           (UserStats.commits userStats)
           (UserStats.pullRequests userStats + 1)
           (UserStats.linesAdded userStats + PullRequest.additions pr)
           (UserStats.linesDeleted userStats + PullRequest.deletions pr)
           (if JS.gt prDate lastActivity
            then PullRequest.created_at pr
            else UserStats.lastActivity userStats))
  end.

(** [userStatsMap] once the members and the commits are processed. *)
Definition userStatsAfterCommits (members : list User.t) (commits : list Commit.t)
  : OMap.t UserStats.t :=
  fold_left (processCommit members) commits
            (fold_left initUserStats members OMap.empty).

Definition computeUserStats (members : list User.t) (repositories : list Repository.t)
           (commits : list Commit.t) (pullRequests : list PullRequest.t)
  : list UserStats.t :=
  let userStatsMap := userStatsAfterCommits members commits in
  let userStatsMap := fold_left processPullRequest pullRequests userStatsMap in
  OMap.values userStatsMap.

(** The comparators of [computeOrganizationStats]. *)
Definition byCommitDate (a b : Commit.t) : option Z :=
  JS.sub (Date_parse (GitPerson.date (Commit.author b)))
         (Date_parse (GitPerson.date (Commit.author a))).

Definition byCreatedAt (a b : PullRequest.t) : option Z :=
  JS.sub (Date_parse (PullRequest.created_at b))
         (Date_parse (PullRequest.created_at a)).

Definition byLines (a b : string * Z) : option Z := Some (snd b - snd a).

(** [languageMap.set(language, (languageMap.get(language) || 0) + data.lines)] *)
Definition addLanguage (languageMap : OMap.t Z) (kv : string * LanguageEntry.t)
  : OMap.t Z :=
  let (language, data) := kv in
  OMap.set languageMap language
           (numberOr0 (OMap.get languageMap language) + LanguageEntry.lines data).

(** [Object.fromEntries] *)
Definition fromEntries (entries : list (string * Z)) : OMap.t Z :=
  fold_left (fun o kv => OMap.set o (fst kv) (snd kv)) entries OMap.empty.

Definition computeOrganizationStats (org : Organization.t)
           (repositories : list Repository.t) (members : list User.t)
           (userStats : list UserStats.t) (codeStats : list CodeStats.t)
           (recentCommits : list Commit.t) (recentPullRequests : list PullRequest.t)
  : OrganizationStats.t :=
  let totalLinesOfCode := sumZ CodeStats.totalLines codeStats in
  let languageMap :=
    fold_left (fun lm stats => fold_left addLanguage (CodeStats.languageBreakdown stats) lm)
              codeStats OMap.empty in
  let topLanguages := fromEntries (JS.slice0 10 (JS.sort byLines languageMap)) in
  let sortedCommits := JS.slice0 50 (JS.sort byCommitDate recentCommits) in
  let sortedPullRequests := JS.slice0 50 (JS.sort byCreatedAt recentPullRequests) in
  OrganizationStats.mk (Organization.login org)
    (Z.of_nat (List.length repositories))
    (Z.of_nat (List.length members))
    (sumZ UserStats.commits userStats)
    (sumZ UserStats.pullRequests userStats)
    totalLinesOfCode topLanguages repositories members userStats codeStats
    (RecentActivity.mk sortedCommits sortedPullRequests).

Variable srv : Server.
Variable config : GitHubConfig.t.

(** The accumulators of the repository loop of [performFullAnalysis]. *)
Definition Pools : Type :=
  (list CodeStats.t * list Commit.t * list PullRequest.t)%type.

(** [for (const repo of repositories) { try { ... } catch { } }].  The
    handler keeps what the block had pushed before the error:
    [codeStats] is extended before the two listings are fetched, the
    two pools only after both. *)
Fixpoint analyzeRepositories (repositories : list Repository.t) (pools : Pools)
  : IO Pools :=
  match repositories with
  | [] => ret pools
  | repo :: rest =>
      let '(codeStats, recentCommits, recentPullRequests) := pools in
      pools <- try_catch
        (repoCodeStats <- analyzeRepositoryCode srv repo ;;
         let codeStats := codeStats ++ [repoCodeStats] in
         try_catch
           (commits <- getRepositoryCommits srv config (Repository.name repo) "main" ;;
            pullRequests <- getRepositoryPullRequests srv config (Repository.name repo) ;;
            ret (codeStats,
                 recentCommits ++ JS.slice0 10 commits,
                 recentPullRequests ++ JS.slice0 5 pullRequests))
           (fun _ => ret (codeStats, recentCommits, recentPullRequests)))
        (fun _ => ret (codeStats, recentCommits, recentPullRequests)) ;;
      analyzeRepositories rest pools
  end.

Definition performFullAnalysis (fuel : nat) : IO OrganizationStats.t :=
  org <- getOrganization srv config ;;
  repositories <- getRepositories srv config fuel ;;
  members <- getOrganizationMembers srv config fuel ;;
  ' (codeStats, recentCommits, recentPullRequests) <-
      analyzeRepositories repositories ([], [], []) ;;
  let userStats := computeUserStats members repositories recentCommits recentPullRequests in
  ret (computeOrganizationStats org repositories members userStats codeStats
         recentCommits recentPullRequests).

End Aggregator.

(* ================================================================== *)
(** ** Vocabulary of the properties *)
(* ================================================================== *)

(** How often the code unit [c] occurs in [s]. *)
Fixpoint occurrences (c : ascii) (s : string) : nat :=
  match s with
  | EmptyString => O
  | String c' s' => ((if Ascii.eqb c' c then 1 else 0) + occurrences c s')%nat
  end.

(** [totalLines == codeLines + commentLines + blankLines] *)
Definition linesAddUp (s : LineStats) : Prop :=
  totalLines s = codeLines s + commentLines s + blankLines s.

Definition codeStatsAddUp (s : CodeStats.t) : Prop :=
  CodeStats.totalLines s
  = CodeStats.codeLines s + CodeStats.commentLines s + CodeStats.blankLines s.

(** The sum of a measure over the values of a map. *)
Definition sumValues {V : Type} (f : V -> Z) (m : OMap.t V) : Z :=
  fold_right (fun kv acc => f (snd kv) + acc) 0 m.

Definition sumLines (b : OMap.t LanguageEntry.t) : Z :=
  sumValues LanguageEntry.lines b.

(** The sum over all languages of [languageBreakdown[language].percentage]. *)
Definition sumPercentages (b : OMap.t LanguageEntry.t) : Q :=
  fold_right (fun kv acc => LanguageEntry.percentage (snd kv) + acc)%Q 0%Q b.

(** The requests that [analyzeFileContent] sends for a file. *)
Definition fileRequests (file : TreeEntry.t) : list Request :=
  if 100000 <? TreeEntry.size file then [] else [GET_url (TreeEntry.url file)].

(** The counts that [analyzeFileContent] returns for a file. *)
Definition lineStatsOf (srv : Server) (file : TreeEntry.t) : LineStats :=
  if 100000 <? TreeEntry.size file then zeroLineStats
  else match srv_url srv (TreeEntry.url file) with
       | Ok data =>
           if String.eqb (Blob.encoding data) "base64" then
             match JS.atob (JS.removeLF (Blob.content data)) with
             | Some content => analyzeTextContent content (TreeEntry.path file)
             | None => zeroLineStats
             end
           else zeroLineStats
       | _ => zeroLineStats
       end.

(** One turn of the file loop. *)
Definition countFile (srv : Server) (stats : CodeStats.t) (file : TreeEntry.t)
  : CodeStats.t :=
  accumulate stats (getLanguageFromFile (TreeEntry.path file)) (lineStatsOf srv file).

(** The entries that [getRepositoryFiles] returns. *)
Definition selectedFiles (srv : Server) (repo : Repository.t) : list TreeEntry.t :=
  match srv_tree srv (Repository.full_name repo) (Repository.default_branch repo) with
  | Ok tree => firstn 100 (filter isCodeFile tree)
  | _ => []
  end.

(** The record that [analyzeSelectedFiles] returns. *)
Definition statsOfFiles (srv : Server) (repo : Repository.t) (files : list TreeEntry.t)
  : CodeStats.t :=
  calculatePercentages
    (fold_left (countFile srv) files
       (withFileCount (initialStats repo) (Z.of_nat (List.length files)))).

(** The invariant of the loop: the three classes add up to the total,
    the per-language lines add up to the total, and no percentage has
    been written yet. *)
Record loopInvariant (stats : CodeStats.t) : Prop := mkInv {
  inv_addUp : codeStatsAddUp stats;
  inv_nonneg : 0 <= CodeStats.totalLines stats;
  inv_lines : sumLines (CodeStats.languageBreakdown stats) = CodeStats.totalLines stats;
  inv_percent : Forall (fun kv => LanguageEntry.percentage (snd kv) = 0%Q)
                       (CodeStats.languageBreakdown stats)
}.

(** [languageBreakdown[language]], read as the zero entry when absent. *)
Definition entryOrZero (b : OMap.t LanguageEntry.t) (language : string) : LanguageEntry.t :=
  match OMap.get b language with
  | Some e => e
  | None => LanguageEntry.mk 0 0 0%Q
  end.

(** [withFile] is [without] plus one file of [language] that has no lines. *)
Record extraFile (language : string) (withFile without : CodeStats.t) : Prop := mkExtra {
  extra_total : CodeStats.totalLines withFile = CodeStats.totalLines without;
  extra_code : CodeStats.codeLines withFile = CodeStats.codeLines without;
  extra_comment : CodeStats.commentLines withFile = CodeStats.commentLines without;
  extra_blank : CodeStats.blankLines withFile = CodeStats.blankLines without;
  extra_others :
    forall k : string, k <> language ->
      OMap.get (CodeStats.languageBreakdown withFile) k
      = OMap.get (CodeStats.languageBreakdown without) k;
  extra_entry :
    exists e : LanguageEntry.t,
      OMap.get (CodeStats.languageBreakdown withFile) language = Some e
      /\ LanguageEntry.lines e
         = LanguageEntry.lines (entryOrZero (CodeStats.languageBreakdown without) language)
      /\ LanguageEntry.files e
         = LanguageEntry.files (entryOrZero (CodeStats.languageBreakdown without) language) + 1
      /\ (LanguageEntry.percentage e
          == LanguageEntry.percentage
               (entryOrZero (CodeStats.languageBreakdown without) language))%Q
}.

(** The items of an answered page. *)
Definition pageData {A : Type} (r : Response (list A)) : list A :=
  match r with
  | Ok data => data
  | _ => []
  end.

(** The page came back with exactly 100 items. *)
Definition fullPage {A : Type} (r : Response (list A)) : Prop :=
  exists data : list A, r = Ok data /\ List.length data = 100%nat.

(** The page came back with another number of items; the API never
    returns more than the 100 asked for, so that means fewer. *)
Definition shortPage {A : Type} (r : Response (list A)) : Prop :=
  exists data : list A, r = Ok data /\ List.length data <> 100%nat.

(** What [memberDetail] returns for a listed member. *)
Definition detailOf (srv : Server) (member : User.t) : User.t :=
  match srv_user_detail srv (User.login member) with
  | Ok user => user
  | _ => member
  end.

(** The requests of one turn of the member loop. *)
Definition memberPageRequests (srv : Server) (org : string) (page : nat) : list Request :=
  GET_org_members org 100 page
    :: map (fun member => GET_user_detail (User.login member))
           (pageData (srv_org_members srv org 100 page)).

(** The error that [makeRequest] throws for an answer, if any. *)
Definition errorOf {A : Type} (r : Response A) : option Error :=
  match r with
  | Ok _ => None
  | NotOk status statusText => Some (GitHubApiError status statusText)
  | Rejected message => Some (FetchRejected message)
  end.

(** A member's [commits] tally in [userStatsMap], by login. *)
Definition tally (m : OMap.t UserStats.t) (login : string) : option Z :=
  option_map UserStats.commits (OMap.get m login).

(** The parsed author dates of a list of commits. *)
Definition commitTimes (Date_parse : string -> option Z) (l : list Commit.t)
  : list (option Z) :=
  map (fun c => Date_parse (GitPerson.date (Commit.author c))) l.

(** An earlier entry carries a strictly earlier date than a later one. *)
Definition outOfOrder (times : list (option Z)) : Prop :=
  exists (i j : nat) (a b : Z),
    (i < j)%nat
    /\ nth_error times i = Some (Some a)
    /\ nth_error times j = Some (Some b)
    /\ a < b.

(** Sorted non-increasing by a key. *)
Definition descendingBy {A : Type} (key : A -> Z) (l : list A) : Prop :=
  StronglySorted (fun a b => key b <= key a) l.

(** The time of a valid date. *)
Definition timeOf (t : option Z) : Z :=
  match t with Some v => v | None => 0 end.

(** [(a, b) => key(b) - key(a)] *)
Definition descendingCompare {A : Type} (key : A -> Z) (a b : A) : option Z :=
  Some (key b - key a).

(* ================================================================== *)
(** ** The date-time strings of the API

    [Date_parse_iso] reads the one format the API emits,
    [YYYY-MM-DDTHH:MM:SSZ], as milliseconds since the epoch; every other
    string, the empty one among them, is an invalid date.  It stands for
    the platform's parser in the concrete runs below. *)
(* ================================================================== *)

Definition digitValue (c : ascii) : option Z :=
  let n := Z.of_nat (nat_of_ascii c) in
  if (48 <=? n) && (n <=? 57) then Some (n - 48) else None.

Fixpoint digits (l : list ascii) (acc : Z) : option Z :=
  match l with
  | [] => Some acc
  | c :: l' =>
      match digitValue c with
      | Some d => digits l' (10 * acc + d)
      | None => None
      end
  end.

Definition numberAt (s : string) (start len : nat) : option Z :=
  digits (list_ascii_of_string (String.substring start len s)) 0.

Definition charAt (s : string) (i : nat) (c : ascii) : bool :=
  match String.get i s with
  | Some c' => Ascii.eqb c' c
  | None => false
  end.

Definition isLeapYear (y : Z) : bool :=
  ((y mod 4 =? 0) && negb (y mod 100 =? 0)) || (y mod 400 =? 0).

Definition daysInMonth (y m : Z) : Z :=
  if m =? 2 then (if isLeapYear y then 29 else 28)
  else if (m =? 4) || (m =? 6) || (m =? 9) || (m =? 11) then 30
  else 31.

(** Days from 1970-01-01 to the civil date [y]-[m]-[d]. *)
Definition daysFromCivil (y m d : Z) : Z :=
  let y' := if m <=? 2 then y - 1 else y in
  let era := y' / 400 in
  let yoe := y' - era * 400 in
  let mp := if 2 <? m then m - 3 else m + 9 in
  let doy := (153 * mp + 2) / 5 + d - 1 in
  let doe := yoe * 365 + yoe / 4 - yoe / 100 + doy in
  era * 146097 + doe - 719468.

Definition Date_parse_iso (s : string) : option Z :=
  if (String.length s =? 20)%nat
     && charAt s 4 "-" && charAt s 7 "-" && charAt s 10 "T"
     && charAt s 13 ":" && charAt s 16 ":" && charAt s 19 "Z"
  then
    match numberAt s 0 4, numberAt s 5 2, numberAt s 8 2,
          numberAt s 11 2, numberAt s 14 2, numberAt s 17 2 with
    | Some y, Some mo, Some d, Some h, Some mi, Some se =>
        if (1 <=? mo) && (mo <=? 12) && (1 <=? d) && (d <=? daysInMonth y mo)
           && (h <=? 23) && (mi <=? 59) && (se <=? 59)
        then Some ((((daysFromCivil y mo d * 24 + h) * 60 + mi) * 60 + se) * 1000)
        else None
    | _, _, _, _, _, _ => None
    end
  else None.

(* ================================================================== *)
(** ** Sample organisations, repositories and files *)
(* ================================================================== *)

(** The content of the example: the line [a], the line [// b], and two
    line feeds. *)
Definition exampleContent : string :=
  String "a"%char (String JS.LF
    (String "/"%char (String "/"%char (String " "%char (String "b"%char
      (String JS.LF (String JS.LF EmptyString))))))).

(** A server that answers every request with an error. *)
Definition offline : Server :=
  mkServer (fun _ => NotOk 503 "Service Unavailable")
           (fun _ _ _ => NotOk 503 "Service Unavailable")
           (fun _ _ _ => NotOk 503 "Service Unavailable")
           (fun _ => NotOk 503 "Service Unavailable")
           (fun _ _ _ _ _ => NotOk 503 "Service Unavailable")
           (fun _ _ _ _ => NotOk 503 "Service Unavailable")
           (fun _ _ => NotOk 503 "Service Unavailable")
           (fun _ => NotOk 503 "Service Unavailable").

Definition demoRepo : Repository.t := Repository.mk 1 "demo" "acme/demo" "main".

Definition demoConfig : GitHubConfig.t := GitHubConfig.mk "ghp_token" "acme".

Definition bigFile : TreeEntry.t :=
  TreeEntry.mk "src/big.js" "blob" 100001 "https://api.github.com/repos/acme/demo/git/blobs/b1".

(** A root-level file called [go], next to entries that are not selected. *)
Definition goWrapper : TreeEntry.t :=
  TreeEntry.mk "go" "blob" 120 "https://api.github.com/repos/acme/demo/git/blobs/b2".

Definition demoTree : list TreeEntry.t :=
  [ TreeEntry.mk "Makefile" "blob" 300 "https://api.github.com/repos/acme/demo/git/blobs/b3";
    TreeEntry.mk "src" "tree" 0 "https://api.github.com/repos/acme/demo/git/trees/t1";
    goWrapper;
    TreeEntry.mk "bin/go" "blob" 120 "https://api.github.com/repos/acme/demo/git/blobs/b4";
    TreeEntry.mk "notes.txt" "blob" 40 "https://api.github.com/repos/acme/demo/git/blobs/b5" ].

(** A server that only knows the tree of the demo repository. *)
Definition treeServer : Server :=
  mkServer (srv_org offline) (srv_org_repos offline) (srv_org_members offline)
           (srv_user_detail offline) (srv_commits offline) (srv_pulls offline)
           (fun _ _ => Ok demoTree)
           (srv_url offline).

(** A repository of three files of one line each, in three languages;
    [eA==] is the base64 text of [x]. *)
Definition threeLanguageTree : list TreeEntry.t :=
  [ TreeEntry.mk "a.js" "blob" 1 "https://api.github.com/repos/acme/demo/git/blobs/c1";
    TreeEntry.mk "b.py" "blob" 1 "https://api.github.com/repos/acme/demo/git/blobs/c2";
    TreeEntry.mk "c.go" "blob" 1 "https://api.github.com/repos/acme/demo/git/blobs/c3" ].

Definition threeLanguageServer : Server :=
  mkServer (srv_org offline) (srv_org_repos offline) (srv_org_members offline)
           (srv_user_detail offline) (srv_commits offline) (srv_pulls offline)
           (fun _ _ => Ok threeLanguageTree)
           (fun _ => Ok (Blob.mk "base64" "eA==")).

(** A server with 103 repositories: a full first page and a second page
    of three. *)
Definition hundredRepos : list Repository.t :=
  map (fun i => Repository.mk (Z.of_nat i) "r" "acme/r" "main") (seq 0 100).

Definition threeRepos : list Repository.t :=
  map (fun i => Repository.mk (Z.of_nat i) "s" "acme/s" "main") (seq 100 3).

Definition twoPageServer : Server :=
  mkServer (srv_org offline)
           (fun _ _ page =>
              if (page =? 1)%nat then Ok hundredRepos
              else if (page =? 2)%nat then Ok threeRepos
              else Ok [])
           (srv_org_members offline) (srv_user_detail offline) (srv_commits offline)
           (srv_pulls offline) (srv_tree offline) (srv_url offline).

Definition ada : GitPerson.t :=
  GitPerson.mk "Ada" "ada@acme.test" "2024-01-01T00:00:00Z".

Definition bob : GitPerson.t :=
  GitPerson.mk "Bob" "bob@acme.test" "2024-06-01T00:00:00Z".

Definition januaryCommit : RawCommit.t :=
  RawCommit.mk "a1" (Some ada) (Some ada) "first" "https://github.com/acme/api/commit/a1".

Definition orphanCommit : RawCommit.t :=
  RawCommit.mk "x1" None None "imported" "https://github.com/acme/web/commit/x1".

Definition juneCommit : RawCommit.t :=
  RawCommit.mk "b1" (Some bob) (Some bob) "second" "https://github.com/acme/web/commit/b1".

Definition activityServer : Server :=
  mkServer
    (fun _ => Ok (Organization.mk "acme"))
    (fun _ _ page =>
       if (page =? 1)%nat
       then Ok [ Repository.mk 1 "api" "acme/api" "main";
                 Repository.mk 2 "web" "acme/web" "main" ]
       else Ok [])
    (fun _ _ _ => Ok [])
    (srv_user_detail offline)
    (fun _ repo _ _ page =>
       if (page =? 1)%nat then
         if String.eqb repo "api" then Ok [januaryCommit]
         else if String.eqb repo "web" then Ok [orphanCommit; juneCommit]
         else Ok []
       else Ok [])
    (fun _ _ _ _ => Ok [])
    (srv_tree offline)
    (srv_url offline).

Definition alice : User.t := User.mk "alice" (Some "ada@acme.test").
Definition alias : User.t := User.mk "ada-bot" (Some "ada@acme.test").
Definition carol : User.t := User.mk "carol" None.

(* ================================================================== *)
(** ** The guarded getters and the request handler *)
(* ================================================================== *)

Module RateLimit.
Record t : Type := mk { limit : Z; remaining : Z; reset : Z }.
End RateLimit.

Module Branch.
Record t : Type := mk { name : string }.
End Branch.

(** The answers to the requests of the four getters, by URL. *)
Record Endpoints : Type := mkEndpoints {
  ep_user : string -> Response User.t;
  ep_languages : string -> Response (OMap.t Z);
  ep_branches : string -> Response (list Branch.t);
  ep_rate_limit : string -> Response RateLimit.t
}.

Definition userUrl : string := "https://api.github.com/user".

Definition rateLimitUrl : string := "https://api.github.com/rate_limit".

Definition languagesUrl (org repo : string) : string :=
  ("https://api.github.com/repos/" ++ org ++ "/" ++ repo ++ "/languages")%string.

Definition branchesUrl (org repo : string) : string :=
  ("https://api.github.com/repos/" ++ org ++ "/" ++ repo ++ "/branches?per_page=100")%string.

Module AnalysisRequest.
(** [config] is [None] when the body has none; an empty [token] or
    [organization] stands for a missing or empty field. *)
Record t : Type := mk { action : string; config : option GitHubConfig.t }.
End AnalysisRequest.

Module HttpRequest.
(** [json] is what [req.json()] and the destructuring of the body give:
    the body, or the message of the error they throw. *)
Record t : Type := mk { method : string; json : string + AnalysisRequest.t }.
End HttpRequest.

Inductive ResponseBody : Type :=
| NoBody
| ErrorBody (error : string)
| ValidBody (valid : bool)
| AnalysisBody (stats : OrganizationStats.t)
| RateLimitBody (rateLimit : option RateLimit.t).

Module HttpResponse.
Record t : Type := mk {
  status : Z;
  headers : list (string * string);
  body : ResponseBody
}.
End HttpResponse.

Definition preflightHeaders : list (string * string) :=
  [ ("Access-Control-Allow-Origin", "*");
    ("Access-Control-Allow-Methods", "POST, GET, OPTIONS");
    ("Access-Control-Allow-Headers", "Content-Type, Authorization") ].

Definition jsonHeaders : list (string * string) :=
  [ ("Content-Type", "application/json");
    ("Access-Control-Allow-Origin", "*") ].

(** [new Response(JSON.stringify(body), { status, headers })] *)
Definition jsonResponse (status : Z) (body : ResponseBody) : HttpResponse.t :=
  HttpResponse.mk status jsonHeaders body.

(** A number in a template string. *)
Definition showNumber (n : Z) : string := NilZero.string_of_int (Z.to_int n).

(** [error.message] *)
Definition messageOf (e : Error) : string :=
  match e with
  | GitHubApiError status statusText =>
      ("GitHub API error: " ++ showNumber status ++ " " ++ statusText)%string
  | FetchRejected message => message
  | InvalidCharacterError => "Failed to decode base64"
  end.

(** [!config || !config.token || !config.organization] *)
Definition missingConfiguration (config : option GitHubConfig.t) : bool :=
  match config with
  | None => true
  | Some c =>
      String.eqb (GitHubConfig.token c) EmptyString
      || String.eqb (GitHubConfig.organization c) EmptyString
  end.

Section Getters.

Variable ep : Endpoints.
Variable config : GitHubConfig.t.

Let organization : string := GitHubConfig.organization config.

Definition validateToken : IO bool :=
  try_catch
    (_ <- makeRequest (GET_url userUrl) (ep_user ep userUrl) ;;
     ret true)
    (fun _ => ret false).

Definition getRepositoryLanguages (repo : string) : IO (OMap.t Z) :=
  try_catch
    (makeRequest (GET_url (languagesUrl organization repo))
                 (ep_languages ep (languagesUrl organization repo)))
    (fun _ => ret OMap.empty).

Definition getBranches (repo : string) : IO (list string) :=
  try_catch
    (data <- makeRequest (GET_url (branchesUrl organization repo))
                         (ep_branches ep (branchesUrl organization repo)) ;;
     ret (map Branch.name data))
    (fun _ => ret ["main"; "master"]).

Definition getRateLimit : IO (option RateLimit.t) :=
  try_catch
    (data <- makeRequest (GET_url rateLimitUrl) (ep_rate_limit ep rateLimitUrl) ;;
     ret (Some data))
    (fun _ => ret None).

End Getters.

Section Handler.

Variable Date_parse : string -> option Z.
Variable srv : Server.
Variable ep : Endpoints.

(** The [switch (action)] of the handler, for a complete configuration. *)
Definition dispatch (fuel : nat) (action : string) (config : GitHubConfig.t)
  : IO HttpResponse.t :=
  if String.eqb action "validate" then
    isValid <- validateToken ep ;;
    _ <- (if isValid : bool
          then _ <- getOrganization srv config ;; ret tt
          else ret tt) ;;
    ret (jsonResponse 200 (ValidBody isValid))
  else if String.eqb action "analyze" then
    result <- performFullAnalysis Date_parse srv config fuel ;;
    ret (jsonResponse 200 (AnalysisBody result))
  else if String.eqb action "rate-limit" then
    result <- getRateLimit ep ;;
    ret (jsonResponse 200 (RateLimitBody result))
  else ret (jsonResponse 400 (ErrorBody "Invalid action")).

(** The function given to [serve].  An error thrown by [req.json()] is
    caught by the same handler as the others: the answer carries its
    message. *)
Definition handler (fuel : nat) (req : HttpRequest.t) : IO HttpResponse.t :=
  if String.eqb (HttpRequest.method req) "OPTIONS" then
    ret (HttpResponse.mk 200 preflightHeaders NoBody)
  else
    try_catch
      (if negb (String.eqb (HttpRequest.method req) "POST") then
         ret (jsonResponse 405 (ErrorBody "Method not allowed"))
       else
         match HttpRequest.json req with
         | inl message => throw (FetchRejected message)
         | inr body =>
             if missingConfiguration (AnalysisRequest.config body) then
               ret (jsonResponse 400 (ErrorBody "Missing required configuration"))
             else
               match AnalysisRequest.config body with
               | Some config => dispatch fuel (AnalysisRequest.action body) config
               | None => ret (jsonResponse 400 (ErrorBody "Missing required configuration"))
               end
         end)
      (fun error => ret (jsonResponse 500 (ErrorBody (messageOf error)))).

End Handler.

(** *** More vocabulary *)

(** The counts of two texts, added. *)
Definition addLineStats (a b : LineStats) : LineStats :=
  mkLineStats (totalLines a + totalLines b) (codeLines a + codeLines b)
              (commentLines a + commentLines b) (blankLines a + blankLines b).

(** Every code unit of [s] is white space other than a line feed. *)
Fixpoint isPadding (s : string) : bool :=
  match s with
  | EmptyString => true
  | String c s' => JS.isWhiteSpace c && negb (Ascii.eqb c JS.LF) && isPadding s'
  end.

(** Every code unit of [s] is ASCII white space. *)
Definition isAsciiBlank (s : string) : bool :=
  forallb JS.isAsciiWhitespace (list_ascii_of_string s).

(** The languages that [getLanguageFromFile] can name and that have no
    entry in the table of [getCommentPatterns]. *)
Definition languagesWithoutPatterns : list string :=
  [ "C/C++"; "Swift"; "Kotlin"; "Scala"; "SCSS"; "Vue"; "Svelte"; "Other" ].

(** The extensions of the allow-list that have no language of their own. *)
Definition extensionsWithoutLanguage : list string :=
  [ ".clj"; ".hs"; ".ml"; ".r"; ".m"; ".pl"; ".sh"; ".sql";
    ".less"; ".dart"; ".lua"; ".nim"; ".zig" ].

(** An entry of the breakdown stands for at least one file and has no
    negative line count. *)
Definition soundEntry (e : LanguageEntry.t) : Prop :=
  0 <= LanguageEntry.lines e /\ 1 <= LanguageEntry.files e.

(** The lines of a language's entries in one breakdown. *)
Definition linesOfLanguage (language : string) (stats : CodeStats.t) : Z :=
  sumValues LanguageEntry.lines
    (filter (fun kv => String.eqb (fst kv) language) (CodeStats.languageBreakdown stats)).

(** A pooled commit that [computeUserStats] counts for a member. *)
Definition attributed (members : list User.t) (commit : Commit.t) : bool :=
  match findUserByEmail members (GitPerson.email (Commit.author commit)) with
  | Some member => negb (String.eqb (User.login member) EmptyString)
  | None => false
  end.

(** The login under which [computeUserStats] counts a pooled commit,
    if any. *)
Definition attributedLogin (members : list User.t) (commit : Commit.t) : option string :=
  match findUserByEmail members (GitPerson.email (Commit.author commit)) with
  | Some member =>
      if String.eqb (User.login member) EmptyString then None
      else Some (User.login member)
  | None => None
  end.

(** The pooled activity as pairs of a login and a date: the attributed
    commits with their author dates, then the pull requests with their
    author's login and creation date. *)
Definition activityOf (members : list User.t) (commits : list Commit.t)
           (pullRequests : list PullRequest.t) : list (string * string) :=
  flat_map (fun c => match attributedLogin members c with
                     | Some login => [(login, GitPerson.date (Commit.author c))]
                     | None => []
                     end) commits
  ++ map (fun pr => (User.login (PullRequest.user pr), PullRequest.created_at pr))
         pullRequests.

(** What the entries of [userStatsMap] say about the activity [events]
    processed so far. *)
Definition tracksActivity (Date_parse : string -> option Z)
           (m : OMap.t UserStats.t) (events : list (string * string))
  : Prop :=
  forall (login : string) (us : UserStats.t),
    OMap.get m login = Some us ->
    exists t : Z,
      lastActivityTime Date_parse (UserStats.lastActivity us) = Some t
      /\ 0 <= t
      /\ (forall (d : string) (td : Z),
             In (login, d) events -> Date_parse d = Some td -> td <= t)
      /\ (UserStats.lastActivity us = EmptyString
          \/ In (login, UserStats.lastActivity us) events).

(** The entries stand under the login of their user, each login once. *)
Definition keyedByLogin (m : OMap.t UserStats.t) : Prop :=
  NoDup (OMap.keys m)
  /\ Forall (fun kv => fst kv = User.login (UserStats.user (snd kv))) m.

(** A pooled pull request whose author is a member. *)
Definition byMember (members : list User.t) (pr : PullRequest.t) : bool :=
  existsb (fun member => String.eqb (User.login member) (User.login (PullRequest.user pr)))
          members.

(** The requests of the first [n] pages of a bounded listing. *)
Definition commitPageRequests (org repo branch : string) (n : nat) : list Request :=
  map (GET_commits org repo branch 100) (seq 1 n).

Definition pullPageRequests (org repo : string) (n : nat) : list Request :=
  map (GET_pulls org repo 100) (seq 1 n).

(** An endpoint table that answers every request with an error, and one
    that knows the token. *)
Definition noEndpoints : Endpoints :=
  mkEndpoints (fun _ => NotOk 401 "Unauthorized") (fun _ => NotOk 404 "Not Found")
              (fun _ => NotOk 404 "Not Found") (fun _ => NotOk 401 "Unauthorized").

Definition tokenEndpoints : Endpoints :=
  mkEndpoints (fun _ => Ok alice) (fun _ => NotOk 404 "Not Found")
              (fun _ => NotOk 404 "Not Found")
              (fun _ => Ok (RateLimit.mk 5000 4999 1717200000)).

(* ================================================================== *)
(** ** The line classifier *)
(* ================================================================== *)

Lemma split_length (c : ascii) (s : string) :
  List.length (JS.split c s) = S (occurrences c s).
Proof.
  induction s as [|c' s' IH]; simpl; [reflexivity|].
  destruct (Ascii.eqb c' c); simpl.
  - now rewrite IH.
  - destruct (JS.split c s') as [|piece pieces]; simpl in *; [discriminate|exact IH].
Qed.

Lemma classifyLine_total (patterns : CommentPatterns) (acc : Counters) (line : string) :
  let acc' := classifyLine patterns acc line in
  n_code acc' + n_comment acc' + n_blank acc'
  = n_code acc + n_comment acc + n_blank acc + 1.
Proof.
  unfold classifyLine.
  destruct (String.eqb (JS.trim line) EmptyString); simpl; [lia|].
  destruct (isCommentLine (JS.trim line) patterns); simpl; lia.
Qed.

Lemma classify_all_total (patterns : CommentPatterns) (lines : list string) :
  forall acc : Counters,
    let acc' := fold_left (classifyLine patterns) lines acc in
    n_code acc' + n_comment acc' + n_blank acc'
    = n_code acc + n_comment acc + n_blank acc + Z.of_nat (List.length lines).
Proof.
  induction lines as [|line lines IH]; intros acc; simpl.
  - lia.
  - cbv zeta in IH. rewrite IH.
    pose proof (classifyLine_total patterns acc line) as H. cbv zeta in H. lia.
Qed.

Lemma analyzeTextContent_addUp (content filePath : string) :
  linesAddUp (analyzeTextContent content filePath).
Proof.
  unfold linesAddUp, analyzeTextContent; simpl.
  pose proof (classify_all_total
                (getCommentPatterns (getLanguageFromFile filePath))
                (JS.split JS.LF content) (mkCounters 0 0 0)) as H.
  cbv zeta in H. simpl in H. lia.
Qed.

Lemma analyzeTextContent_totalLines (content filePath : string) :
  totalLines (analyzeTextContent content filePath)
  = Z.of_nat (occurrences JS.LF content) + 1.
Proof.
  unfold analyzeTextContent; simpl. rewrite split_length. lia.
Qed.

(** C2, as the specification words it, fails: the text ends in a line
    feed, so [split] yields a fourth, empty piece. *)
Lemma C2_example_is_not_3_1_1_1 :
  getLanguageFromFile "src/app.js" = "JavaScript"
  /\ analyzeTextContent exampleContent "src/app.js" <> mkLineStats 3 1 1 1.
Proof.
  split; [reflexivity|]. vm_compute. discriminate.
Qed.

(** C2 (amended): for the content [a LF // b LF LF] and a path whose
    language resolves to JavaScript, [analyzeTextContent] returns
    totalLines = 4, codeLines = 1, commentLines = 1, blankLines = 2. *)
Theorem C2_example_counts (filePath : string) :
  getLanguageFromFile filePath = "JavaScript" ->
  analyzeTextContent exampleContent filePath = mkLineStats 4 1 1 2.
Proof.
  intros H. unfold analyzeTextContent. rewrite H. reflexivity.
Qed.

Lemma C2_example_counts_witness :
  getLanguageFromFile "src/app.js" = "JavaScript"
  /\ analyzeTextContent exampleContent "src/app.js" = mkLineStats 4 1 1 2.
Proof.
  split; [reflexivity | apply (C2_example_counts "src/app.js"); reflexivity].
Defined.

(** C10: [analyzeTextContent] reports one line more than the content has
    line feeds, hence at least one line; the empty content is one blank
    line (total 1, blank 1, code 0, comment 0). *)
Theorem C10_totalLines_is_line_feeds_plus_one (content filePath : string) :
  totalLines (analyzeTextContent content filePath)
  = Z.of_nat (occurrences JS.LF content) + 1
  /\ 1 <= totalLines (analyzeTextContent content filePath)
  /\ analyzeTextContent EmptyString filePath = mkLineStats 1 0 0 1.
Proof.
  rewrite analyzeTextContent_totalLines.
  split; [reflexivity|]. split; [lia|]. reflexivity.
Qed.

(* ================================================================== *)
(** ** Insertion-ordered maps: lookups and sums after an update *)
(* ================================================================== *)

Section OMapFacts.

Context {V : Type}.

Lemma get_set_eq (m : OMap.t V) (k : string) (v : V) :
  OMap.get (OMap.set m k v) k = Some v.
Proof.
  induction m as [|[k' v'] m IH]; simpl.
  - now rewrite String.eqb_refl.
  - destruct (String.eqb k' k) eqn:E; simpl; rewrite E; [reflexivity|exact IH].
Qed.

Lemma get_set_ne (m : OMap.t V) (k k0 : string) (v : V) :
  k0 <> k -> OMap.get (OMap.set m k v) k0 = OMap.get m k0.
Proof.
  intros Hne. induction m as [|[k' v'] m IH]; simpl.
  - destruct (String.eqb_spec k k0); [congruence|reflexivity].
  - destruct (String.eqb_spec k' k) as [->|Hk]; simpl.
    + destruct (String.eqb_spec k k0); [congruence|reflexivity].
    + destruct (String.eqb k' k0); [reflexivity|exact IH].
Qed.

Lemma get_In (m : OMap.t V) (k : string) (v : V) :
  OMap.get m k = Some v -> In (k, v) m.
Proof.
  induction m as [|[k' v'] m IH]; simpl; [discriminate|].
  destruct (String.eqb_spec k' k) as [->|Hk]; intros H.
  - left. congruence.
  - right. auto.
Qed.

Lemma Forall_set (P : V -> Prop) (m : OMap.t V) (k : string) (v : V) :
  Forall (fun kv => P (snd kv)) m -> P v ->
  Forall (fun kv => P (snd kv)) (OMap.set m k v).
Proof.
  intros Hm Hv. induction Hm as [|[k' v'] m Hx Hm IH]; simpl.
  - constructor; [exact Hv|constructor].
  - destruct (String.eqb k' k); constructor; auto.
Qed.

Lemma sumValues_set (f : V -> Z) (m : OMap.t V) (k : string) (v : V) :
  sumValues f (OMap.set m k v)
  = sumValues f m - match OMap.get m k with Some e => f e | None => 0 end + f v.
Proof.
  induction m as [|[k' v'] m IH]; simpl.
  - lia.
  - destruct (String.eqb k' k); simpl; lia.
Qed.

End OMapFacts.

(* ================================================================== *)
(** ** The repository analyzer as a fold *)
(* ================================================================== *)

Lemma analyzeFileContent_run (srv : Server) (file : TreeEntry.t) (log : list Request) :
  analyzeFileContent srv file log = (Ret (lineStatsOf srv file), log ++ fileRequests file).
Proof.
  unfold analyzeFileContent, lineStatsOf, fileRequests, try_catch, bind, makeRequest.
  destruct (100000 <? TreeEntry.size file).
  - unfold ret. now rewrite app_nil_r.
  - destruct (srv_url srv (TreeEntry.url file)) as [data| |]; try reflexivity.
    destruct (String.eqb (Blob.encoding data) "base64"); [|reflexivity].
    destruct (JS.atob (JS.removeLF (Blob.content data))); reflexivity.
Qed.

Lemma analyzeFiles_run (srv : Server) (files : list TreeEntry.t) :
  forall (stats : CodeStats.t) (log : list Request),
    analyzeFiles srv files stats log
    = (Ret (fold_left (countFile srv) files stats), log ++ flat_map fileRequests files).
Proof.
  induction files as [|file rest IH]; intros stats log; simpl.
  - unfold ret. now rewrite app_nil_r.
  - unfold bind at 1. unfold try_catch, bind. rewrite analyzeFileContent_run.
    unfold ret at 1. rewrite IH, app_assoc. reflexivity.
Qed.

Lemma analyzeSelectedFiles_run (srv : Server) (repo : Repository.t)
      (files : list TreeEntry.t) (log : list Request) :
  analyzeSelectedFiles srv repo files log
  = (Ret (statsOfFiles srv repo files), log ++ flat_map fileRequests files).
Proof.
  unfold analyzeSelectedFiles, bind. rewrite analyzeFiles_run. reflexivity.
Qed.

Lemma getRepositoryFiles_run (srv : Server) (repo : Repository.t) (log : list Request) :
  getRepositoryFiles srv repo log
  = (Ret (selectedFiles srv repo),
     log ++ [GET_tree (Repository.full_name repo) (Repository.default_branch repo)]).
Proof.
  unfold getRepositoryFiles, selectedFiles, try_catch, bind, makeRequest.
  destruct (srv_tree srv _ _); reflexivity.
Qed.

Lemma analyzeRepositoryCode_run (srv : Server) (repo : Repository.t) (log : list Request) :
  analyzeRepositoryCode srv repo log
  = (Ret (statsOfFiles srv repo (selectedFiles srv repo)),
     log ++ GET_tree (Repository.full_name repo) (Repository.default_branch repo)
         :: flat_map fileRequests (selectedFiles srv repo)).
Proof.
  unfold analyzeRepositoryCode, try_catch, bind.
  rewrite getRepositoryFiles_run, analyzeSelectedFiles_run, <- app_assoc.
  reflexivity.
Qed.

(** *** What every turn of the file loop preserves *)

(** Splits the goal along every test and every [match] it contains. *)
Ltac case_branches :=
  repeat match goal with
         | |- context [if ?b then _ else _] => destruct b
         | |- context [match ?x with _ => _ end] => destruct x
         end.

Lemma lineStatsOf_addUp (srv : Server) (file : TreeEntry.t) :
  linesAddUp (lineStatsOf srv file).
Proof.
  unfold lineStatsOf. case_branches;
    first [apply analyzeTextContent_addUp | reflexivity].
Qed.

Lemma lineStatsOf_nonneg (srv : Server) (file : TreeEntry.t) :
  0 <= totalLines (lineStatsOf srv file).
Proof.
  unfold lineStatsOf. case_branches;
    first [rewrite analyzeTextContent_totalLines; lia | simpl; lia].
Qed.

Lemma accumulate_breakdown (stats : CodeStats.t) (language : string) (fs : LineStats) :
  exists e : LanguageEntry.t,
    CodeStats.languageBreakdown (accumulate stats language fs)
    = OMap.set (match OMap.get (CodeStats.languageBreakdown stats) language with
                | Some _ => CodeStats.languageBreakdown stats
                | None => OMap.set (CodeStats.languageBreakdown stats) language
                                   (LanguageEntry.mk 0 0 0%Q)
                end) language
               (LanguageEntry.mk (LanguageEntry.lines e + totalLines fs)
                                 (LanguageEntry.files e + 1)
                                 (LanguageEntry.percentage e))
    /\ e = match OMap.get (CodeStats.languageBreakdown stats) language with
           | Some e0 => e0
           | None => LanguageEntry.mk 0 0 0%Q
           end.
Proof.
  unfold accumulate; simpl.
  destruct (OMap.get (CodeStats.languageBreakdown stats) language) as [e0|] eqn:E.
  - exists e0. rewrite E. split; reflexivity.
  - exists (LanguageEntry.mk 0 0 0%Q). rewrite get_set_eq. split; reflexivity.
Qed.

Lemma accumulate_invariant (stats : CodeStats.t) (language : string) (fs : LineStats) :
  linesAddUp fs -> 0 <= totalLines fs ->
  loopInvariant stats -> loopInvariant (accumulate stats language fs).
Proof.
  intros Hfs Hpos [Hadd Hnn Hlines Hpct].
  destruct (accumulate_breakdown stats language fs) as (e & Hb & He).
  constructor.
  - unfold codeStatsAddUp in *; unfold linesAddUp in Hfs; simpl; lia.
  - simpl; lia.
  - rewrite Hb. unfold sumLines in *. rewrite sumValues_set.
    destruct (OMap.get (CodeStats.languageBreakdown stats) language) as [e0|] eqn:E.
    + rewrite E. subst e. simpl. lia.
    + rewrite get_set_eq, sumValues_set, E. subst e. simpl. lia.
  - rewrite Hb.
    destruct (OMap.get (CodeStats.languageBreakdown stats) language) as [e0|] eqn:E.
    + apply (Forall_set (fun v => LanguageEntry.percentage v = 0%Q));
        [exact Hpct|]. subst e. simpl.
      apply get_In in E. rewrite Forall_forall in Hpct. exact (Hpct _ E).
    + apply (Forall_set (fun v => LanguageEntry.percentage v = 0%Q));
        [apply (Forall_set (fun v => LanguageEntry.percentage v = 0%Q));
         [exact Hpct|reflexivity]|].
      subst e. reflexivity.
Qed.

Lemma countFiles_invariant (srv : Server) (files : list TreeEntry.t) :
  forall stats : CodeStats.t,
    loopInvariant stats -> loopInvariant (fold_left (countFile srv) files stats).
Proof.
  induction files as [|file rest IH]; intros stats Hinv; simpl; [exact Hinv|].
  apply IH. apply accumulate_invariant;
    [apply lineStatsOf_addUp | apply lineStatsOf_nonneg | exact Hinv].
Qed.

Lemma initial_invariant (repo : Repository.t) (n : Z) :
  loopInvariant (withFileCount (initialStats repo) n).
Proof.
  constructor; simpl; try reflexivity; try lia. constructor.
Qed.

(** *** Rounding to binary64 *)

Section Binary64Facts.

Local Open Scope Q_scope.

Lemma two_nonzero : ~ 2 == 0.
Proof. discriminate. Qed.

Lemma pow2_pos (e : Z) : 0 < Binary64.pow2 e.
Proof. apply Qpower_0_lt. reflexivity. Qed.

Lemma pow2_add (a b : Z) :
  Binary64.pow2 (a + b) == Binary64.pow2 a * Binary64.pow2 b.
Proof. apply Qpower_plus, two_nonzero. Qed.

Lemma pow2_cancel (e : Z) : Binary64.pow2 (- e) * Binary64.pow2 e == 1.
Proof.
  rewrite <- pow2_add. replace (- e + e)%Z with 0%Z by lia. reflexivity.
Qed.

Lemma pow2_le (a b : Z) : (a <= b)%Z -> Binary64.pow2 a <= Binary64.pow2 b.
Proof. intros H. apply Qpower_le_compat_l; [exact H|discriminate]. Qed.

Lemma pow2_lt_inv (a b : Z) : Binary64.pow2 a < Binary64.pow2 b -> (a < b)%Z.
Proof. intros H. apply (Qpower_lt_compat_l_inv 2); [exact H|reflexivity]. Qed.

Lemma pow2_inject (k : Z) : (0 <= k)%Z -> inject_Z (2 ^ k) == Binary64.pow2 k.
Proof. intros H. unfold Binary64.pow2. now rewrite Zpower_Qpower. Qed.

Lemma nearestInteger_error (y : Q) :
  Qabs (inject_Z (Binary64.nearestInteger y) - y) <= 1 # 2.
Proof.
  destruct y as [p q]. unfold Binary64.nearestInteger. cbn [Qnum Qden].
  pose proof (Z.div_mod p (Zpos q) ltac:(lia)) as Hdm.
  pose proof (Z.mod_pos_bound p (Zpos q) ltac:(lia)) as Hr.
  set (fl := (p / Zpos q)%Z) in *. set (r := (p mod Zpos q)%Z) in *.
  assert (Hlow : (2 * r <= Zpos q)%Z ->
                 Qabs (inject_Z fl - (p # q)) <= 1 # 2).
  { intros H. apply Qabs_case; intros _; unfold Qle, Qminus, Qplus, Qopp, inject_Z;
      cbn [Qnum Qden]; nia. }
  assert (Hhigh : (Zpos q <= 2 * r)%Z ->
                  Qabs (inject_Z (fl + 1) - (p # q)) <= 1 # 2).
  { intros H. apply Qabs_case; intros _; unfold Qle, Qminus, Qplus, Qopp, inject_Z;
      cbn [Qnum Qden]; nia. }
  destruct (Z.compare_spec (2 * r) (Zpos q)) as [H|H|H].
  - destruct (Z.even fl); [apply Hlow|apply Hhigh]; lia.
  - apply Hlow; lia.
  - apply Hhigh; lia.
Qed.

Lemma nearestInteger_le (y : Q) (k : Z) :
  y <= inject_Z k -> (Binary64.nearestInteger y <= k)%Z.
Proof.
  destruct y as [p q]. unfold Binary64.nearestInteger, Qle, inject_Z.
  cbn [Qnum Qden]. intros H.
  pose proof (Z.div_mod p (Zpos q) ltac:(lia)) as Hdm.
  pose proof (Z.mod_pos_bound p (Zpos q) ltac:(lia)) as Hr.
  set (fl := (p / Zpos q)%Z) in *. set (r := (p mod Zpos q)%Z) in *.
  assert (Hfl : (fl <= k)%Z) by nia.
  assert (Hup : (0 < r -> fl + 1 <= k)%Z) by nia.
  destruct (Z.compare_spec (2 * r) (Zpos q)) as [H'|H'|H'].
  - destruct (Z.even fl); [exact Hfl|apply Hup; lia].
  - exact Hfl.
  - apply Hup; lia.
Qed.

Lemma nearestInteger_ge (y : Q) (k : Z) :
  inject_Z k <= y -> (k <= Binary64.nearestInteger y)%Z.
Proof.
  destruct y as [p q]. unfold Binary64.nearestInteger, Qle, inject_Z.
  cbn [Qnum Qden]. intros H.
  pose proof (Z.div_mod p (Zpos q) ltac:(lia)) as Hdm.
  pose proof (Z.mod_pos_bound p (Zpos q) ltac:(lia)) as Hr.
  set (fl := (p / Zpos q)%Z) in *. set (r := (p mod Zpos q)%Z) in *.
  assert (Hfl : (k <= fl)%Z) by nia.
  destruct (Z.compare_spec (2 * r) (Zpos q)) as [H'|H'|H'];
    [destruct (Z.even fl)| |]; lia.
Qed.

Lemma pow2_shift_le (x : Q) (k e : Z) :
  Binary64.pow2 k <= x * Binary64.pow2 e -> Binary64.pow2 (k - e) <= x.
Proof.
  intros H. apply (Qmult_le_r _ _ (Binary64.pow2 e)); [apply pow2_pos|].
  rewrite <- pow2_add. replace (k - e + e)%Z with k by lia. exact H.
Qed.

Lemma pow2_shift_lt (x : Q) (k e : Z) :
  x * Binary64.pow2 e < Binary64.pow2 k -> x < Binary64.pow2 (k - e).
Proof.
  intros H. apply (Qmult_lt_r _ _ (Binary64.pow2 e)); [apply pow2_pos|].
  rewrite <- pow2_add. replace (k - e + e)%Z with k by lia. exact H.
Qed.

Lemma log2_bounds (x : Q) :
  0 < x ->
  Binary64.pow2 (Z.log2 (Qnum x) - Z.log2 (Zpos (Qden x)) - 1) <= x
  /\ x < Binary64.pow2 (Z.log2 (Qnum x) - Z.log2 (Zpos (Qden x)) + 1).
Proof.
  destruct x as [n d]. intros Hpos. cbn [Qnum Qden].
  assert (Hn : (0 < n)%Z).
  { unfold Qlt in Hpos. cbn [Qnum Qden] in Hpos. lia. }
  pose proof (Z.log2_spec n Hn) as [Hn1 Hn2].
  pose proof (Z.log2_spec (Zpos d) ltac:(lia)) as [Hd1 Hd2].
  pose proof (Z.log2_nonneg n) as Hln. pose proof (Z.log2_nonneg (Zpos d)) as Hld.
  set (ln := Z.log2 n) in *. set (ld := Z.log2 (Zpos d)) in *.
  assert (Hx : (n # d) * inject_Z (Zpos d) == inject_Z n).
  { unfold Qeq, Qmult, inject_Z. cbn [Qnum Qden]. lia. }
  split.
  - replace (ln - ld - 1)%Z with (ln - Z.succ ld)%Z by lia.
    apply pow2_shift_le. rewrite <- !pow2_inject by lia.
    apply Qle_trans with (inject_Z n).
    + rewrite <- Zle_Qle. exact Hn1.
    + rewrite <- Hx. apply Qmult_le_l; [exact Hpos|].
      rewrite <- Zle_Qle. lia.
  - replace (ln - ld + 1)%Z with (Z.succ ln - ld)%Z by lia.
    apply pow2_shift_lt. rewrite <- !pow2_inject by lia.
    apply Qle_lt_trans with (inject_Z n).
    + rewrite <- Hx. apply Qmult_le_l; [exact Hpos|].
      rewrite <- Zle_Qle. exact Hd1.
    + rewrite <- Zlt_Qlt. exact Hn2.
Qed.

Lemma normalExponent_spec (x : Q) :
  0 < x ->
  Binary64.pow2 (Binary64.normalExponent x + 52) <= x
  /\ x < Binary64.pow2 (Binary64.normalExponent x + 53).
Proof.
  intros Hpos. destruct (log2_bounds x Hpos) as [Hlow Hhigh].
  unfold Binary64.normalExponent.
  set (e0 := (Z.log2 (Qnum x) - Z.log2 (Zpos (Qden x)) - 52)%Z) in *.
  destruct (Qle_bool (Binary64.pow2 (e0 + 52)) x) eqn:E.
  - split; [now apply Qle_bool_iff|].
    replace (e0 + 53)%Z with (Z.log2 (Qnum x) - Z.log2 (Zpos (Qden x)) + 1)%Z
      by (unfold e0; lia).
    exact Hhigh.
  - split.
    + replace (e0 - 1 + 52)%Z with (Z.log2 (Qnum x) - Z.log2 (Zpos (Qden x)) - 1)%Z
        by (unfold e0; lia).
      exact Hlow.
    + replace (e0 - 1 + 53)%Z with (e0 + 52)%Z by lia.
      apply Qnot_le_lt. intros H. apply Qle_bool_iff in H. congruence.
Qed.

Lemma roundPositive_value (x : Q) :
  Binary64.roundPositive x
  == inject_Z (Binary64.nearestInteger (x * Binary64.pow2 (- Binary64.exponent x)))
     * Binary64.pow2 (Binary64.exponent x).
Proof. unfold Binary64.roundPositive. cbv zeta. apply Qred_correct. Qed.

Lemma roundPositive_error (x : Q) :
  Qabs (Binary64.roundPositive x - x)
  <= (1 # 2) * Binary64.pow2 (Binary64.exponent x).
Proof.
  rewrite roundPositive_value.
  set (e := Binary64.exponent x). set (y := x * Binary64.pow2 (- e)).
  assert (Hx : x == y * Binary64.pow2 e).
  { unfold y. rewrite <- Qmult_assoc, pow2_cancel. ring. }
  setoid_replace (inject_Z (Binary64.nearestInteger y) * Binary64.pow2 e - x)
    with ((inject_Z (Binary64.nearestInteger y) - y) * Binary64.pow2 e)
    by (rewrite Hx at 1; ring).
  rewrite Qabs_Qmult. rewrite (Qabs_pos (Binary64.pow2 e))
    by (apply Qlt_le_weak, pow2_pos).
  apply Qmult_le_compat_r; [apply nearestInteger_error|apply Qlt_le_weak, pow2_pos].
Qed.

Lemma exponent_normal (x : Q) :
  Binary64.pow2 (-1022) <= x -> Binary64.exponent x = Binary64.normalExponent x.
Proof.
  intros Hx. assert (Hpos : 0 < x).
  { apply Qlt_le_trans with (Binary64.pow2 (-1022)); [apply pow2_pos|exact Hx]. }
  destruct (normalExponent_spec x Hpos) as [_ Hhigh].
  assert (H : (-1022 < Binary64.normalExponent x + 53)%Z).
  { apply pow2_lt_inv. eapply Qle_lt_trans; eassumption. }
  unfold Binary64.exponent. lia.
Qed.

Lemma round_positive (x : Q) : 0 < x -> Binary64.round x = Binary64.roundPositive x.
Proof.
  destruct x as [[|n|n] d]; unfold Qlt; cbn [Qnum Qden]; intros H; try lia.
  reflexivity.
Qed.

Lemma round_zero (x : Q) : x == 0 -> Binary64.round x = 0.
Proof.
  destruct x as [[|n|n] d]; unfold Qeq; cbn [Qnum Qden]; intros H; try lia.
  reflexivity.
Qed.

(** The relative error of one rounding of a normal number is at most
    2^-53. *)
Lemma round_relative_error (x : Q) :
  Binary64.pow2 (-1022) <= x ->
  Qabs (Binary64.round x - x) <= x * Binary64.pow2 (-53).
Proof.
  intros Hx. assert (Hpos : 0 < x).
  { apply Qlt_le_trans with (Binary64.pow2 (-1022)); [apply pow2_pos|exact Hx]. }
  rewrite (round_positive x Hpos).
  eapply Qle_trans; [apply roundPositive_error|].
  rewrite (exponent_normal x Hx).
  destruct (normalExponent_spec x Hpos) as [Hlow _].
  set (e := Binary64.normalExponent x) in *.
  apply Qle_trans with ((1 # 2) * (Binary64.pow2 (e + 52) * Binary64.pow2 (-52))).
  - rewrite <- pow2_add. replace (e + 52 + -52)%Z with e by lia. apply Qle_refl.
  - setoid_replace (x * Binary64.pow2 (-53))
      with ((1 # 2) * (x * Binary64.pow2 (-52))) by (vm_compute Binary64.pow2; ring).
    apply Qmult_le_l; [reflexivity|].
    apply Qmult_le_compat_r; [exact Hlow|apply Qlt_le_weak, pow2_pos].
Qed.

Lemma round_within (x : Q) (B : Z) :
  0 <= x -> x <= inject_Z B -> (B <= 100)%Z ->
  0 <= Binary64.round x /\ Binary64.round x <= inject_Z B.
Proof.
  intros Hx HB H100.
  destruct (Qlt_le_dec 0 x) as [Hpos|Hle].
  - rewrite (round_positive x Hpos), roundPositive_value.
    destruct (normalExponent_spec x Hpos) as [Hlow _].
    assert (He : (Binary64.exponent x <= 0)%Z).
    { assert (Binary64.normalExponent x + 52 < 7)%Z; [|unfold Binary64.exponent; lia].
      apply pow2_lt_inv. eapply Qle_lt_trans; [exact Hlow|].
      eapply Qle_lt_trans; [exact HB|].
      apply Qle_lt_trans with (inject_Z 100); [now rewrite <- Zle_Qle|reflexivity]. }
    set (e := Binary64.exponent x) in *.
    set (y := x * Binary64.pow2 (- e)).
    assert (Hp : 0 < Binary64.pow2 e) by apply pow2_pos.
    assert (Hq : 0 < Binary64.pow2 (- e)) by apply pow2_pos.
    split.
    + apply Qmult_le_0_compat; [|now apply Qlt_le_weak].
      change 0 with (inject_Z 0). rewrite <- Zle_Qle.
      apply nearestInteger_ge. change (inject_Z 0) with 0. unfold y.
      apply Qmult_le_0_compat; [exact Hx|now apply Qlt_le_weak].
    + assert (Hk : (Binary64.nearestInteger y <= B * 2 ^ (- e))%Z).
      { apply nearestInteger_le. rewrite inject_Z_mult, pow2_inject by lia.
        unfold y. apply Qmult_le_compat_r; [exact HB|now apply Qlt_le_weak]. }
      apply Qle_trans with (inject_Z (B * 2 ^ (- e)) * Binary64.pow2 e).
      * apply Qmult_le_compat_r; [now rewrite <- Zle_Qle|now apply Qlt_le_weak].
      * rewrite inject_Z_mult, pow2_inject by lia.
        rewrite <- Qmult_assoc, pow2_cancel. rewrite Qmult_1_r. apply Qle_refl.
  - assert (H0 : x == 0) by (apply Qle_antisym; assumption).
    rewrite (round_zero x H0). split; [apply Qle_refl|].
    rewrite <- H0. exact HB.
Qed.

(** One percentage is off the exact one by at most two roundings. *)
Lemma percentageOf_error (lines total : Z) :
  (0 <= lines)%Z -> (0 < total <= 2 ^ 53)%Z ->
  Qabs (percentageOf lines total - inject_Z lines / inject_Z total * 100)
  <= Binary64.pow2 (-45) * (inject_Z lines / inject_Z total).
Proof.
  intros Hl Ht. unfold percentageOf, Binary64.mul, Binary64.div.
  set (q := inject_Z lines / inject_Z total).
  destruct (Z.eq_dec lines 0) as [->|Hnz].
  - assert (Hq : q == 0).
    { unfold q, Qdiv. rewrite Qmult_0_l. reflexivity. }
    rewrite (round_zero q Hq).
    rewrite (round_zero (0 * inject_Z 100)) by reflexivity.
    rewrite Hq. vm_compute. discriminate.
  - assert (Hq : Binary64.pow2 (-53) <= q).
    { unfold q, Qdiv, Qmult, Qinv, Qle, inject_Z.
      destruct total as [|t|t]; try lia. cbn [Qnum Qden]. simpl Qnum. simpl Qden.
      change (Z.pos (2 ^ 53)) with (2 ^ 53)%Z. nia. }
    assert (Hn1 : Binary64.pow2 (-1022) <= q).
    { eapply Qle_trans; [|exact Hq]. apply pow2_le. lia. }
    pose proof (round_relative_error q Hn1) as He1.
    set (r := Binary64.round q) in *.
    apply Qabs_Qle_condition in He1.
    assert (Hc53 : Binary64.pow2 (-53) == 1 # 9007199254740992) by reflexivity.
    assert (Hc45 : Binary64.pow2 (-45) == 1 # 35184372088832) by reflexivity.
    assert (Hc54 : Binary64.pow2 (-54) == 1 # 18014398509481984) by reflexivity.
    rewrite Hc53 in He1, Hq.
    assert (Hn2 : Binary64.pow2 (-1022) <= r * inject_Z 100).
    { apply Qle_trans with (Binary64.pow2 (-54)); [apply pow2_le; lia|].
      rewrite Hc54. change (inject_Z 100) with 100. lra. }
    pose proof (round_relative_error _ Hn2) as He2.
    apply Qabs_Qle_condition in He2. rewrite Hc53 in He2.
    change (inject_Z 100) with 100 in *.
    set (P := Binary64.round (r * 100)) in *.
    apply Qabs_Qle_condition. rewrite Hc45. lra.
Qed.

End Binary64Facts.

(** *** The percentages *)

Lemma accumulate_nonnegative_lines (stats : CodeStats.t) (language : string)
      (fs : LineStats) :
  0 <= totalLines fs ->
  Forall (fun kv => 0 <= LanguageEntry.lines (snd kv)) (CodeStats.languageBreakdown stats) ->
  Forall (fun kv => 0 <= LanguageEntry.lines (snd kv))
         (CodeStats.languageBreakdown (accumulate stats language fs)).
Proof.
  intros Hfs Hb. destruct (accumulate_breakdown stats language fs) as (e & Heq & He).
  rewrite Heq.
  destruct (OMap.get (CodeStats.languageBreakdown stats) language) as [e0|] eqn:E.
  - apply (Forall_set (fun v => 0 <= LanguageEntry.lines v)); [exact Hb|].
    subst e. simpl. apply get_In in E. rewrite Forall_forall in Hb.
    specialize (Hb _ E). simpl in Hb. lia.
  - apply (Forall_set (fun v => 0 <= LanguageEntry.lines v));
      [apply (Forall_set (fun v => 0 <= LanguageEntry.lines v));
       [exact Hb|simpl; lia]|].
    subst e. simpl. lia.
Qed.

Lemma countFiles_nonnegative_lines (srv : Server) (files : list TreeEntry.t) :
  forall stats : CodeStats.t,
    Forall (fun kv => 0 <= LanguageEntry.lines (snd kv))
           (CodeStats.languageBreakdown stats) ->
    Forall (fun kv => 0 <= LanguageEntry.lines (snd kv))
           (CodeStats.languageBreakdown (fold_left (countFile srv) files stats)).
Proof.
  induction files as [|file rest IH]; intros stats Hb; simpl; [exact Hb|].
  apply IH. apply accumulate_nonnegative_lines; [apply lineStatsOf_nonneg|exact Hb].
Qed.

Lemma calculatePercentages_get (stats : CodeStats.t) (k : string) :
  OMap.get (CodeStats.languageBreakdown (calculatePercentages stats)) k
  = option_map
      (fun e => if 0 <? CodeStats.totalLines stats
                then LanguageEntry.mk (LanguageEntry.lines e) (LanguageEntry.files e)
                       (percentageOf (LanguageEntry.lines e) (CodeStats.totalLines stats))
                else e)
      (OMap.get (CodeStats.languageBreakdown stats) k).
Proof.
  unfold calculatePercentages; simpl.
  induction (CodeStats.languageBreakdown stats) as [|[k' e'] b IH]; simpl; [reflexivity|].
  destruct (0 <? CodeStats.totalLines stats) eqn:E; simpl;
    (destruct (String.eqb k' k); [reflexivity|exact IH]).
Qed.

(** The percentages of a breakdown whose lines add up to [n] add up to
    [n / total * 100], up to the two roundings of each. *)
Lemma percentages_sum_error (total : Z) (b : OMap.t LanguageEntry.t) :
  0 < total <= 2 ^ 53 ->
  Forall (fun kv => 0 <= LanguageEntry.lines (snd kv)) b ->
  (Qabs (sumPercentages
           (map (fun kv : string * LanguageEntry.t =>
                   let (language, e) := kv in
                   (language, LanguageEntry.mk (LanguageEntry.lines e)
                                (LanguageEntry.files e)
                                (percentageOf (LanguageEntry.lines e) total))) b)
         - inject_Z (sumLines b) / inject_Z total * 100)
   <= Binary64.pow2 (-45) * (inject_Z (sumLines b) / inject_Z total))%Q.
Proof.
  intros Ht Hb. induction Hb as [|[language e] b He Hb IH].
  - unfold sumLines, sumValues. cbn [map sumPercentages fold_right].
    unfold Qdiv. rewrite !Qmult_0_l. vm_compute. discriminate.
  - unfold sumLines, sumValues in *.
    cbn [map sumPercentages fold_right snd LanguageEntry.percentage].
    cbn [snd] in He.
    pose proof (percentageOf_error (LanguageEntry.lines e) total He Ht) as Hp.
    fold (sumPercentages
            (map (fun kv : string * LanguageEntry.t =>
                    let (language0, e0) := kv in
                    (language0, LanguageEntry.mk (LanguageEntry.lines e0)
                                  (LanguageEntry.files e0)
                                  (percentageOf (LanguageEntry.lines e0) total))) b)).
    set (S := sumPercentages _) in *.
    set (L := fold_right _ 0 b) in *.
    rewrite inject_Z_plus.
    setoid_replace ((inject_Z (LanguageEntry.lines e) + inject_Z L) / inject_Z total)%Q
      with (inject_Z (LanguageEntry.lines e) / inject_Z total
            + inject_Z L / inject_Z total)%Q
      by (unfold Qdiv; ring).
    set (ql := (inject_Z (LanguageEntry.lines e) / inject_Z total)%Q) in *.
    set (qL := (inject_Z L / inject_Z total)%Q) in *.
    set (P := percentageOf (LanguageEntry.lines e) total) in *.
    set (c := Binary64.pow2 (-45)) in *.
    apply Qabs_Qle_condition in Hp. apply Qabs_Qle_condition in IH.
    apply Qabs_Qle_condition.
    assert (Hdist : (c * (ql + qL) == c * ql + c * qL)%Q) by ring.
    rewrite Hdist. lra.
Qed.

Lemma statsOfFiles_properties (srv : Server) (repo : Repository.t)
      (files : list TreeEntry.t) :
  let stats := statsOfFiles srv repo files in
  codeStatsAddUp stats
  /\ 0 <= CodeStats.totalLines stats
  /\ (0 < CodeStats.totalLines stats <= 2 ^ 53 ->
      (Qabs (sumPercentages (CodeStats.languageBreakdown stats) - 100)
       <= Binary64.pow2 (-45))%Q)
  /\ (CodeStats.totalLines stats = 0 ->
      forall (language : string) (e : LanguageEntry.t),
        OMap.get (CodeStats.languageBreakdown stats) language = Some e ->
        LanguageEntry.percentage e = 0%Q).
Proof.
  unfold statsOfFiles.
  pose proof (countFiles_invariant srv files _
                (initial_invariant repo (Z.of_nat (List.length files)))) as Hinv.
  pose proof (countFiles_nonnegative_lines srv files
                (withFileCount (initialStats repo) (Z.of_nat (List.length files)))
                ltac:(constructor)) as Hlines0.
  set (s := fold_left (countFile srv) files _) in *.
  destruct Hinv as [Hadd Hnn Hlines Hpct].
  simpl. split; [exact Hadd|]. split; [exact Hnn|]. split.
  - intros Hpos. unfold calculatePercentages; simpl.
    assert (Hb : (0 <? CodeStats.totalLines s) = true) by (apply Z.ltb_lt; lia).
    rewrite (map_ext _ (fun kv : string * LanguageEntry.t =>
               let (language, e) := kv in
               (language, LanguageEntry.mk (LanguageEntry.lines e) (LanguageEntry.files e)
                            (percentageOf (LanguageEntry.lines e) (CodeStats.totalLines s))))).
    + pose proof (percentages_sum_error (CodeStats.totalLines s)
                    (CodeStats.languageBreakdown s) Hpos Hlines0) as Herr.
      rewrite Hlines in Herr.
      assert (Hone : (inject_Z (CodeStats.totalLines s)
                      / inject_Z (CodeStats.totalLines s) == 1)%Q).
      { apply Qmult_inv_r. unfold Qeq; simpl. lia. }
      rewrite Hone in Herr. rewrite Qmult_1_l, Qmult_1_r in Herr. exact Herr.
    + intros [language e]. rewrite Hb. reflexivity.
  - intros Hzero language e Hget. unfold calculatePercentages in Hget; simpl in Hget.
    rewrite Hzero in Hget. simpl in Hget.
    rewrite (map_ext _ (fun kv => kv)), map_id in Hget
      by (intros [l0 e0]; reflexivity).
    apply get_In in Hget. rewrite Forall_forall in Hpct. exact (Hpct _ Hget).
Qed.

(** C1: the three classes of lines add up to the total, for the text of
    one file ([analyzeTextContent]), for what one file contributes
    ([analyzeFileContent]) and for the totals that [analyzeRepositoryCode]
    returns; both calls do return. *)
Theorem C1_total_is_code_plus_comment_plus_blank :
  (forall content filePath : string,
      linesAddUp (analyzeTextContent content filePath))
  /\ (forall (srv : Server) (file : TreeEntry.t) (log : list Request),
         exists (fileStats : LineStats) (log' : list Request),
           analyzeFileContent srv file log = (Ret fileStats, log')
           /\ linesAddUp fileStats)
  /\ (forall (srv : Server) (repo : Repository.t) (log : list Request),
         exists (stats : CodeStats.t) (log' : list Request),
           analyzeRepositoryCode srv repo log = (Ret stats, log')
           /\ codeStatsAddUp stats).
Proof.
  split; [exact analyzeTextContent_addUp|]. split.
  - intros srv file log. eexists. eexists.
    split; [apply analyzeFileContent_run | apply lineStatsOf_addUp].
  - intros srv repo log. eexists. eexists.
    split; [apply analyzeRepositoryCode_run|].
    apply (statsOfFiles_properties srv repo (selectedFiles srv repo)).
Qed.

(** C3, as the specification words it, fails: the percentages are
    binary64 numbers.  In a repository of three files of one line each,
    in three languages, each percentage is the number printed as
    33.33333333333333, and the three add up to less than 100. *)
Lemma C3_three_languages_sum_below_100 :
  exists (stats : CodeStats.t) (log' : list Request),
    analyzeRepositoryCode threeLanguageServer demoRepo [] = (Ret stats, log')
    /\ CodeStats.totalLines stats = 3
    /\ map (fun kv => (fst kv, LanguageEntry.percentage (snd kv)))
           (CodeStats.languageBreakdown stats)
       = [("JavaScript", (2345624805922133 # 70368744177664)%Q);
          ("Python", (2345624805922133 # 70368744177664)%Q);
          ("Go", (2345624805922133 # 70368744177664)%Q)]
    /\ (sumPercentages (CodeStats.languageBreakdown stats) < 100)%Q
    /\ ~ (sumPercentages (CodeStats.languageBreakdown stats) == 100)%Q.
Proof.
  eexists. eexists. split; [apply analyzeRepositoryCode_run|].
  split; [vm_compute; reflexivity|]. split; [vm_compute; reflexivity|].
  split; [vm_compute; reflexivity|vm_compute; discriminate].
Qed.

(** C3 (amended): [analyzeRepositoryCode] returns a record in which the
    percentages of all languages sum to 100 within floating-point
    tolerance when totalLines > 0: each is the binary64 result of
    [lines / totalLines * 100], and for a total of at most 2^53 lines
    their exact sum is off 100 by at most 2^-45 (two units in the last
    place of 100), whatever the number of languages.  Every percentage
    is exactly 0 when totalLines = 0. *)
Theorem C3_percentages_sum_to_100_within_tolerance (srv : Server) (repo : Repository.t)
        (log : list Request) :
  exists (stats : CodeStats.t) (log' : list Request),
    analyzeRepositoryCode srv repo log = (Ret stats, log')
    /\ (0 < CodeStats.totalLines stats ->
        forall (language : string) (e : LanguageEntry.t),
          OMap.get (CodeStats.languageBreakdown stats) language = Some e ->
          LanguageEntry.percentage e
          = Binary64.mul (Binary64.div (inject_Z (LanguageEntry.lines e))
                                       (inject_Z (CodeStats.totalLines stats)))
                         (inject_Z 100))
    /\ (0 < CodeStats.totalLines stats <= 2 ^ 53 ->
        (Qabs (sumPercentages (CodeStats.languageBreakdown stats) - 100)
         <= Binary64.pow2 (-45))%Q)
    /\ (CodeStats.totalLines stats = 0 ->
        forall (language : string) (e : LanguageEntry.t),
          OMap.get (CodeStats.languageBreakdown stats) language = Some e ->
          LanguageEntry.percentage e = 0%Q).
Proof.
  eexists. eexists. split; [apply analyzeRepositoryCode_run|].
  destruct (statsOfFiles_properties srv repo (selectedFiles srv repo))
    as (_ & _ & Hsum & Hzero).
  split; [|split; [exact Hsum | exact Hzero]].
  intros Hpos language e Hget. unfold statsOfFiles in Hget.
  rewrite calculatePercentages_get in Hget.
  destruct (OMap.get _ language) as [e0|]; [|discriminate].
  cbn [option_map] in Hget. unfold statsOfFiles in Hpos.
  cbn [calculatePercentages CodeStats.totalLines] in Hpos.
  apply Z.ltb_lt in Hpos. rewrite Hpos in Hget. injection Hget as <-.
  reflexivity.
Qed.

(* ================================================================== *)
(** ** Files above 100,000 bytes *)
(* ================================================================== *)

Lemma accumulate_get_eq (stats : CodeStats.t) (language : string) (fs : LineStats) :
  OMap.get (CodeStats.languageBreakdown (accumulate stats language fs)) language
  = let e := entryOrZero (CodeStats.languageBreakdown stats) language in
    Some (LanguageEntry.mk (LanguageEntry.lines e + totalLines fs)
                           (LanguageEntry.files e + 1) (LanguageEntry.percentage e)).
Proof.
  destruct (accumulate_breakdown stats language fs) as (e & Hb & He).
  rewrite Hb, get_set_eq. unfold entryOrZero. now subst e.
Qed.

Lemma accumulate_get_ne (stats : CodeStats.t) (language k : string) (fs : LineStats) :
  k <> language ->
  OMap.get (CodeStats.languageBreakdown (accumulate stats language fs)) k
  = OMap.get (CodeStats.languageBreakdown stats) k.
Proof.
  intros Hne. destruct (accumulate_breakdown stats language fs) as (e & Hb & _).
  rewrite Hb, get_set_ne by exact Hne.
  destruct (OMap.get (CodeStats.languageBreakdown stats) language);
    [reflexivity | now apply get_set_ne].
Qed.

Lemma extraFile_start (stats : CodeStats.t) (language : string) :
  extraFile language (accumulate stats language zeroLineStats) stats.
Proof.
  constructor; [simpl; lia | simpl; lia | simpl; lia | simpl; lia | | ].
  - intros k Hk. now apply (accumulate_get_ne stats language k zeroLineStats).
  - eexists. split; [apply accumulate_get_eq|]. simpl.
    split; [lia|]. split; [reflexivity|]. reflexivity.
Qed.

Lemma extraFile_accumulate (language k : string) (fs : LineStats)
      (withFile without : CodeStats.t) :
  extraFile language withFile without ->
  extraFile language (accumulate withFile k fs) (accumulate without k fs).
Proof.
  intros [Ht Hc Hm Hb Ho (e & He & Hl & Hf & Hp)].
  constructor; [simpl; lia | simpl; lia | simpl; lia | simpl; lia | | ].
  - intros k0 Hk0. destruct (String.eqb_spec k0 k) as [->|Hne].
    + rewrite !accumulate_get_eq. unfold entryOrZero. now rewrite (Ho k Hk0).
    + rewrite !accumulate_get_ne by exact Hne. now apply Ho.
  - destruct (String.eqb_spec language k) as [<-|Hne].
    + set (e0 := entryOrZero (CodeStats.languageBreakdown without) language) in *.
      assert (Hz : entryOrZero (CodeStats.languageBreakdown (accumulate without language fs))
                               language
                   = LanguageEntry.mk (LanguageEntry.lines e0 + totalLines fs)
                                      (LanguageEntry.files e0 + 1)
                                      (LanguageEntry.percentage e0)).
      { unfold entryOrZero at 1. rewrite accumulate_get_eq. reflexivity. }
      rewrite Hz, accumulate_get_eq. unfold entryOrZero. rewrite He.
      eexists. split; [reflexivity|]. simpl.
      split; [lia|]. split; [lia|]. exact Hp.
    + exists e. unfold entryOrZero in *.
      rewrite !accumulate_get_ne by exact Hne. auto.
Qed.

Lemma extraFile_fold (srv : Server) (language : string) (files : list TreeEntry.t) :
  forall withFile without : CodeStats.t,
    extraFile language withFile without ->
    extraFile language (fold_left (countFile srv) files withFile)
                       (fold_left (countFile srv) files without).
Proof.
  induction files as [|file rest IH]; intros withFile without H; simpl; [exact H|].
  apply IH. now apply extraFile_accumulate.
Qed.

Lemma percentageOf_zero (total : Z) : 0 < total -> (percentageOf 0 total == 0)%Q.
Proof. intros _. reflexivity. Qed.

Lemma extraFile_percentages (language : string) (withFile without : CodeStats.t) :
  extraFile language withFile without ->
  extraFile language (calculatePercentages withFile) (calculatePercentages without).
Proof.
  intros [Ht Hc Hm Hb Ho (e & He & Hl & Hf & Hp)].
  constructor; [simpl; lia | simpl; lia | simpl; lia | simpl; lia | | ].
  - intros k Hk. rewrite !calculatePercentages_get, Ht. now rewrite (Ho k Hk).
  - unfold entryOrZero in *. rewrite !calculatePercentages_get, He, Ht. simpl.
    eexists. split; [reflexivity|].
    destruct (OMap.get (CodeStats.languageBreakdown without) language) as [e0|]; simpl;
      destruct (0 <? CodeStats.totalLines without) eqn:E; simpl in *;
      repeat split; try lia; try exact Hp.
    + rewrite Hl. reflexivity.
    + rewrite Hl. apply percentageOf_zero. now apply Z.ltb_lt.
Qed.

Lemma countFile_withFileCount (srv : Server) (files : list TreeEntry.t) :
  forall (stats : CodeStats.t) (n : Z),
    fold_left (countFile srv) files (withFileCount stats n)
    = withFileCount (fold_left (countFile srv) files stats) n.
Proof.
  induction files as [|file rest IH]; intros stats n; simpl; [reflexivity|].
  rewrite <- IH. reflexivity.
Qed.

Lemma calculatePercentages_withFileCount (stats : CodeStats.t) (n : Z) :
  calculatePercentages (withFileCount stats n)
  = withFileCount (calculatePercentages stats) n.
Proof. reflexivity. Qed.

Lemma statsOfFiles_extra (srv : Server) (repo : Repository.t)
      (pre post : list TreeEntry.t) (file : TreeEntry.t) :
  100000 < TreeEntry.size file ->
  extraFile (getLanguageFromFile (TreeEntry.path file))
            (statsOfFiles srv repo (pre ++ file :: post))
            (statsOfFiles srv repo (pre ++ post))
  /\ CodeStats.fileCount (statsOfFiles srv repo (pre ++ file :: post))
     = CodeStats.fileCount (statsOfFiles srv repo (pre ++ post)) + 1.
Proof.
  intros Hbig. unfold statsOfFiles.
  rewrite !countFile_withFileCount, !calculatePercentages_withFileCount.
  split.
  - assert (H : extraFile (getLanguageFromFile (TreeEntry.path file))
                  (calculatePercentages
                     (fold_left (countFile srv) (pre ++ file :: post) (initialStats repo)))
                  (calculatePercentages
                     (fold_left (countFile srv) (pre ++ post) (initialStats repo)))).
    { apply extraFile_percentages. rewrite !fold_left_app. simpl.
      apply extraFile_fold.
      assert (Hzero : lineStatsOf srv file = zeroLineStats).
      { unfold lineStatsOf. apply Z.ltb_lt in Hbig. now rewrite Hbig. }
      unfold countFile at 1. rewrite Hzero. apply extraFile_start. }
    destruct H as [Ht Hc Hm Hb Ho He]. constructor; assumption.
  - simpl. rewrite !length_app. simpl. lia.
Qed.

(** C4, as the specification words it, fails: a file above 100,000 bytes
    is still one of [files.length] and one of its language's files. *)
Lemma C4_large_file_changes_the_record :
  100000 < TreeEntry.size bigFile
  /\ analyzeSelectedFiles offline demoRepo [bigFile] []
     <> analyzeSelectedFiles offline demoRepo [] [].
Proof.
  split; [reflexivity|]. vm_compute. discriminate.
Qed.

(** C4 (amended): a selected file above 100,000 bytes is not fetched and
    adds no lines: with it or without it in the selected list, the run
    sends the same requests and returns the same totalLines, codeLines,
    commentLines and blankLines, and the same entry for every other
    language.  It is counted as a file: fileCount is one higher, and the
    entry of its language exists with the same lines and percentage (0
    when there was none) and one more file. *)
Theorem C4_large_file_adds_no_lines (srv : Server) (repo : Repository.t)
        (pre post : list TreeEntry.t) (file : TreeEntry.t) (log : list Request) :
  100000 < TreeEntry.size file ->
  exists (withFile without : CodeStats.t) (log' : list Request),
    analyzeSelectedFiles srv repo (pre ++ file :: post) log = (Ret withFile, log')
    /\ analyzeSelectedFiles srv repo (pre ++ post) log = (Ret without, log')
    /\ extraFile (getLanguageFromFile (TreeEntry.path file)) withFile without
    /\ CodeStats.fileCount withFile = CodeStats.fileCount without + 1.
Proof.
  intros Hbig.
  exists (statsOfFiles srv repo (pre ++ file :: post)),
         (statsOfFiles srv repo (pre ++ post)),
         (log ++ flat_map fileRequests (pre ++ post)).
  rewrite !analyzeSelectedFiles_run.
  split.
  - rewrite !flat_map_app. simpl. unfold fileRequests at 2.
    apply Z.ltb_lt in Hbig. rewrite Hbig. reflexivity.
  - split; [reflexivity|]. now apply statsOfFiles_extra.
Qed.

Lemma C4_large_file_adds_no_lines_witness :
  exists (withFile without : CodeStats.t) (log' : list Request),
    analyzeSelectedFiles offline demoRepo ([] ++ bigFile :: []) [] = (Ret withFile, log')
    /\ analyzeSelectedFiles offline demoRepo ([] ++ []) [] = (Ret without, log')
    /\ extraFile (getLanguageFromFile (TreeEntry.path bigFile)) withFile without
    /\ CodeStats.fileCount withFile = CodeStats.fileCount without + 1.
Proof.
  apply (C4_large_file_adds_no_lines offline demoRepo [] [] bigFile []).
  reflexivity.
Defined.

(* ================================================================== *)
(** ** The file selector *)
(* ================================================================== *)

(** [getRepositoryFiles] returns the first entries, at most 100 and in
    tree order, that pass the filter; a failed listing gives none. *)
Lemma getRepositoryFiles_selects (srv : Server) (repo : Repository.t)
      (log : list Request) :
  exists log' : list Request,
    getRepositoryFiles srv repo log
    = (Ret match srv_tree srv (Repository.full_name repo)
                   (Repository.default_branch repo) with
           | Ok tree => firstn 100 (filter isCodeFile tree)
           | _ => []
           end, log').
Proof.
  eexists. rewrite getRepositoryFiles_run. reflexivity.
Qed.

Lemma extension_with_dot (dir name : string) :
  occurrences "."%char name = O ->
  extensionOf (dir ++ String "."%char name) = String "."%char (JS.toLowerCase name).
Proof.
  intros Hname. unfold extensionOf. f_equal.
  assert (Hs : JS.split "."%char name = [name]).
  { induction name as [|c n IH]; [reflexivity|]. simpl in *.
    destruct (Ascii.eqb c "."%char); [discriminate|].
    rewrite IH by exact Hname. reflexivity. }
  induction dir as [|c d IH]; simpl.
  - rewrite Hs. reflexivity.
  - destruct (Ascii.eqb c "."%char).
    + simpl. destruct (JS.split "."%char (d ++ String "."%char name)) eqn:E;
        [|exact IH].
      pose proof (split_length "."%char (d ++ String "."%char name)) as Hl.
      rewrite E in Hl. discriminate.
    + destruct (JS.split "."%char (d ++ String "."%char name)) as [|p [|q ps]] eqn:E.
      * pose proof (split_length "."%char (d ++ String "."%char name)) as Hl.
        rewrite E in Hl. discriminate.
      * exfalso. clear IH.
        pose proof (split_length "."%char (d ++ String "."%char name)) as Hl.
        rewrite E in Hl. simpl in Hl.
        assert (Hocc : (1 <= occurrences "."%char (d ++ String "."%char name))%nat).
        { clear. induction d as [|c' d' IHd]; simpl; [lia|].
          destruct (Ascii.eqb c' "."%char); lia. }
        lia.
      * exact IH.
Qed.

(** C5 (only blobs whose extension is in the allow-list are selected;
    an entry whose path has no dot is excluded) at an input where the
    exclusion fails.  For a path without a dot [split] returns the path
    itself, so the lower-cased path is taken for the extension and the
    root-level blob [go] is selected, next to entries that are rightly
    left out. *)
Theorem C5_file_without_extension_is_selected :
  occurrences "."%char (TreeEntry.path goWrapper) = O
  /\ isCodeFile goWrapper = true
  /\ getRepositoryFiles treeServer demoRepo []
     = (Ret [goWrapper], [GET_tree "acme/demo" "main"]).
Proof.
  repeat split.
Qed.

(* ================================================================== *)
(** ** Pagination *)
(* ================================================================== *)

Section Pagination.

Variable srv : Server.
Variable config : GitHubConfig.t.

Let org : string := GitHubConfig.organization config.

Lemma getRepositories_loop_done (fuel : nat) (acc : list Repository.t) (page : nat)
      (log : list Request) :
  getRepositories_loop srv config fuel acc page false log = (Ret acc, log).
Proof. destruct fuel; reflexivity. Qed.

Lemma getRepositories_loop_step (fuel : nat) (acc data : list Repository.t)
      (page : nat) (log : list Request) :
  srv_org_repos srv org 100 page = Ok data ->
  getRepositories_loop srv config (S fuel) acc page true log
  = getRepositories_loop srv config fuel (acc ++ data) (page + 1)
      (List.length data =? 100)%nat (log ++ [GET_org_repos org 100 page]).
Proof.
  intros H. simpl. unfold bind, makeRequest. fold org. rewrite H. reflexivity.
Qed.

Lemma getRepositories_loop_stops (k : nat) :
  forall (fuel : nat) (acc : list Repository.t) (page : nat) (log : list Request),
    (forall p : nat, (page <= p < page + k)%nat -> fullPage (srv_org_repos srv org 100 p)) ->
    shortPage (srv_org_repos srv org 100 (page + k)) ->
    (k < fuel)%nat ->
    getRepositories_loop srv config fuel acc page true log
    = (Ret (acc ++ flat_map (fun p => pageData (srv_org_repos srv org 100 p))
                            (seq page (S k))),
       log ++ map (GET_org_repos org 100) (seq page (S k))).
Proof.
  induction k as [|k IH]; intros fuel acc page log Hfull Hshort Hfuel.
  - destruct fuel as [|fuel]; [lia|].
    rewrite Nat.add_0_r in Hshort. destruct Hshort as (data & Hd & Hlen).
    rewrite (getRepositories_loop_step _ _ data) by exact Hd.
    apply Nat.eqb_neq in Hlen. rewrite Hlen, getRepositories_loop_done.
    simpl. rewrite Hd. simpl. now rewrite app_nil_r.
  - destruct fuel as [|fuel]; [lia|].
    destruct (Hfull page ltac:(lia)) as (data & Hd & Hlen).
    rewrite (getRepositories_loop_step _ _ data) by exact Hd.
    rewrite Hlen. change (100 =? 100)%nat with true.
    rewrite IH.
    + rewrite Nat.add_1_r. cbn [seq flat_map map]. rewrite Hd. simpl pageData.
      rewrite <- !app_assoc. reflexivity.
    + intros p Hp. apply Hfull. lia.
    + replace (page + 1 + k)%nat with (page + S k)%nat by lia. exact Hshort.
    + lia.
Qed.

Lemma getRepositories_loop_goes_on (fuel : nat) :
  forall (acc : list Repository.t) (page : nat) (log : list Request),
    (forall p : nat, (page <= p)%nat -> fullPage (srv_org_repos srv org 100 p)) ->
    getRepositories_loop srv config fuel acc page true log
    = (OutOfFuel, log ++ map (GET_org_repos org 100) (seq page fuel)).
Proof.
  induction fuel as [|fuel IH]; intros acc page log Hfull.
  - simpl. unfold outOfFuel. now rewrite app_nil_r.
  - destruct (Hfull page ltac:(lia)) as (data & Hd & Hlen).
    rewrite (getRepositories_loop_step _ _ data) by exact Hd.
    rewrite Hlen. change (100 =? 100)%nat with true.
    rewrite IH.
    + rewrite Nat.add_1_r. cbn [seq map]. rewrite <- app_assoc. reflexivity.
    + intros p Hp. apply Hfull. lia.
Qed.

Lemma memberDetail_run (member : User.t) (log : list Request) :
  memberDetail srv member log
  = (Ret (detailOf srv member), log ++ [GET_user_detail (User.login member)]).
Proof.
  unfold memberDetail, detailOf, try_catch, makeRequest.
  destruct (srv_user_detail srv (User.login member)); reflexivity.
Qed.

Lemma memberDetails_run (data : list User.t) :
  forall log : list Request,
    mapIO (memberDetail srv) data log
    = (Ret (map (detailOf srv) data),
       log ++ map (fun member => GET_user_detail (User.login member)) data).
Proof.
  induction data as [|member rest IH]; intros log; simpl.
  - unfold ret. now rewrite app_nil_r.
  - unfold bind at 1. rewrite memberDetail_run. unfold bind. rewrite IH.
    unfold ret. rewrite <- app_assoc. reflexivity.
Qed.

Lemma getOrganizationMembers_loop_done (fuel : nat) (acc : list User.t) (page : nat)
      (log : list Request) :
  getOrganizationMembers_loop srv config fuel acc page false log = (Ret acc, log).
Proof. destruct fuel; reflexivity. Qed.

Lemma getOrganizationMembers_loop_step (fuel : nat) (acc data : list User.t)
      (page : nat) (log : list Request) :
  srv_org_members srv org 100 page = Ok data ->
  getOrganizationMembers_loop srv config (S fuel) acc page true log
  = getOrganizationMembers_loop srv config fuel (acc ++ map (detailOf srv) data)
      (page + 1) (List.length data =? 100)%nat
      (log ++ memberPageRequests srv org page).
Proof.
  intros H. simpl. unfold bind at 1. unfold makeRequest. fold org. rewrite H.
  unfold bind. rewrite memberDetails_run. unfold memberPageRequests.
  rewrite H. simpl pageData. rewrite <- app_assoc. reflexivity.
Qed.

Lemma getOrganizationMembers_loop_stops (k : nat) :
  forall (fuel : nat) (acc : list User.t) (page : nat) (log : list Request),
    (forall p : nat, (page <= p < page + k)%nat ->
                     fullPage (srv_org_members srv org 100 p)) ->
    shortPage (srv_org_members srv org 100 (page + k)) ->
    (k < fuel)%nat ->
    getOrganizationMembers_loop srv config fuel acc page true log
    = (Ret (acc ++ flat_map (fun p => map (detailOf srv)
                                          (pageData (srv_org_members srv org 100 p)))
                            (seq page (S k))),
       log ++ flat_map (memberPageRequests srv org) (seq page (S k))).
Proof.
  induction k as [|k IH]; intros fuel acc page log Hfull Hshort Hfuel.
  - destruct fuel as [|fuel]; [lia|].
    rewrite Nat.add_0_r in Hshort. destruct Hshort as (data & Hd & Hlen).
    rewrite (getOrganizationMembers_loop_step _ _ data) by exact Hd.
    apply Nat.eqb_neq in Hlen. rewrite Hlen, getOrganizationMembers_loop_done.
    cbn [seq flat_map]. rewrite Hd. simpl pageData. now rewrite !app_nil_r.
  - destruct fuel as [|fuel]; [lia|].
    destruct (Hfull page ltac:(lia)) as (data & Hd & Hlen).
    rewrite (getOrganizationMembers_loop_step _ _ data) by exact Hd.
    rewrite Hlen. change (100 =? 100)%nat with true.
    rewrite IH.
    + rewrite Nat.add_1_r. cbn [seq flat_map]. rewrite Hd. simpl pageData.
      rewrite <- !app_assoc. reflexivity.
    + intros p Hp. apply Hfull. lia.
    + replace (page + 1 + k)%nat with (page + S k)%nat by lia. exact Hshort.
    + lia.
Qed.

Lemma getOrganizationMembers_loop_goes_on (fuel : nat) :
  forall (acc : list User.t) (page : nat) (log : list Request),
    (forall p : nat, (page <= p)%nat -> fullPage (srv_org_members srv org 100 p)) ->
    getOrganizationMembers_loop srv config fuel acc page true log
    = (OutOfFuel, log ++ flat_map (memberPageRequests srv org) (seq page fuel)).
Proof.
  induction fuel as [|fuel IH]; intros acc page log Hfull.
  - simpl. unfold outOfFuel. now rewrite app_nil_r.
  - destruct (Hfull page ltac:(lia)) as (data & Hd & Hlen).
    rewrite (getOrganizationMembers_loop_step _ _ data) by exact Hd.
    rewrite Hlen. change (100 =? 100)%nat with true.
    rewrite IH.
    + rewrite Nat.add_1_r. cbn [seq flat_map]. rewrite <- app_assoc. reflexivity.
    + intros p Hp. apply Hfull. lia.
Qed.

End Pagination.

(** C6: both listing loops ask for pages of 100.  When the pages
    1..k come back with exactly 100 items and page k+1 with another
    number, the loop ends after exactly the k+1 requests for the pages
    1..k+1 and returns their items; when every page comes back with
    exactly 100 items, the loop is still asking after any number of
    turns. *)
Theorem C6_pagination_stops_on_first_short_page (srv : Server)
        (config : GitHubConfig.t) (log : list Request) :
  let org := GitHubConfig.organization config in
  (forall k fuel : nat,
      (forall p : nat, (1 <= p < 1 + k)%nat -> fullPage (srv_org_repos srv org 100 p)) ->
      shortPage (srv_org_repos srv org 100 (1 + k)) ->
      (k < fuel)%nat ->
      getRepositories srv config fuel log
      = (Ret (flat_map (fun p => pageData (srv_org_repos srv org 100 p)) (seq 1 (S k))),
         log ++ map (GET_org_repos org 100) (seq 1 (S k))))
  /\ ((forall p : nat, (1 <= p)%nat -> fullPage (srv_org_repos srv org 100 p)) ->
      forall fuel : nat,
        getRepositories srv config fuel log
        = (OutOfFuel, log ++ map (GET_org_repos org 100) (seq 1 fuel)))
  /\ (forall k fuel : nat,
         (forall p : nat, (1 <= p < 1 + k)%nat ->
                          fullPage (srv_org_members srv org 100 p)) ->
         shortPage (srv_org_members srv org 100 (1 + k)) ->
         (k < fuel)%nat ->
         getOrganizationMembers srv config fuel log
         = (Ret (flat_map (fun p => map (detailOf srv)
                                        (pageData (srv_org_members srv org 100 p)))
                          (seq 1 (S k))),
            log ++ flat_map (memberPageRequests srv org) (seq 1 (S k))))
  /\ ((forall p : nat, (1 <= p)%nat -> fullPage (srv_org_members srv org 100 p)) ->
      forall fuel : nat,
        getOrganizationMembers srv config fuel log
        = (OutOfFuel, log ++ flat_map (memberPageRequests srv org) (seq 1 fuel))).
Proof.
  intros org. unfold getRepositories, getOrganizationMembers.
  split; [|split; [|split]].
  - intros k fuel Hfull Hshort Hfuel.
    now rewrite (getRepositories_loop_stops srv config k).
  - intros Hfull fuel. now apply getRepositories_loop_goes_on.
  - intros k fuel Hfull Hshort Hfuel.
    now rewrite (getOrganizationMembers_loop_stops srv config k).
  - intros Hfull fuel. now apply getOrganizationMembers_loop_goes_on.
Qed.

Lemma C6_pagination_two_pages :
  getRepositories twoPageServer demoConfig 2 []
  = (Ret (flat_map (fun p => pageData (srv_org_repos twoPageServer "acme" 100 p))
                   (seq 1 2)),
     [] ++ map (GET_org_repos "acme" 100) (seq 1 2)).
Proof.
  apply (proj1 (C6_pagination_stops_on_first_short_page twoPageServer demoConfig [])
               1%nat 2%nat).
  - intros p Hp. assert (p = 1%nat) as -> by lia.
    exists hundredRepos. split; reflexivity.
  - exists threeRepos. split; [reflexivity|]. simpl. lia.
  - lia.
Defined.

(* ================================================================== *)
(** ** A failed organisation lookup *)
(* ================================================================== *)

(** C9: when the organisation lookup fails, [performFullAnalysis] ends
    with that error (no record is returned), and the lookup is the only
    request it has sent: no repository, member, tree, file, commit or
    pull-request request follows. *)
Theorem C9_failed_lookup_aborts (Date_parse : string -> option Z) (srv : Server)
        (config : GitHubConfig.t) (fuel : nat) (log : list Request) (e : Error) :
  errorOf (srv_org srv (GitHubConfig.organization config)) = Some e ->
  getOrganization srv config log
  = (Throw e, log ++ [GET_org (GitHubConfig.organization config)])
  /\ performFullAnalysis Date_parse srv config fuel log
     = (Throw e, log ++ [GET_org (GitHubConfig.organization config)]).
Proof.
  intros He.
  assert (H : getOrganization srv config log
              = (Throw e, log ++ [GET_org (GitHubConfig.organization config)])).
  { unfold getOrganization, makeRequest.
    destruct (srv_org srv (GitHubConfig.organization config));
      simpl in He; congruence. }
  split; [exact H|].
  unfold performFullAnalysis, bind. rewrite H. reflexivity.
Qed.

Lemma C9_failed_lookup_offline :
  errorOf (srv_org offline (GitHubConfig.organization demoConfig))
  = Some (GitHubApiError 503 "Service Unavailable")
  /\ performFullAnalysis (fun _ => None) offline demoConfig 5 []
     = (Throw (GitHubApiError 503 "Service Unavailable"), [GET_org "acme"]).
Proof.
  split; [reflexivity|].
  apply (C9_failed_lookup_aborts (fun _ => None) offline demoConfig 5 []
           (GitHubApiError 503 "Service Unavailable")).
  reflexivity.
Defined.

(* ================================================================== *)
(** ** Attribution of commits *)
(* ================================================================== *)

Section Attribution.

Variable Date_parse : string -> option Z.

Lemma initUserStats_keeps (m : OMap.t UserStats.t) (member : User.t) (login : string) :
  OMap.get m login <> None -> OMap.get (initUserStats m member) login <> None.
Proof.
  intros H. unfold initUserStats.
  destruct (String.eqb_spec login (User.login member)) as [->|Hne].
  - rewrite get_set_eq. discriminate.
  - now rewrite get_set_ne.
Qed.

Lemma init_has_members (members : list User.t) :
  forall (m : OMap.t UserStats.t) (member : User.t),
    In member members \/ OMap.get m (User.login member) <> None ->
    OMap.get (fold_left initUserStats members m) (User.login member) <> None.
Proof.
  induction members as [|u rest IH]; intros m member H; simpl.
  - destruct H as [[]|H]; exact H.
  - apply IH. destruct H as [[->|Hin]|H].
    + right. unfold initUserStats. rewrite get_set_eq. discriminate.
    + left. exact Hin.
    + right. now apply initUserStats_keeps.
Qed.

Lemma processCommit_keeps (members : list User.t) (m : OMap.t UserStats.t)
      (commit : Commit.t) (login : string) :
  OMap.get m login <> None ->
  OMap.get (processCommit Date_parse members m commit) login <> None.
Proof.
  intros H. unfold processCommit.
  destruct (findUserByEmail members _) as [member|]; [|exact H].
  destruct (negb _ && _); [|exact H].
  destruct (OMap.get m (User.login member)) eqn:E; [|exact H].
  destruct (String.eqb_spec login (User.login member)) as [->|Hne].
  - rewrite get_set_eq. discriminate.
  - now rewrite get_set_ne.
Qed.

Lemma after_commits_has_members (members : list User.t) (commits : list Commit.t)
      (member : User.t) :
  In member members ->
  OMap.get (userStatsAfterCommits Date_parse members commits) (User.login member) <> None.
Proof.
  intros Hin. unfold userStatsAfterCommits.
  assert (H0 : OMap.get (fold_left initUserStats members OMap.empty) (User.login member)
               <> None) by (apply init_has_members; now left).
  revert H0. generalize (fold_left initUserStats members OMap.empty).
  induction commits as [|c rest IH]; intros m Hm; simpl; [exact Hm|].
  apply IH. now apply processCommit_keeps.
Qed.

(** [find] returns the first member that passes the test. *)
Lemma findUserByEmail_first (before after : list User.t) (member : User.t)
      (email : string) :
  (forall u : User.t, In u before -> User.email u <> Some email) ->
  User.email member = Some email ->
  findUserByEmail (before ++ member :: after) email = Some member.
Proof.
  intros Hbefore Hm. unfold findUserByEmail, JS.find.
  induction before as [|u rest IH]; simpl.
  - unfold emailIs. rewrite Hm, String.eqb_refl. reflexivity.
  - assert (Hu : emailIs email u = false).
    { unfold emailIs. destruct (User.email u) as [e|] eqn:E; [|reflexivity].
      destruct (String.eqb_spec e email) as [->|]; [|reflexivity].
      exfalso. apply (Hbefore u); [now left|exact E]. }
    rewrite Hu. apply IH. intros u' Hin. apply Hbefore. now right.
Qed.

Lemma findUserByEmail_none (members : list User.t) (email : string) :
  (forall u : User.t, In u members -> User.email u <> Some email) ->
  findUserByEmail members email = None.
Proof.
  intros H. unfold findUserByEmail, JS.find.
  induction members as [|u rest IH]; simpl; [reflexivity|].
  assert (Hu : emailIs email u = false).
  { unfold emailIs. destruct (User.email u) as [e|] eqn:E; [|reflexivity].
    destruct (String.eqb_spec e email) as [->|]; [|reflexivity].
    exfalso. apply (H u); [now left|exact E]. }
  rewrite Hu. apply IH. intros u' Hin. apply H. now right.
Qed.

(** C8: while [computeUserStats] processes a pooled commit, the first
    member whose profile email equals the commit author's email has
    their [commits] tally raised by one and every other tally stays as
    it is; when no member's email equals it, no tally changes.  (A
    member's tally is the entry under their login; logins are not
    empty.) *)
Theorem C8_commit_goes_to_first_member_with_that_email
        (members : list User.t) (processed : list Commit.t) (commit : Commit.t) :
  let email := GitPerson.email (Commit.author commit) in
  let m := userStatsAfterCommits Date_parse members processed in
  let m' := processCommit Date_parse members m commit in
  (forall (before after : list User.t) (member : User.t),
      members = before ++ member :: after ->
      (forall u : User.t, In u before -> User.email u <> Some email) ->
      User.email member = Some email ->
      User.login member <> EmptyString ->
      (exists n : Z, tally m (User.login member) = Some n
                     /\ tally m' (User.login member) = Some (n + 1))
      /\ (forall login : string, login <> User.login member ->
                                 tally m' login = tally m login))
  /\ ((forall u : User.t, In u members -> User.email u <> Some email) ->
      m' = m)
  /\ m' = userStatsAfterCommits Date_parse members (processed ++ [commit]).
Proof.
  intros email m m'. split; [|split].
  - intros before after member Hmembers Hbefore Hemail Hlogin.
    assert (Hfind : findUserByEmail members email = Some member)
      by (rewrite Hmembers; now apply findUserByEmail_first).
    assert (Hhas : OMap.get m (User.login member) <> None).
    { apply after_commits_has_members. rewrite Hmembers.
      apply in_or_app. right. now left. }
    subst m'. unfold processCommit. fold email. rewrite Hfind.
    apply String.eqb_neq in Hlogin. rewrite Hlogin. unfold OMap.has.
    destruct (OMap.get m (User.login member)) as [userStats|] eqn:E; [|congruence].
    simpl. split.
    + exists (UserStats.commits userStats). unfold tally.
      rewrite E, get_set_eq. split; reflexivity.
    + intros login Hne. unfold tally. now rewrite get_set_ne.
  - intros Hnone. subst m'. unfold processCommit. fold email.
    now rewrite findUserByEmail_none.
  - subst m' m. unfold userStatsAfterCommits. rewrite fold_left_app. reflexivity.
Qed.

End Attribution.

Lemma C8_commit_goes_to_alice :
  let m := userStatsAfterCommits Date_parse_iso [alice; alias; carol] [] in
  let m' := processCommit Date_parse_iso [alice; alias; carol] m (mapCommit januaryCommit) in
  (exists n : Z, tally m (User.login alice) = Some n
                 /\ tally m' (User.login alice) = Some (n + 1))
  /\ (forall login : string, login <> User.login alice -> tally m' login = tally m login).
Proof.
  apply (proj1 (C8_commit_goes_to_first_member_with_that_email Date_parse_iso
                  [alice; alias; carol] [] (mapCommit januaryCommit))
               [] [alias; carol] alice).
  - reflexivity.
  - intros u [].
  - reflexivity.
  - discriminate.
Defined.

(* ================================================================== *)
(** ** The bounded listings always return *)
(* ================================================================== *)

Section BoundedListings.

Variable srv : Server.
Variable config : GitHubConfig.t.

Lemma attempt_makeRequest {A : Type} (url : Request) (response : Response A)
      (log : list Request) :
  attempt (makeRequest url response) log
  = (Ret match response with
         | Ok data => inr data
         | NotOk status statusText => inl (GitHubApiError status statusText)
         | Rejected message => inl (FetchRejected message)
         end, log ++ [url]).
Proof.
  unfold attempt, try_catch, bind, makeRequest. destruct response; reflexivity.
Qed.

Lemma getRepositoryCommits_loop_returns (repo branch : string) (fuel : nat) :
  forall (commits : list Commit.t) (page : nat) (hasMore : bool) (log : list Request),
    (11 <= page + fuel)%nat ->
    exists (result : list Commit.t) (log' : list Request),
      getRepositoryCommits_loop srv config fuel repo branch commits page hasMore log
      = (Ret result, log').
Proof.
  induction fuel as [|fuel IH]; intros commits page hasMore log Hfuel.
  - simpl. destruct (Nat.leb_spec page 10) as [Hle|Hgt]; [lia|].
    rewrite andb_false_r. eexists. eexists. reflexivity.
  - simpl. destruct (hasMore && (page <=? 10)%nat);
      [|eexists; eexists; reflexivity].
    unfold bind. rewrite attempt_makeRequest.
    destruct (srv_commits srv _ repo branch 100 page) as [data| |].
    + apply IH. lia.
    + eexists. eexists. reflexivity.
    + eexists. eexists. reflexivity.
Qed.

Lemma getRepositoryPullRequests_loop_returns (repo : string) (fuel : nat) :
  forall (pullRequests : list PullRequest.t) (page : nat) (hasMore : bool)
         (log : list Request),
    (6 <= page + fuel)%nat ->
    exists (result : list PullRequest.t) (log' : list Request),
      getRepositoryPullRequests_loop srv config fuel repo pullRequests page hasMore log
      = (Ret result, log').
Proof.
  induction fuel as [|fuel IH]; intros pullRequests page hasMore log Hfuel.
  - simpl. destruct (Nat.leb_spec page 5) as [Hle|Hgt]; [lia|].
    rewrite andb_false_r. eexists. eexists. reflexivity.
  - simpl. destruct (hasMore && (page <=? 5)%nat);
      [|eexists; eexists; reflexivity].
    unfold bind. rewrite attempt_makeRequest.
    destruct (srv_pulls srv _ repo 100 page) as [data| |].
    + apply IH. lia.
    + eexists. eexists. reflexivity.
    + eexists. eexists. reflexivity.
Qed.

(** The repository loop of [performFullAnalysis] always returns: one
    repository's failures never end the run. *)
Lemma analyzeRepositories_returns (repositories : list Repository.t) :
  forall (pools : Pools) (log : list Request),
    exists (pools' : Pools) (log' : list Request),
      analyzeRepositories srv config repositories pools log = (Ret pools', log').
Proof.
  induction repositories as [|repo rest IH]; intros [[codeStats commits] prs] log.
  - eexists. eexists. reflexivity.
  - simpl. unfold bind at 1. unfold try_catch at 1. unfold bind at 1.
    rewrite analyzeRepositoryCode_run. unfold try_catch, bind.
    destruct (getRepositoryCommits_loop_returns (Repository.name repo) "main" 10
                [] 1%nat true
                (log ++ GET_tree (Repository.full_name repo)
                                 (Repository.default_branch repo)
                        :: flat_map fileRequests (selectedFiles srv repo))
                ltac:(lia)) as (cs & log1 & Hc).
    unfold getRepositoryCommits. rewrite Hc.
    destruct (getRepositoryPullRequests_loop_returns (Repository.name repo) 5
                [] 1%nat true log1 ltac:(lia)) as (ps & log2 & Hp).
    unfold getRepositoryPullRequests. rewrite Hp. unfold ret. apply IH.
Qed.

End BoundedListings.

(** Once the organisation is found and the two listings end, the run
    returns a record. *)
Lemma performFullAnalysis_returns (Date_parse : string -> option Z) (srv : Server)
      (config : GitHubConfig.t) (fuel : nat) (log log1 log2 : list Request)
      (org : Organization.t) (repositories : list Repository.t)
      (members : list User.t) :
  srv_org srv (GitHubConfig.organization config) = Ok org ->
  getRepositories srv config fuel (log ++ [GET_org (GitHubConfig.organization config)])
  = (Ret repositories, log1) ->
  getOrganizationMembers srv config fuel log1 = (Ret members, log2) ->
  exists (stats : OrganizationStats.t) (log' : list Request),
    performFullAnalysis Date_parse srv config fuel log = (Ret stats, log')
    /\ OrganizationStats.repositories stats = repositories
    /\ OrganizationStats.members stats = members.
Proof.
  intros Horg Hrepos Hmembers.
  unfold performFullAnalysis, bind, getOrganization, makeRequest.
  rewrite Horg, Hrepos, Hmembers.
  destruct (analyzeRepositories_returns srv config repositories ([], [], []) log2)
    as ([[codeStats commits] prs] & log3 & Hpools).
  rewrite Hpools. eexists. eexists. split; [reflexivity|]. split; reflexivity.
Qed.

(* ================================================================== *)
(** ** Recent activity *)
(* ================================================================== *)

(** *** The sort under a comparator that never answers [NaN] *)

Section SortFacts.

Context {A : Type}.

Lemma sort_insert_In (f : A -> A -> option Z) (x y : A) (r : list A) :
  In y (JS.sort_insert f x r) <-> y = x \/ In y r.
Proof.
  induction r as [|z r IH]; simpl.
  - intuition congruence.
  - destruct (0 <? JS.sortCompare f z x); simpl; rewrite ?IH; intuition congruence.
Qed.

(** The sort only compares elements of the array. *)
Lemma sort_insert_ext (f g : A -> A -> option Z) (x : A) (r : list A) :
  (forall y : A, In y r -> f y x = g y x) ->
  JS.sort_insert f x r = JS.sort_insert g x r.
Proof.
  induction r as [|z r IH]; intros H; simpl; [reflexivity|].
  unfold JS.sortCompare. rewrite (H z) by now left.
  destruct (0 <? match g z x with Some v => v | None => 0 end); [|reflexivity].
  f_equal. apply IH. intros y Hy. apply H. now right.
Qed.

Lemma sort_ext (f g : A -> A -> option Z) (l : list A) :
  (forall a b : A, In a l -> In b l -> f a b = g a b) ->
  JS.sort f l = JS.sort g l.
Proof.
  intros H. unfold JS.sort. f_equal.
  assert (Hgen : forall r : list A,
             (forall a b : A, In a (r ++ l) -> In b (r ++ l) -> f a b = g a b) ->
             fold_left (fun r x => JS.sort_insert f x r) l r
             = fold_left (fun r x => JS.sort_insert g x r) l r).
  { clear H. induction l as [|x l IH]; intros r H; simpl; [reflexivity|].
    rewrite (sort_insert_ext f g x r).
    - apply IH. intros a b Ha Hb.
      apply H; apply in_or_app.
      + apply in_app_or in Ha. destruct Ha as [Ha|Ha]; [|right; now right].
        apply sort_insert_In in Ha. destruct Ha as [->|Ha]; [right; now left|now left].
      + apply in_app_or in Hb. destruct Hb as [Hb|Hb]; [|right; now right].
        apply sort_insert_In in Hb. destruct Hb as [->|Hb]; [right; now left|now left].
    - intros y Hy. apply H; apply in_or_app; [now left|right; now left]. }
  apply Hgen. simpl. exact H.
Qed.

(** Whatever the comparator, the sort rearranges the array. *)
Lemma sort_insert_permutation (f : A -> A -> option Z) (x : A) (r : list A) :
  Permutation (x :: r) (JS.sort_insert f x r).
Proof.
  induction r as [|z r IH]; simpl; [reflexivity|].
  destruct (0 <? JS.sortCompare f z x); [|reflexivity].
  rewrite perm_swap. now apply perm_skip.
Qed.

Lemma sort_permutation (f : A -> A -> option Z) (l : list A) :
  Permutation l (JS.sort f l).
Proof.
  unfold JS.sort. rewrite <- Permutation_rev.
  assert (H : forall r : list A,
             Permutation (r ++ l)
               (fold_left (fun r x => JS.sort_insert f x r) l r)).
  { induction l as [|x l IH]; intros r; simpl.
    - now rewrite app_nil_r.
    - transitivity ((x :: r) ++ l); [symmetry; apply Permutation_middle|].
      transitivity (JS.sort_insert f x r ++ l); [|apply IH].
      apply Permutation_app_tail, sort_insert_permutation. }
  exact (H []).
Qed.

End SortFacts.

Section SortByKey.

Context {A : Type}.
Variable key : A -> Z.

Lemma sort_insert_ascending (x : A) (r : list A) :
  StronglySorted (fun a b => key a <= key b) r ->
  StronglySorted (fun a b => key a <= key b) (JS.sort_insert (descendingCompare key) x r).
Proof.
  induction r as [|z r IH]; intros Hr; simpl.
  - constructor; constructor.
  - inversion Hr as [|z' r' Hr' Hz]; subst.
    unfold JS.sortCompare, descendingCompare at 1.
    destruct (Z.ltb_spec 0 (key x - key z)) as [Hlt|Hge].
    + constructor; [now apply IH|].
      rewrite Forall_forall in *. intros y Hy.
      apply sort_insert_In in Hy. destruct Hy as [->|Hy]; [lia|now apply Hz].
    + constructor; [exact Hr|].
      constructor; [lia|].
      rewrite Forall_forall in *. intros y Hy. specialize (Hz y Hy). lia.
Qed.

Lemma sorted_prefix_ascending (l : list A) :
  forall r : list A,
    StronglySorted (fun a b => key a <= key b) r ->
    StronglySorted (fun a b => key a <= key b)
      (fold_left (fun r x => JS.sort_insert (descendingCompare key) x r) l r).
Proof.
  induction l as [|x l IH]; intros r Hr; simpl; [exact Hr|].
  apply IH. now apply sort_insert_ascending.
Qed.

Lemma ascending_snoc (r : list A) (x : A) :
  StronglySorted (fun a b => key b <= key a) r ->
  Forall (fun y => key x <= key y) r ->
  StronglySorted (fun a b => key b <= key a) (r ++ [x]).
Proof.
  induction r as [|z r IH]; intros Hr Hx; simpl.
  - constructor; constructor.
  - inversion Hr as [|z' r' Hr' Hz]; subst.
    inversion Hx as [|z' r' Hzx Hx']; subst.
    constructor; [now apply IH|].
    apply Forall_app. split; [exact Hz|]. constructor; [exact Hzx|constructor].
Qed.

Lemma rev_descending (r : list A) :
  StronglySorted (fun a b => key a <= key b) r -> descendingBy key (rev r).
Proof.
  unfold descendingBy. induction r as [|z r IH]; intros Hr; simpl; [constructor|].
  inversion Hr as [|z' r' Hr' Hz]; subst.
  apply ascending_snoc; [now apply IH|].
  rewrite Forall_forall in *. intros y Hy. apply Hz. now apply in_rev.
Qed.

Lemma sort_descending (l : list A) : descendingBy key (JS.sort (descendingCompare key) l).
Proof.
  unfold JS.sort. apply rev_descending, sorted_prefix_ascending. constructor.
Qed.

Lemma firstn_descending (n : nat) (l : list A) :
  descendingBy key l -> descendingBy key (firstn n l).
Proof.
  unfold descendingBy. revert n. induction l as [|x l IH]; intros n Hl.
  - now rewrite firstn_nil.
  - destruct n as [|n]; simpl; [constructor|].
    inversion Hl as [|x' l' Hl' Hx]; subst.
    constructor; [now apply IH|].
    rewrite Forall_forall in *. intros y Hy. apply Hx.
    revert Hy. clear. revert n. induction l as [|z l IHl]; intros n Hy.
    + now rewrite firstn_nil in Hy.
    + destruct n; simpl in Hy; [contradiction|].
      destruct Hy as [->|Hy]; [now left|right; eauto].
Qed.

End SortByKey.

(** With dates that all parse, the two lists of recent activity come
    out sorted, latest first; they never hold more than 50 entries. *)
Lemma recentActivity_sorted_when_dates_parse (Date_parse : string -> option Z)
      (org : Organization.t) (repositories : list Repository.t) (members : list User.t)
      (userStats : list UserStats.t) (codeStats : list CodeStats.t)
      (recentCommits : list Commit.t) (recentPullRequests : list PullRequest.t) :
  let activity :=
    OrganizationStats.recentActivity
      (computeOrganizationStats Date_parse org repositories members userStats codeStats
         recentCommits recentPullRequests) in
  ((List.length (RecentActivity.commits activity) <= 50)%nat
   /\ (List.length (RecentActivity.pullRequests activity) <= 50)%nat)
  /\ ((forall c : Commit.t, In c recentCommits ->
                            Date_parse (GitPerson.date (Commit.author c)) <> None) ->
      descendingBy (fun c => timeOf (Date_parse (GitPerson.date (Commit.author c))))
                   (RecentActivity.commits activity))
  /\ ((forall pr : PullRequest.t, In pr recentPullRequests ->
                                  Date_parse (PullRequest.created_at pr) <> None) ->
      descendingBy (fun pr => timeOf (Date_parse (PullRequest.created_at pr)))
                   (RecentActivity.pullRequests activity)).
Proof.
  unfold computeOrganizationStats.
  cbn [OrganizationStats.recentActivity RecentActivity.commits
       RecentActivity.pullRequests].
  unfold JS.slice0. split; [split; apply firstn_le_length|]. split.
  - intros Hvalid. apply firstn_descending.
    rewrite (sort_ext (byCommitDate Date_parse)
               (descendingCompare
                  (fun c => timeOf (Date_parse (GitPerson.date (Commit.author c)))))).
    + apply sort_descending.
    + intros a b Ha Hb. unfold byCommitDate, descendingCompare, JS.sub.
      pose proof (Hvalid a Ha). pose proof (Hvalid b Hb).
      destruct (Date_parse (GitPerson.date (Commit.author a)));
        destruct (Date_parse (GitPerson.date (Commit.author b)));
        simpl; congruence.
  - intros Hvalid. apply firstn_descending.
    rewrite (sort_ext (byCreatedAt Date_parse)
               (descendingCompare
                  (fun pr => timeOf (Date_parse (PullRequest.created_at pr))))).
    + apply sort_descending.
    + intros a b Ha Hb. unfold byCreatedAt, descendingCompare, JS.sub.
      pose proof (Hvalid a Ha). pose proof (Hvalid b Hb).
      destruct (Date_parse (PullRequest.created_at a));
        destruct (Date_parse (PullRequest.created_at b));
        simpl; congruence.
Qed.

(** C7 (the lists of recent activity hold at most 50 entries and are
    sorted non-increasing by date) at an input where the order fails.
    The pool holds a commit without an author record: [mapCommit] gives
    it the empty string for a date, every comparison with it answers
    [NaN], which the sort reads as equal, and nothing is moved.  The run
    returns the January commit ahead of the June commit.  (The three
    dates in play are the empty string and two date-time strings of the
    API, on which [Date_parse_iso] is the platform's parser.) *)
Theorem C7_commit_without_author_date_breaks_order :
  exists (stats : OrganizationStats.t) (log : list Request),
    performFullAnalysis Date_parse_iso activityServer demoConfig 1 [] = (Ret stats, log)
    /\ commitTimes Date_parse_iso
         (RecentActivity.commits (OrganizationStats.recentActivity stats))
       = [Some 1704067200000; None; Some 1717200000000]
    /\ outOfOrder
         (commitTimes Date_parse_iso
            (RecentActivity.commits (OrganizationStats.recentActivity stats))).
Proof.
  eexists. eexists. split; [vm_compute; reflexivity|].
  split; [vm_compute; reflexivity|].
  exists 0%nat, 2%nat, 1704067200000, 1717200000000.
  split; [lia|]. split; [vm_compute; reflexivity|]. split; [vm_compute; reflexivity|].
  lia.
Qed.

(* ================================================================== *)
(** ** More on the line classifier *)
(* ================================================================== *)

Lemma split_join (sep : ascii) (a b : string) :
  JS.split sep (a ++ String sep b) = JS.split sep a ++ JS.split sep b.
Proof.
  induction a as [|c a IH]; simpl.
  - now rewrite Ascii.eqb_refl.
  - destruct (Ascii.eqb c sep); [now rewrite IH|].
    rewrite IH. destruct (JS.split sep a) as [|piece pieces] eqn:E; [|reflexivity].
    pose proof (split_length sep a) as Hl. rewrite E in Hl. discriminate.
Qed.

Lemma classify_from (patterns : CommentPatterns) (lines : list string) :
  forall acc : Counters,
    let from0 := fold_left (classifyLine patterns) lines (mkCounters 0 0 0) in
    fold_left (classifyLine patterns) lines acc
    = mkCounters (n_code acc + n_code from0) (n_comment acc + n_comment from0)
                 (n_blank acc + n_blank from0).
Proof.
  induction lines as [|line lines IH]; intros [c m b]; simpl.
  - f_equal; lia.
  - cbv zeta in IH.
    rewrite (IH (classifyLine patterns (mkCounters c m b) line)).
    rewrite (IH (classifyLine patterns (mkCounters 0 0 0) line)).
    set (rest := fold_left (classifyLine patterns) lines (mkCounters 0 0 0)).
    unfold classifyLine.
    destruct (String.eqb (JS.trim line) EmptyString);
      cbn [n_code n_comment n_blank]; [f_equal; lia|].
    destruct (isCommentLine (JS.trim line) patterns);
      cbn [n_code n_comment n_blank]; f_equal; lia.
Qed.

(** X1: the counts of two texts joined by a line feed are the sums of
    their counts; so appending a line feed to a text adds one line, a
    blank one, and leaves the code and comment lines as they are. *)
Theorem X1_counts_add_over_line_feed (a b filePath : string) :
  analyzeTextContent (a ++ String JS.LF b) filePath
  = addLineStats (analyzeTextContent a filePath) (analyzeTextContent b filePath)
  /\ analyzeTextContent (a ++ String JS.LF EmptyString) filePath
     = addLineStats (analyzeTextContent a filePath) (mkLineStats 1 0 0 1).
Proof.
  assert (H : forall b' : string,
             analyzeTextContent (a ++ String JS.LF b') filePath
             = addLineStats (analyzeTextContent a filePath)
                            (analyzeTextContent b' filePath)).
  { intros b'. unfold analyzeTextContent, addLineStats. cbv zeta.
    rewrite split_join, fold_left_app, length_app.
    rewrite (classify_from _ (JS.split JS.LF b')).
    cbn [totalLines codeLines commentLines blankLines n_code n_comment n_blank].
    f_equal. lia. }
  split; [apply H|]. rewrite H. reflexivity.
Qed.

Lemma split_single (sep : ascii) (s : string) :
  occurrences sep s = O -> JS.split sep s = [s].
Proof.
  induction s as [|c s IH]; simpl; [reflexivity|].
  destruct (Ascii.eqb c sep); [discriminate|].
  intros H. now rewrite IH.
Qed.

Lemma occurrences_app (c : ascii) (a b : string) :
  occurrences c (a ++ b) = (occurrences c a + occurrences c b)%nat.
Proof.
  induction a as [|c' a IH]; simpl; [reflexivity|]. rewrite IH. lia.
Qed.

Lemma padding_has_no_line_feed (ws : string) :
  isPadding ws = true -> occurrences JS.LF ws = O.
Proof.
  induction ws as [|c ws IH]; simpl; [reflexivity|].
  intros H. apply andb_prop in H. destruct H as [H Hws].
  apply andb_prop in H. destruct H as [_ Hc].
  destruct (Ascii.eqb c JS.LF); [discriminate|]. now apply IH.
Qed.

Lemma trimStart_padding (ws s : string) :
  isPadding ws = true -> JS.trimStart (ws ++ s) = JS.trimStart s.
Proof.
  induction ws as [|c ws IH]; simpl; [reflexivity|].
  intros H. apply andb_prop in H. destruct H as [H Hws].
  apply andb_prop in H. destruct H as [Hc _].
  rewrite Hc. now apply IH.
Qed.

Lemma trimEnd_of_padding (ws : string) :
  isPadding ws = true -> JS.trimEnd ws = EmptyString.
Proof.
  induction ws as [|c ws IH]; simpl; [reflexivity|].
  intros H. apply andb_prop in H. destruct H as [H Hws].
  apply andb_prop in H. destruct H as [Hc _].
  rewrite (IH Hws), Hc. reflexivity.
Qed.

Lemma trimEnd_padding (s ws : string) :
  isPadding ws = true -> JS.trimEnd (s ++ ws) = JS.trimEnd s.
Proof.
  intros Hws. induction s as [|c s IH]; simpl.
  - now apply trimEnd_of_padding.
  - now rewrite IH.
Qed.

Lemma trim_padding (ws line ws' : string) :
  isPadding ws = true -> isPadding ws' = true ->
  JS.trim (ws ++ line ++ ws') = JS.trim line.
Proof.
  intros Hws Hws'. unfold JS.trim. rewrite trimStart_padding by exact Hws.
  induction line as [|c line IH]; simpl.
  - assert (H : JS.trimStart ws' = EmptyString).
    { clear - Hws'. induction ws' as [|c ws' IH]; simpl in *; [reflexivity|].
      apply andb_prop in Hws'. destruct Hws' as [H Hrest].
      apply andb_prop in H. destruct H as [Hc _]. rewrite Hc. now apply IH. }
    now rewrite H.
  - destruct (JS.isWhiteSpace c); [exact IH|].
    change (String c (line ++ ws')) with (String c line ++ ws')%string.
    now apply trimEnd_padding.
Qed.

(** X2: white space around a line (indentation, trailing blanks, the
    carriage return of a CRLF ending) does not change how the line is
    counted. *)
Theorem X2_padding_does_not_change_the_counts (ws line ws' filePath : string) :
  isPadding ws = true ->
  isPadding ws' = true ->
  occurrences JS.LF line = O ->
  analyzeTextContent (ws ++ line ++ ws') filePath = analyzeTextContent line filePath.
Proof.
  intros Hws Hws' Hline. unfold analyzeTextContent.
  rewrite (split_single JS.LF line) by exact Hline.
  rewrite (split_single JS.LF (ws ++ line ++ ws')).
  - cbn [fold_left List.length]. unfold classifyLine.
    now rewrite trim_padding.
  - rewrite !occurrences_app, Hline.
    now rewrite !padding_has_no_line_feed.
Qed.

Lemma X2_padding_witness :
  analyzeTextContent
    ("  " ++ "// note" ++ String (ascii_of_nat 13) EmptyString) "src/app.ts"
  = analyzeTextContent "// note" "src/app.ts".
Proof.
  apply (X2_padding_does_not_change_the_counts
           "  " "// note" (String (ascii_of_nat 13) EmptyString) "src/app.ts");
    reflexivity.
Defined.

(** X3: in a file whose language has no entry in the table of comment
    patterns (C/C++ headers, Swift, Kotlin, Scala, SCSS, Vue, Svelte and
    Other), no line is ever counted as a comment: every line is blank
    or code. *)
Theorem X3_no_patterns_no_comment_lines (content filePath : string) :
  In (getLanguageFromFile filePath) languagesWithoutPatterns ->
  commentLines (analyzeTextContent content filePath) = 0
  /\ totalLines (analyzeTextContent content filePath)
     = codeLines (analyzeTextContent content filePath)
       + blankLines (analyzeTextContent content filePath).
Proof.
  intros Hlang.
  assert (Hp : getCommentPatterns (getLanguageFromFile filePath) = mkPatterns [] []).
  { unfold languagesWithoutPatterns in Hlang. simpl in Hlang.
    repeat (destruct Hlang as [Hlang|Hlang]; [rewrite <- Hlang; reflexivity|]).
    contradiction. }
  assert (H0 : commentLines (analyzeTextContent content filePath) = 0).
  { unfold analyzeTextContent. rewrite Hp. cbn [commentLines].
    assert (H : forall (lines : list string) (acc : Counters),
               n_comment (fold_left (classifyLine (mkPatterns [] [])) lines acc)
               = n_comment acc).
    { induction lines as [|line lines IH]; intros acc; simpl; [reflexivity|].
      rewrite IH. unfold classifyLine.
      destruct (String.eqb (JS.trim line) EmptyString); reflexivity. }
    now rewrite H. }
  split; [exact H0|].
  pose proof (analyzeTextContent_addUp content filePath) as Hsum.
  unfold linesAddUp in Hsum. lia.
Qed.

Lemma X3_header_file_witness :
  commentLines (analyzeTextContent "// only a comment" "include/api.h") = 0
  /\ totalLines (analyzeTextContent "// only a comment" "include/api.h")
     = codeLines (analyzeTextContent "// only a comment" "include/api.h")
       + blankLines (analyzeTextContent "// only a comment" "include/api.h").
Proof.
  apply (X3_no_patterns_no_comment_lines "// only a comment" "include/api.h").
  simpl. left. reflexivity.
Defined.

(* ================================================================== *)
(** ** More on extensions and languages *)
(* ================================================================== *)

(** X4: whether a blob is selected, and the language it is counted
    under, depend only on the text after the last dot of its path, read
    without regard to case: [Main.JAVA] is treated as [x.java]. *)
Theorem X4_extension_is_read_without_case
        (dir dir' name name' type url url' : string) (size size' : Z) :
  occurrences "."%char name = O ->
  occurrences "."%char name' = O ->
  JS.toLowerCase name = JS.toLowerCase name' ->
  getLanguageFromFile (dir ++ String "."%char name)
  = getLanguageFromFile (dir' ++ String "."%char name')
  /\ isCodeFile (TreeEntry.mk (dir ++ String "."%char name) type size url)
     = isCodeFile (TreeEntry.mk (dir' ++ String "."%char name') type size' url').
Proof.
  intros Hname Hname' Hlower.
  unfold getLanguageFromFile, isCodeFile. cbn [TreeEntry.path TreeEntry.type].
  rewrite !extension_with_dot by assumption. rewrite Hlower. split; reflexivity.
Qed.

Lemma X4_upper_case_witness :
  getLanguageFromFile ("src/Main" ++ String "."%char "JAVA")
  = getLanguageFromFile ("x" ++ String "."%char "java")
  /\ isCodeFile (TreeEntry.mk ("src/Main" ++ String "."%char "JAVA") "blob" 10 "u1")
     = isCodeFile (TreeEntry.mk ("x" ++ String "."%char "java") "blob" 20 "u2").
Proof.
  apply (X4_extension_is_read_without_case
           "src/Main" "x" "JAVA" "java" "blob" "u1" "u2" 10 20); reflexivity.
Defined.

Lemma language_extensions_are_selected (ext : string) :
  OMap.get languageMap ext <> None -> includes includeExtensions ext = true.
Proof.
  unfold languageMap. cbn [OMap.get].
  repeat match goal with
         | |- context [String.eqb ?k ext] =>
             destruct (String.eqb_spec k ext) as [<-|_]; [reflexivity|]
         end.
  congruence.
Qed.

(** X5: the allow-list of the selector and the language table differ.
    Every extension that has a language is selected, but thirteen
    selected extensions (.clj, .hs, .ml, .r, .m, .pl, .sh, .sql, .less,
    .dart, .lua, .nim, .zig) have none: a blob with one of them is
    selected and counted under Other. *)
Theorem X5_selected_extensions_without_language (dir url : string) (size : Z) :
  (forall ext : string,
      In ext extensionsWithoutLanguage ->
      isCodeFile (TreeEntry.mk (dir ++ ext) "blob" size url) = true
      /\ getLanguageFromFile (dir ++ ext) = "Other")
  /\ (forall ext : string,
         OMap.get languageMap ext <> None -> includes includeExtensions ext = true)
  /\ (forall ext : string,
         includes includeExtensions ext = true ->
         OMap.get languageMap ext = None <-> In ext extensionsWithoutLanguage).
Proof.
  split; [|split].
  - intros ext Hext. unfold extensionsWithoutLanguage in Hext. simpl in Hext.
    unfold getLanguageFromFile, isCodeFile. cbn [TreeEntry.path TreeEntry.type].
    repeat (destruct Hext as [<-|Hext];
            [rewrite extension_with_dot by reflexivity; split; reflexivity|]).
    contradiction.
  - exact language_extensions_are_selected.
  - intros ext Hin. unfold includes, includeExtensions in Hin.
    cbn [existsb] in Hin.
    repeat match type of Hin with
           | (String.eqb ext ?k || _)%bool = true =>
               apply orb_prop in Hin; destruct Hin as [Hin|Hin];
               [apply String.eqb_eq in Hin; subst ext;
                vm_compute; split; intro; first [discriminate | tauto | intuition discriminate]|]
           | String.eqb ext ?k = true =>
               apply String.eqb_eq in Hin; subst ext;
               vm_compute; split; intro; first [discriminate | tauto | intuition discriminate]
           | false = true => discriminate
           end.
Qed.

(* ================================================================== *)
(** ** More on files *)
(* ================================================================== *)

Lemma list_ascii_of_string_app (a b : string) :
  list_ascii_of_string (a ++ b) = list_ascii_of_string a ++ list_ascii_of_string b.
Proof.
  induction a as [|c a IH]; simpl; [reflexivity|]. now rewrite IH.
Qed.

Lemma removeLF_filtered (s : string) :
  filter (fun c => negb (JS.isAsciiWhitespace c)) (list_ascii_of_string (JS.removeLF s))
  = filter (fun c => negb (JS.isAsciiWhitespace c)) (list_ascii_of_string s).
Proof.
  induction s as [|c s IH]; simpl; [reflexivity|].
  destruct (Ascii.eqb_spec c JS.LF) as [->|Hc]; simpl.
  - exact IH.
  - now rewrite IH.
Qed.

(** X6: ASCII white space inside the base64 text (the line feeds that
    the API puts every 60 characters, for one) does not change what
    [atob] decodes; removing the line feeds first, as
    [analyzeFileContent] does, changes nothing either. *)
Theorem X6_white_space_in_base64_is_ignored (a ws b : string) :
  isAsciiBlank ws = true ->
  JS.atob (a ++ ws ++ b) = JS.atob (a ++ b)
  /\ JS.atob (JS.removeLF (a ++ ws ++ b)) = JS.atob (a ++ b).
Proof.
  intros Hws.
  assert (H : JS.atob (a ++ ws ++ b) = JS.atob (a ++ b)).
  { unfold JS.atob. rewrite !list_ascii_of_string_app, !filter_app.
    assert (Hnone : filter (fun c => negb (JS.isAsciiWhitespace c))
                           (list_ascii_of_string ws) = []).
    { unfold isAsciiBlank in Hws.
      induction (list_ascii_of_string ws) as [|c l IH]; simpl in *; [reflexivity|].
      apply andb_prop in Hws. destruct Hws as [Hc Hl]. rewrite Hc. simpl.
      now apply IH. }
    now rewrite Hnone. }
  split; [exact H|].
  rewrite <- H. unfold JS.atob. now rewrite removeLF_filtered.
Qed.

Lemma X6_wrapped_base64_witness :
  JS.atob ("YQov" ++ String JS.LF EmptyString ++ "LyBiCgo=") = JS.atob ("YQov" ++ "LyBiCgo=")
  /\ JS.atob (JS.removeLF ("YQov" ++ String JS.LF EmptyString ++ "LyBiCgo="))
     = JS.atob ("YQov" ++ "LyBiCgo=").
Proof.
  apply (X6_white_space_in_base64_is_ignored "YQov" (String JS.LF EmptyString) "LyBiCgo=").
  reflexivity.
Defined.

(** X7: [analyzeFileContent] never throws and sends at most one
    request, none for a file above 100,000 bytes.  A failed request, an
    encoding other than base64 and a text that is not base64 all give
    zero counts; otherwise the counts are those of the decoded text. *)
Theorem X7_file_errors_give_zero_counts (srv : Server) (file : TreeEntry.t)
        (log : list Request) :
  exists fileStats : LineStats,
    analyzeFileContent srv file log = (Ret fileStats, log ++ fileRequests file)
    /\ (fileRequests file = [] <-> 100000 < TreeEntry.size file)
    /\ (fileRequests file = [] \/ fileRequests file = [GET_url (TreeEntry.url file)])
    /\ (errorOf (srv_url srv (TreeEntry.url file)) <> None -> fileStats = zeroLineStats)
    /\ (forall data : Blob.t,
           srv_url srv (TreeEntry.url file) = Ok data ->
           (Blob.encoding data <> "base64" -> fileStats = zeroLineStats)
           /\ (JS.atob (JS.removeLF (Blob.content data)) = None ->
               fileStats = zeroLineStats)
           /\ (forall content : string,
                  TreeEntry.size file <= 100000 ->
                  Blob.encoding data = "base64" ->
                  JS.atob (JS.removeLF (Blob.content data)) = Some content ->
                  fileStats = analyzeTextContent content (TreeEntry.path file))).
Proof.
  exists (lineStatsOf srv file). split; [apply analyzeFileContent_run|].
  unfold fileRequests, lineStatsOf.
  destruct (Z.ltb_spec 100000 (TreeEntry.size file)) as [Hbig|Hsmall].
  - split; [tauto|]. split; [now left|]. split; [reflexivity|].
    intros data Hd. repeat split; try reflexivity. intros content Hle. lia.
  - split; [split; [discriminate|lia]|]. split; [now right|]. split.
    + destruct (srv_url srv (TreeEntry.url file)); simpl; [congruence| |]; reflexivity.
    + intros data Hd. rewrite Hd. split; [|split].
      * intros Henc. apply String.eqb_neq in Henc. now rewrite Henc.
      * intros Hatob. rewrite Hatob. now destruct (String.eqb _ _).
      * intros content _ Henc Hatob. rewrite Henc, Hatob. reflexivity.
Qed.

(** X8: [getRepositoryFiles] never throws and sends one request.  It
    returns at most 100 entries, each a blob that passes the filter, as
    the leading part of the filtered tree in tree order (all of it when
    no more than 100 entries pass); a failed listing gives no entry. *)
Theorem X8_selected_files_are_leading_blobs (srv : Server) (repo : Repository.t)
        (log : list Request) :
  exists files : list TreeEntry.t,
    getRepositoryFiles srv repo log
    = (Ret files,
       log ++ [GET_tree (Repository.full_name repo) (Repository.default_branch repo)])
    /\ (List.length files <= 100)%nat
    /\ Forall (fun file => TreeEntry.type file = "blob"
                           /\ includes includeExtensions
                                (extensionOf (TreeEntry.path file)) = true) files
    /\ (errorOf (srv_tree srv (Repository.full_name repo)
                          (Repository.default_branch repo)) <> None -> files = [])
    /\ (forall tree : list TreeEntry.t,
           srv_tree srv (Repository.full_name repo) (Repository.default_branch repo)
           = Ok tree ->
           (exists rest : list TreeEntry.t, filter isCodeFile tree = files ++ rest)
           /\ ((List.length (filter isCodeFile tree) <= 100)%nat ->
               files = filter isCodeFile tree)).
Proof.
  exists (selectedFiles srv repo). split; [apply getRepositoryFiles_run|].
  unfold selectedFiles.
  destruct (srv_tree srv (Repository.full_name repo) (Repository.default_branch repo))
    as [tree| |].
  - split; [apply firstn_le_length|]. split.
    + apply Forall_forall. intros file Hin.
      assert (Hf : In file (filter isCodeFile tree)).
      { revert Hin. generalize (filter isCodeFile tree) 100%nat. clear.
        intros l n. revert n. induction l as [|x l IH]; intros n Hin.
        - now rewrite firstn_nil in Hin.
        - destruct n; simpl in Hin; [contradiction|].
          destruct Hin as [->|Hin]; [now left|right; eauto]. }
      apply filter_In in Hf. destruct Hf as [_ Hf]. unfold isCodeFile in Hf.
      destruct (String.eqb_spec (TreeEntry.type file) "blob") as [Hb|Hb];
        simpl in Hf; [split; assumption|discriminate].
    + split; [simpl; congruence|]. intros tree' Htree. injection Htree as <-. split.
      * exists (skipn 100 (filter isCodeFile tree)). now rewrite firstn_skipn.
      * intros Hlen. now apply firstn_all2.
  - split; [simpl; lia|]. split; [constructor|]. split; [reflexivity|].
    intros tree H. discriminate.
  - split; [simpl; lia|]. split; [constructor|]. split; [reflexivity|].
    intros tree H. discriminate.
Qed.

(* ================================================================== *)
(** ** More on the repository analyzer *)
(* ================================================================== *)

Lemma set_set {V : Type} (m : OMap.t V) (k : string) (v0 v : V) :
  OMap.set (OMap.set m k v0) k v = OMap.set m k v.
Proof.
  induction m as [|[k' v'] m IH]; simpl.
  - now rewrite String.eqb_refl.
  - destruct (String.eqb k' k) eqn:E; simpl; rewrite E; [reflexivity|].
    now rewrite IH.
Qed.

Lemma accumulate_sets_one_entry (stats : CodeStats.t) (language : string)
      (fs : LineStats) :
  CodeStats.languageBreakdown (accumulate stats language fs)
  = let e := entryOrZero (CodeStats.languageBreakdown stats) language in
    OMap.set (CodeStats.languageBreakdown stats) language
      (LanguageEntry.mk (LanguageEntry.lines e + totalLines fs)
                        (LanguageEntry.files e + 1) (LanguageEntry.percentage e)).
Proof.
  destruct (accumulate_breakdown stats language fs) as (e & Hb & He).
  rewrite Hb. unfold entryOrZero. cbv zeta.
  destruct (OMap.get (CodeStats.languageBreakdown stats) language) as [e0|];
    subst e; [reflexivity|]. apply set_set.
Qed.

Lemma accumulate_sound (stats : CodeStats.t) (language : string) (fs : LineStats) :
  0 <= totalLines fs ->
  Forall (fun kv => soundEntry (snd kv)) (CodeStats.languageBreakdown stats) ->
  Forall (fun kv => soundEntry (snd kv))
         (CodeStats.languageBreakdown (accumulate stats language fs))
  /\ sumValues LanguageEntry.files
       (CodeStats.languageBreakdown (accumulate stats language fs))
     = sumValues LanguageEntry.files (CodeStats.languageBreakdown stats) + 1.
Proof.
  intros Hfs Hsound. rewrite accumulate_sets_one_entry. cbv zeta.
  assert (He : 0 <= LanguageEntry.lines
                      (entryOrZero (CodeStats.languageBreakdown stats) language)
               /\ 0 <= LanguageEntry.files
                         (entryOrZero (CodeStats.languageBreakdown stats) language)).
  { unfold entryOrZero.
    destruct (OMap.get (CodeStats.languageBreakdown stats) language) as [e0|] eqn:E.
    - apply get_In in E. rewrite Forall_forall in Hsound.
      destruct (Hsound _ E) as [H1 H2]. simpl in *. lia.
    - simpl. lia. }
  split.
  - apply (Forall_set soundEntry); [exact Hsound|].
    unfold soundEntry. simpl. lia.
  - rewrite sumValues_set. unfold entryOrZero.
    destruct (OMap.get (CodeStats.languageBreakdown stats) language); simpl; lia.
Qed.

Lemma countFiles_sound (srv : Server) (files : list TreeEntry.t) :
  forall stats : CodeStats.t,
    Forall (fun kv => soundEntry (snd kv)) (CodeStats.languageBreakdown stats) ->
    let stats' := fold_left (countFile srv) files stats in
    Forall (fun kv => soundEntry (snd kv)) (CodeStats.languageBreakdown stats')
    /\ sumValues LanguageEntry.files (CodeStats.languageBreakdown stats')
       = sumValues LanguageEntry.files (CodeStats.languageBreakdown stats)
         + Z.of_nat (List.length files)
    /\ CodeStats.repository stats' = CodeStats.repository stats
    /\ CodeStats.branch stats' = CodeStats.branch stats
    /\ CodeStats.fileCount stats' = CodeStats.fileCount stats.
Proof.
  induction files as [|file rest IH]; intros stats Hsound.
  - simpl. repeat split; try assumption; lia.
  - cbn [fold_left]. cbv zeta.
    destruct (accumulate_sound stats (getLanguageFromFile (TreeEntry.path file))
                (lineStatsOf srv file) (lineStatsOf_nonneg srv file) Hsound)
      as [Hs Hf].
    destruct (IH (countFile srv stats file) Hs) as (H1 & H2 & H3 & H4 & H5).
    split; [exact H1|]. split.
    + rewrite H2. unfold countFile at 1. rewrite Hf.
      cbn [List.length]. lia.
    + rewrite H3, H4, H5. repeat split; reflexivity.
Qed.

Lemma entry_below_sum {V : Type} (f : V -> Z) (m : OMap.t V) (k : string) (v : V) :
  Forall (fun kv => 0 <= f (snd kv)) m -> In (k, v) m -> f v <= sumValues f m.
Proof.
  induction m as [|[k' v'] m IH]; intros Hnn Hin; [contradiction|].
  inversion Hnn as [|x l Hx Hl]; subst. simpl in *.
  assert (0 <= sumValues f m).
  { clear - Hl. induction Hl as [|[k0 v0] l H0 Hl IHl]; simpl in *; lia. }
  destruct Hin as [Heq|Hin].
  - injection Heq as <- <-. lia.
  - specialize (IH Hl Hin). lia.
Qed.

Lemma ratio_bounds (lines total : Z) :
  0 <= lines <= total -> 0 < total ->
  (0 <= inject_Z lines / inject_Z total)%Q
  /\ (inject_Z lines / inject_Z total <= inject_Z 1)%Q.
Proof.
  intros Hl Ht. unfold Qdiv, Qmult, Qinv, Qle, inject_Z.
  destruct total as [|t|t]; try lia. cbn [Qnum Qden]. simpl. nia.
Qed.

Lemma percentageOf_range (lines total : Z) :
  0 <= lines <= total -> 0 < total ->
  (0 <= percentageOf lines total)%Q /\ (percentageOf lines total <= 100)%Q.
Proof.
  intros Hl Ht. destruct (ratio_bounds lines total Hl Ht) as [Hq0 Hq1].
  unfold percentageOf, Binary64.mul, Binary64.div.
  destruct (round_within _ 1 Hq0 Hq1 ltac:(lia)) as [Hr0 Hr1].
  set (r := Binary64.round (inject_Z lines / inject_Z total)) in *.
  apply (round_within (r * inject_Z 100) 100); [| |lia].
  - apply Qmult_le_0_compat; [exact Hr0|discriminate].
  - change (inject_Z 1) with 1%Q in Hr1. change (inject_Z 100) with 100%Q. lra.
Qed.

(** X9: the record of [analyzeRepositoryCode] carries the repository's
    name and default branch, counts the selected files (at most 100),
    and files each of them under exactly one language: the [files] of
    all languages add up to [fileCount]; every entry has at least one
    file, between 0 and [totalLines] lines, and a percentage between 0
    and 100. *)
Theorem X9_every_selected_file_is_counted_once (srv : Server) (repo : Repository.t)
        (log : list Request) :
  exists (stats : CodeStats.t) (log' : list Request),
    analyzeRepositoryCode srv repo log = (Ret stats, log')
    /\ CodeStats.repository stats = Repository.name repo
    /\ CodeStats.branch stats = Repository.default_branch repo
    /\ CodeStats.fileCount stats = Z.of_nat (List.length (selectedFiles srv repo))
    /\ 0 <= CodeStats.fileCount stats <= 100
    /\ sumValues LanguageEntry.files (CodeStats.languageBreakdown stats)
       = CodeStats.fileCount stats
    /\ (forall (language : string) (e : LanguageEntry.t),
           OMap.get (CodeStats.languageBreakdown stats) language = Some e ->
           0 <= LanguageEntry.lines e <= CodeStats.totalLines stats
           /\ 1 <= LanguageEntry.files e <= CodeStats.fileCount stats
           /\ (0 <= LanguageEntry.percentage e)%Q
           /\ (LanguageEntry.percentage e <= 100)%Q).
Proof.
  eexists. eexists. split; [apply analyzeRepositoryCode_run|].
  set (files := selectedFiles srv repo).
  assert (Hlen : (List.length files <= 100)%nat).
  { unfold files, selectedFiles. destruct (srv_tree srv _ _);
      [apply firstn_le_length | simpl; lia | simpl; lia]. }
  unfold statsOfFiles.
  set (start := withFileCount (initialStats repo) (Z.of_nat (List.length files))).
  pose proof (countFiles_invariant srv files start
                (initial_invariant repo (Z.of_nat (List.length files))))
    as [Hadd Hnn Hlines Hpct].
  destruct (countFiles_sound srv files start ltac:(constructor))
    as (Hsound & Hfiles & Hrepo & Hbranch & Hcount).
  set (s := fold_left (countFile srv) files start) in *.
  assert (Hkeep : forall (language : string) (e : LanguageEntry.t),
             OMap.get (CodeStats.languageBreakdown (calculatePercentages s)) language
             = Some e ->
             exists e0 : LanguageEntry.t,
               In (language, e0) (CodeStats.languageBreakdown s)
               /\ LanguageEntry.lines e = LanguageEntry.lines e0
               /\ LanguageEntry.files e = LanguageEntry.files e0
               /\ LanguageEntry.percentage e
                  = if 0 <? CodeStats.totalLines s
                    then percentageOf (LanguageEntry.lines e0) (CodeStats.totalLines s)
                    else LanguageEntry.percentage e0).
  { intros language e He. rewrite calculatePercentages_get in He.
    destruct (OMap.get (CodeStats.languageBreakdown s) language) as [e0|] eqn:E;
      [|discriminate].
    exists e0. split; [now apply get_In|].
    simpl in He. injection He as <-.
    destruct (0 <? CodeStats.totalLines s); repeat split; reflexivity. }
  assert (Hsum : sumValues LanguageEntry.files
                   (CodeStats.languageBreakdown (calculatePercentages s))
                 = sumValues LanguageEntry.files (CodeStats.languageBreakdown s)).
  { unfold calculatePercentages. cbn [CodeStats.languageBreakdown].
    generalize (CodeStats.languageBreakdown s). intros b.
    induction b as [|[k e] b IH]; [reflexivity|].
    cbn [map sumValues fold_right]. unfold sumValues in IH. rewrite IH.
    destruct (0 <? CodeStats.totalLines s); reflexivity. }
  cbn [CodeStats.repository CodeStats.branch CodeStats.fileCount
       CodeStats.totalLines calculatePercentages] in *.
  rewrite Hrepo, Hbranch, Hcount.
  split; [reflexivity|]. split; [reflexivity|]. split; [reflexivity|].
  split; [simpl; lia|]. split.
  - change (sumValues LanguageEntry.files
              (CodeStats.languageBreakdown (calculatePercentages s))
            = CodeStats.fileCount start).
    rewrite Hsum, Hfiles. simpl. lia.
  - intros language e He.
    change (OMap.get (CodeStats.languageBreakdown (calculatePercentages s)) language
            = Some e) in He.
    destruct (Hkeep language e He) as (e0 & Hin & Hl & Hf & Hp).
    rewrite Forall_forall in Hsound. destruct (Hsound _ Hin) as [Hl0 Hf0].
    simpl in Hl0, Hf0.
    assert (Hle : LanguageEntry.lines e0 <= CodeStats.totalLines s).
    { unfold sumLines in Hlines. rewrite <- Hlines.
      apply (entry_below_sum LanguageEntry.lines _ language e0); [|exact Hin].
      apply Forall_forall. intros kv Hkv. now destruct (Hsound _ Hkv). }
    assert (Hfle : LanguageEntry.files e0
                   <= sumValues LanguageEntry.files (CodeStats.languageBreakdown s)).
    { apply (entry_below_sum LanguageEntry.files _ language e0); [|exact Hin].
      apply Forall_forall. intros kv Hkv. destruct (Hsound _ Hkv). lia. }
    rewrite Hl, Hf. split; [lia|]. split; [rewrite Hfiles in Hfle; simpl in *; lia|].
    rewrite Hp. destruct (Z.ltb_spec 0 (CodeStats.totalLines s)) as [Hpos|Hzero].
    + apply percentageOf_range; lia.
    + rewrite Forall_forall in Hpct. specialize (Hpct _ Hin). simpl in Hpct.
      rewrite Hpct. split; discriminate.
Qed.

(* ================================================================== *)
(** ** More on the bounded listings *)
(* ================================================================== *)

Section BoundedListingRuns.

Variable srv : Server.
Variable config : GitHubConfig.t.

Let org : string := GitHubConfig.organization config.

Lemma getRepositoryCommits_loop_done (fuel : nat) (repo branch : string)
      (commits : list Commit.t) (page : nat) (log : list Request) :
  getRepositoryCommits_loop srv config fuel repo branch commits page false log
  = (Ret commits, log).
Proof. destruct fuel; reflexivity. Qed.

Lemma getRepositoryCommits_loop_past (fuel : nat) (repo branch : string)
      (commits : list Commit.t) (page : nat) (hasMore : bool) (log : list Request) :
  (10 < page)%nat ->
  getRepositoryCommits_loop srv config fuel repo branch commits page hasMore log
  = (Ret commits, log).
Proof.
  intros Hpage. apply Nat.leb_gt in Hpage.
  destruct fuel; simpl; rewrite Hpage, andb_false_r; reflexivity.
Qed.

Lemma not_full_when_short {A : Type} (data : list A) :
  List.length data <> 100%nat -> ~ fullPage (Ok data).
Proof.
  intros Hlen (d & Hd & Hl). injection Hd as <-. contradiction.
Qed.

Lemma not_full_when_failed {A : Type} (r : Response (list A)) :
  errorOf r <> None -> ~ fullPage r.
Proof.
  intros He (d & Hd & _). subst r. simpl in He. congruence.
Qed.

Lemma getRepositoryCommits_loop_run (repo branch : string) (fuel : nat) :
  forall (commits : list Commit.t) (page : nat) (log : list Request),
    (1 <= page <= 10)%nat ->
    (11 <= page + fuel)%nat ->
    exists n : nat,
      (1 <= n)%nat /\ (page + n <= 11)%nat
      /\ (forall p : nat, (page <= p < page + n - 1)%nat ->
                          fullPage (srv_commits srv org repo branch 100 p))
      /\ ((page + n < 11)%nat ->
          ~ fullPage (srv_commits srv org repo branch 100 (page + n - 1)))
      /\ getRepositoryCommits_loop srv config fuel repo branch commits page true log
         = (Ret (commits
                 ++ flat_map (fun p => map mapCommit
                                           (pageData (srv_commits srv org repo branch 100 p)))
                             (seq page n)),
            log ++ map (GET_commits org repo branch 100) (seq page n)).
Proof.
  induction fuel as [|fuel IH]; intros commits page log Hpage Hfuel; [lia|].
  assert (Hguard : (page <=? 10)%nat = true) by (apply Nat.leb_le; lia).
  cbn [getRepositoryCommits_loop]. rewrite Hguard. cbn [andb].
  unfold bind. rewrite attempt_makeRequest. fold org.
  destruct (srv_commits srv org repo branch 100 page) as [data| |] eqn:Hresp.
  - destruct (Nat.eqb_spec (List.length data) 100) as [Hlen|Hlen].
    + destruct (Nat.eq_dec page 10) as [->|Hne].
      * exists 1%nat. rewrite getRepositoryCommits_loop_past by lia.
        split; [lia|]. split; [lia|]. split; [intros p Hp; lia|].
        split; [lia|]. cbn [seq flat_map map].
        rewrite Hresp. simpl pageData. now rewrite !app_nil_r.
      * destruct (IH (commits ++ map mapCommit data) (page + 1)%nat
                     (log ++ [GET_commits org repo branch 100 page])
                     ltac:(lia) ltac:(lia))
          as (n & Hn1 & Hn2 & Hfull & Hstop & Hrun).
        exists (S n). rewrite Hrun.
        split; [lia|]. split; [lia|]. split.
        { intros p Hp. destruct (Nat.eq_dec p page) as [->|Hpp].
          - exists data. now split.
          - apply Hfull. lia. }
        split.
        { intros Hlt. replace (page + S n - 1)%nat with (page + 1 + n - 1)%nat by lia.
          apply Hstop. lia. }
        rewrite Nat.add_1_r. cbn [seq flat_map map].
        rewrite Hresp. simpl pageData. rewrite <- !app_assoc. reflexivity.
    + exists 1%nat. rewrite getRepositoryCommits_loop_done.
      split; [lia|]. split; [lia|]. split; [intros p Hp; lia|].
      split.
      { intros _. replace (page + 1 - 1)%nat with page by lia.
        rewrite Hresp. now apply not_full_when_short. }
      cbn [seq flat_map map].
      rewrite Hresp. simpl pageData. now rewrite !app_nil_r.
  - exists 1%nat. split; [lia|]. split; [lia|]. split; [intros p Hp; lia|]. split.
    { intros _. replace (page + 1 - 1)%nat with page by lia.
      rewrite Hresp. apply not_full_when_failed. discriminate. }
    cbn [seq flat_map map].
    rewrite Hresp. simpl. now rewrite !app_nil_r.
  - exists 1%nat. split; [lia|]. split; [lia|]. split; [intros p Hp; lia|]. split.
    { intros _. replace (page + 1 - 1)%nat with page by lia.
      rewrite Hresp. apply not_full_when_failed. discriminate. }
    cbn [seq flat_map map].
    rewrite Hresp. simpl. now rewrite !app_nil_r.
Qed.

Lemma getRepositoryPullRequests_loop_done (fuel : nat) (repo : string)
      (pullRequests : list PullRequest.t) (page : nat) (log : list Request) :
  getRepositoryPullRequests_loop srv config fuel repo pullRequests page false log
  = (Ret pullRequests, log).
Proof. destruct fuel; reflexivity. Qed.

Lemma getRepositoryPullRequests_loop_past (fuel : nat) (repo : string)
      (pullRequests : list PullRequest.t) (page : nat) (hasMore : bool) (log : list Request) :
  (5 < page)%nat ->
  getRepositoryPullRequests_loop srv config fuel repo pullRequests page hasMore log
  = (Ret pullRequests, log).
Proof.
  intros Hpage. apply Nat.leb_gt in Hpage.
  destruct fuel; simpl; rewrite Hpage, andb_false_r; reflexivity.
Qed.

Lemma getRepositoryPullRequests_loop_run (repo : string) (fuel : nat) :
  forall (pullRequests : list PullRequest.t) (page : nat) (log : list Request),
    (1 <= page <= 5)%nat ->
    (6 <= page + fuel)%nat ->
    exists n : nat,
      (1 <= n)%nat /\ (page + n <= 6)%nat
      /\ (forall p : nat, (page <= p < page + n - 1)%nat ->
                          fullPage (srv_pulls srv org repo 100 p))
      /\ ((page + n < 6)%nat ->
          ~ fullPage (srv_pulls srv org repo 100 (page + n - 1)))
      /\ getRepositoryPullRequests_loop srv config fuel repo pullRequests page true log
         = (Ret (pullRequests
                 ++ flat_map (fun p => map mapPullRequest
                                           (pageData (srv_pulls srv org repo 100 p)))
                             (seq page n)),
            log ++ map (GET_pulls org repo 100) (seq page n)).
Proof.
  induction fuel as [|fuel IH]; intros pullRequests page log Hpage Hfuel; [lia|].
  assert (Hguard : (page <=? 5)%nat = true) by (apply Nat.leb_le; lia).
  cbn [getRepositoryPullRequests_loop]. rewrite Hguard. cbn [andb].
  unfold bind. rewrite attempt_makeRequest. fold org.
  destruct (srv_pulls srv org repo 100 page) as [data| |] eqn:Hresp.
  - destruct (Nat.eqb_spec (List.length data) 100) as [Hlen|Hlen].
    + destruct (Nat.eq_dec page 5) as [->|Hne].
      * exists 1%nat. rewrite getRepositoryPullRequests_loop_past by lia.
        split; [lia|]. split; [lia|]. split; [intros p Hp; lia|].
        split; [lia|]. cbn [seq flat_map map].
        rewrite Hresp. simpl pageData. now rewrite !app_nil_r.
      * destruct (IH (pullRequests ++ map mapPullRequest data) (page + 1)%nat
                     (log ++ [GET_pulls org repo 100 page])
                     ltac:(lia) ltac:(lia))
          as (n & Hn1 & Hn2 & Hfull & Hstop & Hrun).
        exists (S n). rewrite Hrun.
        split; [lia|]. split; [lia|]. split.
        { intros p Hp. destruct (Nat.eq_dec p page) as [->|Hpp].
          - exists data. now split.
          - apply Hfull. lia. }
        split.
        { intros Hlt. replace (page + S n - 1)%nat with (page + 1 + n - 1)%nat by lia.
          apply Hstop. lia. }
        rewrite Nat.add_1_r. cbn [seq flat_map map].
        rewrite Hresp. simpl pageData. rewrite <- !app_assoc. reflexivity.
    + exists 1%nat. rewrite getRepositoryPullRequests_loop_done.
      split; [lia|]. split; [lia|]. split; [intros p Hp; lia|].
      split.
      { intros _. replace (page + 1 - 1)%nat with page by lia.
        rewrite Hresp. now apply not_full_when_short. }
      cbn [seq flat_map map].
      rewrite Hresp. simpl pageData. now rewrite !app_nil_r.
  - exists 1%nat. split; [lia|]. split; [lia|]. split; [intros p Hp; lia|]. split.
    { intros _. replace (page + 1 - 1)%nat with page by lia.
      rewrite Hresp. apply not_full_when_failed. discriminate. }
    cbn [seq flat_map map].
    rewrite Hresp. simpl. now rewrite !app_nil_r.
  - exists 1%nat. split; [lia|]. split; [lia|]. split; [intros p Hp; lia|]. split.
    { intros _. replace (page + 1 - 1)%nat with page by lia.
      rewrite Hresp. apply not_full_when_failed. discriminate. }
    cbn [seq flat_map map].
    rewrite Hresp. simpl. now rewrite !app_nil_r.
Qed.

End BoundedListingRuns.

(** X10: [getRepositoryCommits] and [getRepositoryPullRequests] never
    throw.  They ask for the pages 1, 2, ... in turn and stop after the
    first page that does not come back with exactly 100 items (a failed
    page counts as such and only ends the listing) or after page 10
    (commits) or 5 (pull requests); they return the mapped items of the
    pages they asked for. *)
Theorem X10_bounded_listings_stop_at_the_cap (srv : Server) (config : GitHubConfig.t)
        (repo branch : string) (log : list Request) :
  let org := GitHubConfig.organization config in
  (exists n : nat,
      (1 <= n <= 10)%nat
      /\ (forall p : nat, (1 <= p < n)%nat ->
                          fullPage (srv_commits srv org repo branch 100 p))
      /\ ((n < 10)%nat -> ~ fullPage (srv_commits srv org repo branch 100 n))
      /\ getRepositoryCommits srv config repo branch log
         = (Ret (flat_map (fun p => map mapCommit
                                        (pageData (srv_commits srv org repo branch 100 p)))
                          (seq 1 n)),
            log ++ commitPageRequests org repo branch n))
  /\ (exists n : nat,
         (1 <= n <= 5)%nat
         /\ (forall p : nat, (1 <= p < n)%nat -> fullPage (srv_pulls srv org repo 100 p))
         /\ ((n < 5)%nat -> ~ fullPage (srv_pulls srv org repo 100 n))
         /\ getRepositoryPullRequests srv config repo log
            = (Ret (flat_map (fun p => map mapPullRequest
                                           (pageData (srv_pulls srv org repo 100 p)))
                             (seq 1 n)),
               log ++ pullPageRequests org repo n)).
Proof.
  intros org. split.
  - destruct (getRepositoryCommits_loop_run srv config repo branch 10 [] 1%nat log
                ltac:(lia) ltac:(lia)) as (n & Hn1 & Hn2 & Hfull & Hstop & Hrun).
    exists n. split; [lia|]. split; [intros p Hp; apply Hfull; lia|]. split.
    + intros Hlt. replace n with (1 + n - 1)%nat at 1 by lia. apply Hstop. lia.
    + exact Hrun.
  - destruct (getRepositoryPullRequests_loop_run srv config repo 5 [] 1%nat log
                ltac:(lia) ltac:(lia)) as (n & Hn1 & Hn2 & Hfull & Hstop & Hrun).
    exists n. split; [lia|]. split; [intros p Hp; apply Hfull; lia|]. split.
    + intros Hlt. replace n with (1 + n - 1)%nat at 1 by lia. apply Hstop. lia.
    + exact Hrun.
Qed.

(* ================================================================== *)
(** ** More on the full analysis *)
(* ================================================================== *)

Lemma analyzeRepositories_run (srv : Server) (config : GitHubConfig.t)
      (repositories : list Repository.t) :
  forall (codeStats : list CodeStats.t) (commits : list Commit.t)
         (pullRequests : list PullRequest.t) (log : list Request),
    exists (commits' : list Commit.t) (pullRequests' : list PullRequest.t)
           (log' : list Request),
      analyzeRepositories srv config repositories (codeStats, commits, pullRequests) log
      = (Ret (codeStats
              ++ map (fun repo => statsOfFiles srv repo (selectedFiles srv repo))
                     repositories,
              commits', pullRequests'), log')
      /\ (List.length commits'
          <= List.length commits + 10 * List.length repositories)%nat
      /\ (List.length pullRequests'
          <= List.length pullRequests + 5 * List.length repositories)%nat.
Proof.
  induction repositories as [|repo rest IH]; intros codeStats commits prs log.
  - exists commits, prs, log. simpl. rewrite app_nil_r. repeat split; lia.
  - cbn [analyzeRepositories]. unfold bind at 1. unfold try_catch at 1.
    unfold bind at 1. rewrite analyzeRepositoryCode_run. unfold try_catch, bind.
    destruct (getRepositoryCommits_loop_returns srv config (Repository.name repo)
                "main" 10 [] 1%nat true
                (log ++ GET_tree (Repository.full_name repo)
                                 (Repository.default_branch repo)
                        :: flat_map fileRequests (selectedFiles srv repo))
                ltac:(lia)) as (cs & log1 & Hc).
    unfold getRepositoryCommits. rewrite Hc.
    destruct (getRepositoryPullRequests_loop_returns srv config (Repository.name repo)
                5 [] 1%nat true log1 ltac:(lia)) as (ps & log2 & Hp).
    unfold getRepositoryPullRequests. rewrite Hp. unfold ret.
    destruct (IH (codeStats ++ [statsOfFiles srv repo (selectedFiles srv repo)])
                 (commits ++ JS.slice0 10 cs) (prs ++ JS.slice0 5 ps) log2)
      as (commits' & prs' & log' & Hrun & Hlc & Hlp).
    exists commits', prs', log'. rewrite Hrun. rewrite <- app_assoc. split; [reflexivity|].
    rewrite length_app in Hlc, Hlp. unfold JS.slice0 in Hlc, Hlp.
    pose proof (firstn_le_length 10 cs). pose proof (firstn_le_length 5 ps).
    cbn [List.length]. split; lia.
Qed.

Lemma sort_length {A : Type} (f : A -> A -> option Z) (l : list A) :
  List.length (JS.sort f l) = List.length l.
Proof. symmetry. apply Permutation_length, sort_permutation. Qed.

(** X11: a run of [performFullAnalysis] that returns a record found the
    organisation, and the record lists the repositories and members it
    fetched (what [getRepositories], called right after the lookup, and
    [getOrganizationMembers], called next, returned) with their counts,
    holds exactly one CodeStats per repository, in listing order and
    under the repository's name, and no more recent commits than 10 per
    repository (5 for pull requests), 50 at most. *)
Theorem X11_one_code_stats_per_repository (Date_parse : string -> option Z)
        (srv : Server) (config : GitHubConfig.t) (fuel : nat)
        (log log' : list Request) (stats : OrganizationStats.t) :
  performFullAnalysis Date_parse srv config fuel log = (Ret stats, log') ->
  (exists org : Organization.t,
      srv_org srv (GitHubConfig.organization config) = Ok org
      /\ OrganizationStats.organization stats = Organization.login org)
  /\ (exists log1 log2 : list Request,
         getRepositories srv config fuel
           (log ++ [GET_org (GitHubConfig.organization config)])
         = (Ret (OrganizationStats.repositories stats), log1)
         /\ getOrganizationMembers srv config fuel log1
            = (Ret (OrganizationStats.members stats), log2))
  /\ OrganizationStats.totalRepositories stats
     = Z.of_nat (List.length (OrganizationStats.repositories stats))
  /\ OrganizationStats.totalMembers stats
     = Z.of_nat (List.length (OrganizationStats.members stats))
  /\ OrganizationStats.codeStats stats
     = map (fun repo => statsOfFiles srv repo (selectedFiles srv repo))
           (OrganizationStats.repositories stats)
  /\ map CodeStats.repository (OrganizationStats.codeStats stats)
     = map Repository.name (OrganizationStats.repositories stats)
  /\ (List.length (RecentActivity.commits (OrganizationStats.recentActivity stats))
      <= Nat.min 50 (10 * List.length (OrganizationStats.repositories stats)))%nat
  /\ (List.length (RecentActivity.pullRequests (OrganizationStats.recentActivity stats))
      <= Nat.min 50 (5 * List.length (OrganizationStats.repositories stats)))%nat.
Proof.
  intros Hrun. unfold performFullAnalysis, bind, getOrganization, makeRequest in Hrun.
  destruct (srv_org srv (GitHubConfig.organization config)) as [org| |] eqn:Horg;
    try discriminate.
  destruct (getRepositories srv config fuel _) as [[repositories| |] log1] eqn:Hrepos;
    try discriminate.
  destruct (getOrganizationMembers srv config fuel log1) as [[members| |] log2]
    eqn:Hmembers; try discriminate.
  destruct (analyzeRepositories_run srv config repositories [] [] [] log2)
    as (commits & prs & log3 & Hpools & Hlc & Hlp).
  rewrite Hpools in Hrun. unfold ret in Hrun. injection Hrun as <- <-.
  unfold computeOrganizationStats.
  cbn [OrganizationStats.organization OrganizationStats.totalRepositories
       OrganizationStats.totalMembers OrganizationStats.codeStats
       OrganizationStats.repositories OrganizationStats.members
       OrganizationStats.recentActivity RecentActivity.commits
       RecentActivity.pullRequests app].
  split; [exists org; split; reflexivity|].
  split; [exists log1, log2; split; first [reflexivity|assumption]|].
  split; [reflexivity|]. split; [reflexivity|]. split; [reflexivity|]. split.
  - rewrite map_map. apply map_ext. intros repo. unfold statsOfFiles.
    rewrite countFile_withFileCount.
    assert (H : forall (files : list TreeEntry.t) (s : CodeStats.t),
               CodeStats.repository (fold_left (countFile srv) files s)
               = CodeStats.repository s).
    { induction files as [|f fs IHf]; intros s; simpl; [reflexivity|].
      now rewrite IHf. }
    cbn [calculatePercentages withFileCount CodeStats.repository].
    rewrite H. reflexivity.
  - unfold JS.slice0. cbn [List.length] in Hlc, Hlp. split.
    + pose proof (firstn_le_length 50 (JS.sort (byCommitDate Date_parse) commits)).
      assert (List.length (firstn 50 (JS.sort (byCommitDate Date_parse) commits))
              <= List.length commits)%nat.
      { rewrite length_firstn, sort_length. lia. }
      lia.
    + pose proof (firstn_le_length 50 (JS.sort (byCreatedAt Date_parse) prs)).
      assert (List.length (firstn 50 (JS.sort (byCreatedAt Date_parse) prs))
              <= List.length prs)%nat.
      { rewrite length_firstn, sort_length. lia. }
      lia.
Qed.

Lemma X11_activity_run_witness :
  let run := performFullAnalysis Date_parse_iso activityServer demoConfig 1 [] in
  let stats := match fst run with
               | Ret s => s
               | _ => computeOrganizationStats Date_parse_iso (Organization.mk EmptyString)
                        [] [] [] [] [] []
               end in
  map CodeStats.repository (OrganizationStats.codeStats stats)
  = map Repository.name (OrganizationStats.repositories stats).
Proof.
  intros run stats.
  apply (X11_one_code_stats_per_repository Date_parse_iso activityServer demoConfig 1
           [] (snd run) stats).
  vm_compute. reflexivity.
Defined.

(* ================================================================== *)
(** ** More on the user statistics *)
(* ================================================================== *)

Lemma has_set {V : Type} (m : OMap.t V) (k k' : string) (v : V) :
  OMap.has (OMap.set m k v) k' = (String.eqb k k' || OMap.has m k')%bool.
Proof.
  unfold OMap.has. destruct (String.eqb_spec k k') as [<-|Hne].
  - now rewrite get_set_eq.
  - rewrite get_set_ne by congruence. reflexivity.
Qed.

Lemma set_new {V : Type} (m : OMap.t V) (k : string) (v : V) :
  OMap.get m k = None -> OMap.set m k v = m ++ [(k, v)].
Proof.
  induction m as [|[k' v'] m IH]; simpl; [reflexivity|].
  destruct (String.eqb k' k); [discriminate|]. intros H. now rewrite IH.
Qed.

Lemma set_existing_keeps {V W : Type} (g : V -> W) (m : OMap.t V) (k : string)
      (v0 v : V) :
  OMap.get m k = Some v0 -> g v = g v0 ->
  map (fun kv => (fst kv, g (snd kv))) (OMap.set m k v)
  = map (fun kv => (fst kv, g (snd kv))) m.
Proof.
  intros Hget Hg. induction m as [|[k' v'] m IH]; simpl in *; [discriminate|].
  destruct (String.eqb k' k); simpl.
  - injection Hget as ->. now rewrite Hg.
  - now rewrite IH.
Qed.

Lemma sumZ_values {V : Type} (f : V -> Z) (m : OMap.t V) :
  sumZ f (OMap.values m) = sumValues f m.
Proof.
  unfold sumZ, OMap.values, sumValues.
  assert (H : forall (l : list (string * V)) (z : Z),
             fold_left (fun total a => total + f a) (map snd l) z
             = z + fold_right (fun kv acc => f (snd kv) + acc) 0 l).
  { induction l as [|kv l IH]; intros z; simpl; [lia|]. rewrite IH. lia. }
  rewrite H. lia.
Qed.

Lemma sumZ_cons {A : Type} (f : A -> Z) (a : A) (l : list A) :
  sumZ f (a :: l) = f a + sumZ f l.
Proof.
  unfold sumZ.
  assert (H : forall (l0 : list A) (z : Z),
             fold_left (fun total x => total + f x) l0 z
             = z + fold_left (fun total x => total + f x) l0 0).
  { induction l0 as [|x l0 IH]; intros z; cbn [fold_left]; [lia|].
    rewrite (IH (z + f x)), (IH (0 + f x)). lia. }
  cbn [fold_left]. rewrite H. lia.
Qed.

Section UserStatistics.

Variable Date_parse : string -> option Z.

(** The logins under which [userStatsMap] has an entry. *)
Lemma has_after_init (members : list User.t) :
  forall (m : OMap.t UserStats.t) (login : string),
    OMap.has (fold_left initUserStats members m) login
    = (OMap.has m login
       || existsb (fun member => String.eqb (User.login member) login) members)%bool.
Proof.
  induction members as [|u rest IH]; intros m login; simpl.
  - now rewrite orb_false_r.
  - rewrite IH. unfold initUserStats. rewrite has_set.
    destruct (String.eqb (User.login u) login), (OMap.has m login); reflexivity.
Qed.

Lemma has_after_commit (members : list User.t) (m : OMap.t UserStats.t)
      (commit : Commit.t) (login : string) :
  OMap.has (processCommit Date_parse members m commit) login = OMap.has m login.
Proof.
  unfold processCommit.
  destruct (findUserByEmail members _) as [member|]; [|reflexivity].
  destruct (negb _ && OMap.has m (User.login member))%bool eqn:E; [|reflexivity].
  destruct (OMap.get m (User.login member)) eqn:G; [|reflexivity].
  rewrite has_set. apply andb_prop in E. destruct E as [_ E].
  destruct (String.eqb_spec (User.login member) login) as [<-|]; [|reflexivity].
  now rewrite E.
Qed.

Lemma has_after_commits (members : list User.t) (commits : list Commit.t)
      (login : string) :
  OMap.has (userStatsAfterCommits Date_parse members commits) login
  = existsb (fun member => String.eqb (User.login member) login) members.
Proof.
  unfold userStatsAfterCommits.
  assert (H : forall m : OMap.t UserStats.t,
             OMap.has (fold_left (processCommit Date_parse members) commits m) login
             = OMap.has m login).
  { induction commits as [|c rest IH]; intros m; simpl; [reflexivity|].
    now rewrite IH, has_after_commit. }
  rewrite H, has_after_init. reflexivity.
Qed.

Lemma has_after_pull_request (m : OMap.t UserStats.t) (pr : PullRequest.t)
      (login : string) :
  OMap.has (processPullRequest Date_parse m pr) login = OMap.has m login.
Proof.
  unfold processPullRequest.
  destruct (OMap.get m (User.login (PullRequest.user pr))) eqn:G; [|reflexivity].
  rewrite has_set.
  destruct (String.eqb_spec (User.login (PullRequest.user pr)) login) as [<-|];
    [|reflexivity].
  unfold OMap.has. now rewrite G.
Qed.

(** What one pull request adds to the sums over all entries. *)
Lemma sums_after_pull_request (m : OMap.t UserStats.t) (pr : PullRequest.t) :
  let m' := processPullRequest Date_parse m pr in
  let counted := OMap.has m (User.login (PullRequest.user pr)) in
  sumValues UserStats.pullRequests m'
  = sumValues UserStats.pullRequests m + (if counted then 1 else 0)
  /\ sumValues UserStats.linesAdded m'
     = sumValues UserStats.linesAdded m
       + (if counted then PullRequest.additions pr else 0)
  /\ sumValues UserStats.linesDeleted m'
     = sumValues UserStats.linesDeleted m
       + (if counted then PullRequest.deletions pr else 0)
  /\ sumValues UserStats.commits m' = sumValues UserStats.commits m.
Proof.
  unfold processPullRequest, OMap.has. cbv zeta.
  destruct (OMap.get m (User.login (PullRequest.user pr))) as [us|] eqn:G.
  - rewrite !sumValues_set, G. cbn [UserStats.pullRequests UserStats.linesAdded
                                    UserStats.linesDeleted UserStats.commits].
    repeat split; lia.
  - repeat split; lia.
Qed.

(** What one commit adds to the sums over all entries. *)
Lemma sums_after_commit (members : list User.t) (m : OMap.t UserStats.t)
      (commit : Commit.t) :
  (forall member : User.t, In member members ->
                           OMap.has m (User.login member) = true) ->
  let m' := processCommit Date_parse members m commit in
  sumValues UserStats.commits m'
  = sumValues UserStats.commits m + (if attributed members commit then 1 else 0)
  /\ sumValues UserStats.pullRequests m' = sumValues UserStats.pullRequests m
  /\ sumValues UserStats.linesAdded m' = sumValues UserStats.linesAdded m
  /\ sumValues UserStats.linesDeleted m' = sumValues UserStats.linesDeleted m.
Proof.
  intros Hhas. unfold processCommit, attributed. cbv zeta.
  destruct (findUserByEmail members (GitPerson.email (Commit.author commit)))
    as [member|] eqn:F; [|repeat split; lia].
  assert (Hin : In member members).
  { unfold findUserByEmail, JS.find in F. apply find_some in F. tauto. }
  rewrite (Hhas member Hin), andb_true_r.
  destruct (negb (String.eqb (User.login member) EmptyString));
    [|repeat split; lia].
  specialize (Hhas member Hin). unfold OMap.has in Hhas.
  destruct (OMap.get m (User.login member)) as [us|] eqn:G; [|discriminate].
  rewrite !sumValues_set, G. cbn [UserStats.pullRequests UserStats.linesAdded
                                  UserStats.linesDeleted UserStats.commits].
  repeat split; lia.
Qed.

End UserStatistics.

Section UserStatisticsTotals.

Variable Date_parse : string -> option Z.

Lemma sum_of_fresh_entries (f : UserStats.t -> Z) (members : list User.t) :
  (forall member : User.t, f (UserStats.mk member 0 0 0 0 EmptyString) = 0) ->
  forall m : OMap.t UserStats.t,
    Forall (fun kv => f (snd kv) = 0) m ->
    Forall (fun kv => f (snd kv) = 0) (fold_left initUserStats members m).
Proof.
  intros Hf. induction members as [|u rest IH]; intros m Hm; simpl; [exact Hm|].
  apply IH. unfold initUserStats. apply (Forall_set (fun v => f v = 0)); auto.
Qed.

Lemma sum_of_zeros {V : Type} (f : V -> Z) (m : OMap.t V) :
  Forall (fun kv => f (snd kv) = 0) m -> sumValues f m = 0.
Proof.
  induction 1 as [|kv l H Hl IH]; [reflexivity|].
  unfold sumValues in *. cbn [fold_right]. rewrite H, IH. reflexivity.
Qed.

Lemma sums_after_commits (members : list User.t) (commits : list Commit.t) :
  let m := userStatsAfterCommits Date_parse members commits in
  sumValues UserStats.commits m
  = Z.of_nat (List.length (filter (attributed members) commits))
  /\ sumValues UserStats.pullRequests m = 0
  /\ sumValues UserStats.linesAdded m = 0
  /\ sumValues UserStats.linesDeleted m = 0.
Proof.
  unfold userStatsAfterCommits. cbv zeta.
  set (m0 := fold_left initUserStats members OMap.empty).
  assert (Hhas0 : forall member : User.t,
             In member members -> OMap.has m0 (User.login member) = true).
  { intros member Hin. unfold m0. rewrite has_after_init. simpl.
    apply existsb_exists. exists member. split; [exact Hin|apply String.eqb_refl]. }
  assert (Hzero : forall f : UserStats.t -> Z,
             (forall member, f (UserStats.mk member 0 0 0 0 EmptyString) = 0) ->
             sumValues f m0 = 0).
  { intros f Hf. apply sum_of_zeros. apply sum_of_fresh_entries; [exact Hf|constructor]. }
  assert (H : forall m : OMap.t UserStats.t,
             (forall member : User.t,
                 In member members -> OMap.has m (User.login member) = true) ->
             let m' := fold_left (processCommit Date_parse members) commits m in
             sumValues UserStats.commits m'
             = sumValues UserStats.commits m
               + Z.of_nat (List.length (filter (attributed members) commits))
             /\ sumValues UserStats.pullRequests m' = sumValues UserStats.pullRequests m
             /\ sumValues UserStats.linesAdded m' = sumValues UserStats.linesAdded m
             /\ sumValues UserStats.linesDeleted m' = sumValues UserStats.linesDeleted m).
  { clear Hhas0 Hzero m0. induction commits as [|c rest IH]; intros m Hhas.
    - simpl. repeat split; lia.
    - cbn [fold_left filter]. cbv zeta.
      destruct (sums_after_commit Date_parse members m c Hhas) as (H1 & H2 & H3 & H4).
      destruct (IH (processCommit Date_parse members m c)) as (I1 & I2 & I3 & I4).
      { intros member Hin. rewrite has_after_commit. now apply Hhas. }
      rewrite I1, I2, I3, I4, H1, H2, H3, H4.
      destruct (attributed members c); cbn [List.length]; repeat split; lia. }
  destruct (H m0 Hhas0) as (H1 & H2 & H3 & H4).
  rewrite H1, H2, H3, H4, !Hzero by reflexivity. repeat split; lia.
Qed.

Lemma sums_after_pull_requests (members : list User.t)
      (pullRequests : list PullRequest.t) :
  forall m : OMap.t UserStats.t,
    (forall login : string,
        OMap.has m login
        = existsb (fun member => String.eqb (User.login member) login) members) ->
    let m' := fold_left (processPullRequest Date_parse) pullRequests m in
    let counted := filter (byMember members) pullRequests in
    sumValues UserStats.pullRequests m'
    = sumValues UserStats.pullRequests m + Z.of_nat (List.length counted)
    /\ sumValues UserStats.linesAdded m'
       = sumValues UserStats.linesAdded m + sumZ PullRequest.additions counted
    /\ sumValues UserStats.linesDeleted m'
       = sumValues UserStats.linesDeleted m + sumZ PullRequest.deletions counted
    /\ sumValues UserStats.commits m' = sumValues UserStats.commits m.
Proof.
  induction pullRequests as [|pr rest IH]; intros m Hhas.
  - simpl. unfold sumZ. simpl. repeat split; lia.
  - cbn [fold_left filter]. cbv zeta.
    pose proof (sums_after_pull_request Date_parse m pr) as Hs. cbv zeta in Hs.
    rewrite (Hhas (User.login (PullRequest.user pr))) in Hs.
    change (existsb _ members) with (byMember members pr) in Hs.
    destruct Hs as (H1 & H2 & H3 & H4).
    destruct (IH (processPullRequest Date_parse m pr)) as (I1 & I2 & I3 & I4).
    { intros login. rewrite has_after_pull_request. apply Hhas. }
    rewrite I1, I2, I3, I4, H1, H2, H3, H4.
    destruct (byMember members pr);
      rewrite ?sumZ_cons; cbn [List.length]; repeat split; lia.
Qed.

(** X12: the pull-request figures of the user statistics add up to the
    pooled pull requests whose author's login is a member's: their
    number, their additions and their deletions; a pull request by
    anyone else changes nothing. *)
Theorem X12_pull_requests_of_members_are_counted_once (members : list User.t)
        (repositories : list Repository.t) (commits : list Commit.t)
        (pullRequests : list PullRequest.t) :
  let userStats := computeUserStats Date_parse members repositories commits pullRequests in
  let counted := filter (byMember members) pullRequests in
  sumZ UserStats.pullRequests userStats = Z.of_nat (List.length counted)
  /\ sumZ UserStats.linesAdded userStats = sumZ PullRequest.additions counted
  /\ sumZ UserStats.linesDeleted userStats = sumZ PullRequest.deletions counted
  /\ (forall (m : OMap.t UserStats.t) (pr : PullRequest.t),
         OMap.has m (User.login (PullRequest.user pr)) = false ->
         processPullRequest Date_parse m pr = m).
Proof.
  unfold computeUserStats. cbv zeta. rewrite !sumZ_values.
  destruct (sums_after_commits members commits) as (_ & C2 & C3 & C4).
  destruct (sums_after_pull_requests members pullRequests
              (userStatsAfterCommits Date_parse members commits)
              (has_after_commits Date_parse members commits))
    as (P1 & P2 & P3 & _).
  rewrite P1, P2, P3, C2, C3, C4.
  split; [lia|]. split; [lia|]. split; [lia|].
  intros m pr Hno. unfold processPullRequest. unfold OMap.has in Hno.
  destruct (OMap.get m (User.login (PullRequest.user pr))); [discriminate|reflexivity].
Qed.

(** X13: the commit tallies of the user statistics add up to the number
    of pooled commits that are attributed, that is, whose author email
    is the profile email of some member (the first such member having a
    login); no pull request changes a commit tally, and so the total is
    never above the number of pooled commits. *)
Theorem X13_commit_total_counts_attributed_commits (members : list User.t)
        (repositories : list Repository.t) (commits : list Commit.t)
        (pullRequests : list PullRequest.t) :
  let userStats := computeUserStats Date_parse members repositories commits pullRequests in
  sumZ UserStats.commits userStats
  = Z.of_nat (List.length (filter (attributed members) commits))
  /\ 0 <= sumZ UserStats.commits userStats <= Z.of_nat (List.length commits).
Proof.
  unfold computeUserStats. cbv zeta. rewrite !sumZ_values.
  destruct (sums_after_commits members commits) as (C1 & _).
  destruct (sums_after_pull_requests members pullRequests
              (userStatsAfterCommits Date_parse members commits)
              (has_after_commits Date_parse members commits))
    as (_ & _ & _ & P4).
  rewrite P4, C1. split; [reflexivity|].
  pose proof (filter_length_le (attributed members) commits). lia.
Qed.

End UserStatisticsTotals.

Section UserStatisticsRoster.

Variable Date_parse : string -> option Z.

Lemma get_app {V : Type} (a b : OMap.t V) (k : string) :
  OMap.get (a ++ b) k
  = match OMap.get a k with
    | Some v => Some v
    | None => OMap.get b k
    end.
Proof.
  induction a as [|[k' v'] a IH]; simpl; [reflexivity|].
  destruct (String.eqb k' k); [reflexivity|exact IH].
Qed.

Lemma init_roster (members : list User.t) :
  forall m : OMap.t UserStats.t,
    NoDup (map User.login members) ->
    (forall member : User.t, In member members ->
                             OMap.get m (User.login member) = None) ->
    fold_left initUserStats members m
    = m ++ map (fun member => (User.login member,
                               UserStats.mk member 0 0 0 0 EmptyString)) members.
Proof.
  induction members as [|u rest IH]; intros m Hnd Hfresh; simpl.
  - now rewrite app_nil_r.
  - inversion Hnd as [|x l Hnotin Hnd']; subst.
    unfold initUserStats at 2. rewrite set_new by (apply Hfresh; now left).
    rewrite IH; [now rewrite <- app_assoc|exact Hnd'|].
    intros member Hin. rewrite get_app, (Hfresh member) by now right.
    simpl. destruct (String.eqb_spec (User.login u) (User.login member)) as [E|];
      [|reflexivity].
    exfalso. apply Hnotin. rewrite E. now apply in_map.
Qed.

Lemma commit_keeps_users (members : list User.t) (m : OMap.t UserStats.t)
      (commit : Commit.t) :
  map (fun kv => (fst kv, UserStats.user (snd kv)))
      (processCommit Date_parse members m commit)
  = map (fun kv => (fst kv, UserStats.user (snd kv))) m.
Proof.
  unfold processCommit.
  destruct (findUserByEmail members _) as [member|]; [|reflexivity].
  destruct (negb _ && _)%bool; [|reflexivity].
  destruct (OMap.get m (User.login member)) as [us|] eqn:G; [|reflexivity].
  now apply (set_existing_keeps UserStats.user m _ us).
Qed.

Lemma pull_request_keeps_users (m : OMap.t UserStats.t) (pr : PullRequest.t) :
  map (fun kv => (fst kv, UserStats.user (snd kv)))
      (processPullRequest Date_parse m pr)
  = map (fun kv => (fst kv, UserStats.user (snd kv))) m.
Proof.
  unfold processPullRequest.
  destruct (OMap.get m (User.login (PullRequest.user pr))) as [us|] eqn:G;
    [|reflexivity].
  now apply (set_existing_keeps UserStats.user m _ us).
Qed.

(** X14: when the members have distinct logins, [computeUserStats]
    returns exactly one entry per member, in roster order and holding
    that member, whatever the commits and pull requests are (members
    without activity included). *)
Theorem X14_one_entry_per_member (members : list User.t)
        (repositories : list Repository.t) (commits : list Commit.t)
        (pullRequests : list PullRequest.t) :
  NoDup (map User.login members) ->
  map UserStats.user (computeUserStats Date_parse members repositories commits pullRequests)
  = members
  /\ List.length (computeUserStats Date_parse members repositories commits pullRequests)
     = List.length members.
Proof.
  intros Hnd.
  assert (H : map UserStats.user
                  (computeUserStats Date_parse members repositories commits pullRequests)
              = members).
  { unfold computeUserStats, OMap.values. cbv zeta.
    rewrite map_map.
    transitivity (map snd (map (fun kv : string * UserStats.t =>
                                  (fst kv, UserStats.user (snd kv)))
                               (fold_left (processPullRequest Date_parse) pullRequests
                                  (userStatsAfterCommits Date_parse members commits)))).
    { now rewrite map_map. }
    assert (Hp : forall m : OMap.t UserStats.t,
               map (fun kv => (fst kv, UserStats.user (snd kv)))
                   (fold_left (processPullRequest Date_parse) pullRequests m)
               = map (fun kv => (fst kv, UserStats.user (snd kv))) m).
    { induction pullRequests as [|pr rest IH]; intros m; simpl; [reflexivity|].
      now rewrite IH, pull_request_keeps_users. }
    assert (Hc : forall m : OMap.t UserStats.t,
               map (fun kv => (fst kv, UserStats.user (snd kv)))
                   (fold_left (processCommit Date_parse members) commits m)
               = map (fun kv => (fst kv, UserStats.user (snd kv))) m).
    { induction commits as [|c rest IH]; intros m; simpl; [reflexivity|].
      now rewrite IH, commit_keeps_users. }
    rewrite Hp. unfold userStatsAfterCommits. rewrite Hc.
    rewrite init_roster; [|exact Hnd|reflexivity].
    simpl. rewrite !map_map. simpl. apply map_id. }
  split; [exact H|].
  rewrite <- H at 2. now rewrite length_map.
Qed.

End UserStatisticsRoster.

Lemma X14_three_members_witness :
  map UserStats.user
      (computeUserStats Date_parse_iso [alice; alias; carol] []
         [mapCommit januaryCommit] [])
  = [alice; alias; carol]
  /\ List.length (computeUserStats Date_parse_iso [alice; alias; carol] []
                    [mapCommit januaryCommit] [])
     = List.length [alice; alias; carol].
Proof.
  apply (X14_one_entry_per_member Date_parse_iso [alice; alias; carol] []
           [mapCommit januaryCommit] []).
  repeat constructor; simpl; intuition discriminate.
Defined.

(* ================================================================== *)
(** ** More on the organisation statistics *)
(* ================================================================== *)

Lemma In_firstn {A : Type} (n : nat) (l : list A) (x : A) :
  In x (firstn n l) -> In x l.
Proof.
  revert n. induction l as [|y l IH]; intros n Hin.
  - now rewrite firstn_nil in Hin.
  - destruct n; simpl in Hin; [contradiction|].
    destruct Hin as [->|Hin]; [now left|right; eauto].
Qed.

Lemma NoDup_firstn_keeps {A : Type} (n : nat) (l : list A) :
  NoDup l -> NoDup (firstn n l).
Proof.
  revert n. induction l as [|y l IH]; intros n Hnd.
  - rewrite firstn_nil. constructor.
  - destruct n; simpl; [constructor|].
    inversion Hnd as [|x l' Hnotin Hnd']; subst.
    constructor; [|now apply IH].
    intros Hin. apply Hnotin. now apply In_firstn in Hin.
Qed.

Lemma get_None_when_absent {V : Type} (m : OMap.t V) (k : string) :
  ~ In k (OMap.keys m) -> OMap.get m k = None.
Proof.
  induction m as [|[k' v'] m IH]; simpl; [reflexivity|].
  intros Hnotin. destruct (String.eqb_spec k' k) as [->|Hne].
  - exfalso. apply Hnotin. now left.
  - apply IH. intros Hin. apply Hnotin. now right.
Qed.

Lemma keys_set {V : Type} (m : OMap.t V) (k : string) (v : V) :
  OMap.keys (OMap.set m k v)
  = if OMap.has m k then OMap.keys m else OMap.keys m ++ [k].
Proof.
  unfold OMap.has, OMap.keys. induction m as [|[k' v'] m IH]; simpl; [reflexivity|].
  destruct (String.eqb k' k); simpl; [reflexivity|].
  rewrite IH. now destruct (OMap.get m k).
Qed.

Lemma NoDup_keys_set {V : Type} (m : OMap.t V) (k : string) (v : V) :
  NoDup (OMap.keys m) -> NoDup (OMap.keys (OMap.set m k v)).
Proof.
  intros Hnd. rewrite keys_set. unfold OMap.has.
  destruct (OMap.get m k) eqn:G; [exact Hnd|].
  apply NoDup_app; [exact Hnd|constructor; [intros []|constructor]|].
  intros x Hx [Heq|[]]. subst x. revert Hx G. clear. unfold OMap.keys.
  induction m as [|[k' v'] m IH]; simpl; [contradiction|].
  intros [->|Hin]; [now rewrite String.eqb_refl|].
  destruct (String.eqb k' k); [discriminate|]. now apply IH.
Qed.

Lemma fromEntries_of_distinct (entries : list (string * Z)) :
  NoDup (OMap.keys entries) -> fromEntries entries = entries.
Proof.
  unfold fromEntries.
  assert (H : forall acc : OMap.t Z,
             NoDup (OMap.keys (acc ++ entries)) ->
             fold_left (fun o kv => OMap.set o (fst kv) (snd kv)) entries acc
             = acc ++ entries).
  { induction entries as [|[k v] rest IH]; intros acc Hnd; simpl.
    - now rewrite app_nil_r.
    - rewrite set_new.
      + rewrite IH; [now rewrite <- app_assoc|]. now rewrite <- app_assoc.
      + apply get_None_when_absent. unfold OMap.keys in *.
        rewrite map_app in Hnd. simpl in Hnd.
        apply NoDup_remove_2 in Hnd. intros Hin. apply Hnd.
        apply in_or_app. now left. }
  intros Hnd. now apply (H []).
Qed.

(** The running total of a language in the aggregator's [languageMap]. *)
Lemma addLanguage_total (lm : OMap.t Z) (kv : string * LanguageEntry.t) (k : string) :
  numberOr0 (OMap.get (addLanguage lm kv) k)
  = numberOr0 (OMap.get lm k)
    + (if String.eqb (fst kv) k then LanguageEntry.lines (snd kv) else 0).
Proof.
  destruct kv as [l d]. unfold addLanguage. simpl fst. simpl snd.
  destruct (String.eqb_spec l k) as [->|Hne].
  - rewrite get_set_eq. reflexivity.
  - rewrite get_set_ne by congruence. lia.
Qed.

Lemma languageMap_totals (codeStats : list CodeStats.t) (k : string) :
  forall lm : OMap.t Z,
    numberOr0 (OMap.get
                 (fold_left (fun lm stats =>
                               fold_left addLanguage (CodeStats.languageBreakdown stats) lm)
                            codeStats lm) k)
    = numberOr0 (OMap.get lm k) + sumZ (linesOfLanguage k) codeStats.
Proof.
  assert (Hb : forall (b : OMap.t LanguageEntry.t) (lm : OMap.t Z),
             numberOr0 (OMap.get (fold_left addLanguage b lm) k)
             = numberOr0 (OMap.get lm k)
               + sumValues LanguageEntry.lines
                   (filter (fun kv => String.eqb (fst kv) k) b)).
  { induction b as [|kv b IH]; intros lm; cbn [fold_left filter].
    - unfold sumValues. simpl. lia.
    - rewrite IH, addLanguage_total.
      destruct (String.eqb (fst kv) k); unfold sumValues; cbn [fold_right]; lia. }
  induction codeStats as [|stats rest IH]; intros lm.
  - unfold sumZ. simpl. lia.
  - cbn [fold_left]. rewrite IH, Hb, sumZ_cons. unfold linesOfLanguage. lia.
Qed.

Lemma languageMap_keys_distinct (codeStats : list CodeStats.t) :
  forall lm : OMap.t Z,
    NoDup (OMap.keys lm) ->
    NoDup (OMap.keys
             (fold_left (fun lm stats =>
                           fold_left addLanguage (CodeStats.languageBreakdown stats) lm)
                        codeStats lm)).
Proof.
  assert (Hb : forall (b : OMap.t LanguageEntry.t) (lm : OMap.t Z),
             NoDup (OMap.keys lm) -> NoDup (OMap.keys (fold_left addLanguage b lm))).
  { induction b as [|[l d] b IH]; intros lm Hnd; simpl; [exact Hnd|].
    apply IH. now apply NoDup_keys_set. }
  induction codeStats as [|stats rest IH]; intros lm Hnd; simpl; [exact Hnd|].
  apply IH. now apply Hb.
Qed.

(** X15: [topLanguages] holds at most 10 languages, each once, in
    non-increasing order of lines, and the figure of each is the sum of
    that language's lines over the CodeStats of all repositories. *)
Theorem X15_top_languages_are_sorted_totals (Date_parse : string -> option Z)
        (org : Organization.t) (repositories : list Repository.t)
        (members : list User.t) (userStats : list UserStats.t)
        (codeStats : list CodeStats.t) (recentCommits : list Commit.t)
        (recentPullRequests : list PullRequest.t) :
  let top :=
    OrganizationStats.topLanguages
      (computeOrganizationStats Date_parse org repositories members userStats codeStats
         recentCommits recentPullRequests) in
  (List.length top <= 10)%nat
  /\ NoDup (OMap.keys top)
  /\ descendingBy snd top
  /\ (forall (language : string) (n : Z),
         In (language, n) top -> n = sumZ (linesOfLanguage language) codeStats).
Proof.
  unfold computeOrganizationStats. cbn [OrganizationStats.topLanguages].
  set (lm := fold_left _ codeStats OMap.empty).
  assert (Hlm : NoDup (OMap.keys lm)).
  { apply languageMap_keys_distinct. constructor. }
  assert (Hsorted : NoDup (OMap.keys (JS.sort byLines lm))).
  { unfold OMap.keys.
    apply (Permutation_NoDup (l := map fst lm)); [|exact Hlm].
    apply Permutation_map, sort_permutation. }
  unfold JS.slice0.
  assert (Htop : NoDup (OMap.keys (firstn 10 (JS.sort byLines lm)))).
  { unfold OMap.keys in *. rewrite <- firstn_map. now apply NoDup_firstn_keeps. }
  rewrite fromEntries_of_distinct by exact Htop.
  split; [apply firstn_le_length|]. split; [exact Htop|]. split.
  - apply firstn_descending.
    change byLines with (descendingCompare (@snd string Z)).
    apply sort_descending.
  - intros language n Hin. apply In_firstn in Hin.
    apply (Permutation_in _ (Permutation_sym (sort_permutation byLines lm))) in Hin.
    assert (Hget : OMap.get lm language = Some n).
    { revert Hlm Hin. clear. unfold OMap.keys.
      induction lm as [|[k v] lm IH]; simpl; [contradiction|].
      intros Hnd [Heq|Hin].
      - injection Heq as -> ->. now rewrite String.eqb_refl.
      - inversion Hnd as [|x l Hnotin Hnd']; subst.
        destruct (String.eqb_spec k language) as [->|Hne]; [|now apply IH].
        exfalso. apply Hnotin. change language with (fst (language, n)).
        now apply in_map. }
    pose proof (languageMap_totals codeStats language OMap.empty) as Htot.
    fold lm in Htot. rewrite Hget in Htot. simpl in Htot. lia.
Qed.

Section SortStability.

Context {A : Type}.
Variable key : A -> Z.

Lemma sort_insert_keeps_ties (v : Z) (x : A) (r : list A) :
  filter (fun a => key a =? v) (rev (JS.sort_insert (descendingCompare key) x r))
  = filter (fun a => key a =? v) (rev r) ++ filter (fun a => key a =? v) [x].
Proof.
  induction r as [|y r IH]; [reflexivity|].
  cbn [JS.sort_insert]. unfold JS.sortCompare, descendingCompare at 1.
  destruct (Z.ltb_spec 0 (key x - key y)) as [Hlt|Hge].
  - cbn [rev]. rewrite !filter_app, IH. cbn [filter].
    destruct (Z.eqb_spec (key x) v), (Z.eqb_spec (key y) v);
      try lia; now rewrite ?app_nil_r.
  - cbn [rev]. now rewrite !filter_app.
Qed.

Lemma sort_keeps_ties (v : Z) (l : list A) :
  filter (fun a => key a =? v) (JS.sort (descendingCompare key) l)
  = filter (fun a => key a =? v) l.
Proof.
  unfold JS.sort.
  assert (H : forall r : list A,
             filter (fun a => key a =? v)
                    (rev (fold_left (fun r x => JS.sort_insert (descendingCompare key) x r)
                                    l r))
             = filter (fun a => key a =? v) (rev r) ++ filter (fun a => key a =? v) l).
  { induction l as [|x l IH]; intros r; cbn [fold_left].
    - now rewrite app_nil_r.
    - rewrite IH, sort_insert_keeps_ties. cbn [filter].
      rewrite <- app_assoc. f_equal. now destruct (key x =? v). }
  exact (H []).
Qed.

(** What the sort and the cut to [n] entries keep of a pool. *)
Lemma sorted_slice (n : nat) (l : list A) :
  let out := JS.slice0 n (JS.sort (descendingCompare key) l) in
  descendingBy key out
  /\ (forall a : A, In a out -> In a l)
  /\ ((List.length l <= n)%nat -> Permutation l out)
  /\ (forall v : Z,
         exists rest : list A,
           filter (fun a => key a =? v) l
           = filter (fun a => key a =? v) out ++ rest).
Proof.
  cbv zeta. unfold JS.slice0. split; [|split; [|split]].
  - apply firstn_descending, sort_descending.
  - intros a Hin. apply In_firstn in Hin.
    now apply (Permutation_in _
                 (Permutation_sym (sort_permutation (descendingCompare key) l))).
  - intros Hlen. rewrite firstn_all2 by now rewrite sort_length.
    apply sort_permutation.
  - intros v. exists (filter (fun a => key a =? v)
                             (skipn n (JS.sort (descendingCompare key) l))).
    rewrite <- filter_app, firstn_skipn. symmetry. apply sort_keeps_ties.
Qed.

End SortStability.

(** X16: when the dates of all pooled commits and pull requests parse,
    each list of recent activity is sorted with the latest first and
    holds pooled entries only; entries with the same time keep the
    order of the pool (the earliest pooled ones are the ones kept), and
    a pool of at most 50 entries is returned whole. *)
Theorem X16_recent_activity_is_a_stable_sorted_cut
        (Date_parse : string -> option Z)
        (org : Organization.t) (repositories : list Repository.t)
        (members : list User.t) (userStats : list UserStats.t)
        (codeStats : list CodeStats.t) (recentCommits : list Commit.t)
        (recentPullRequests : list PullRequest.t) :
  (forall c : Commit.t, In c recentCommits ->
                        Date_parse (GitPerson.date (Commit.author c)) <> None) ->
  (forall pr : PullRequest.t, In pr recentPullRequests ->
                              Date_parse (PullRequest.created_at pr) <> None) ->
  let activity :=
    OrganizationStats.recentActivity
      (computeOrganizationStats Date_parse org repositories members userStats codeStats
         recentCommits recentPullRequests) in
  let commitTime := fun c => timeOf (Date_parse (GitPerson.date (Commit.author c))) in
  let prTime := fun pr => timeOf (Date_parse (PullRequest.created_at pr)) in
  (descendingBy commitTime (RecentActivity.commits activity)
   /\ (forall c : Commit.t, In c (RecentActivity.commits activity) -> In c recentCommits)
   /\ ((List.length recentCommits <= 50)%nat ->
       Permutation recentCommits (RecentActivity.commits activity))
   /\ (forall t : Z,
          exists rest : list Commit.t,
            filter (fun c => commitTime c =? t) recentCommits
            = filter (fun c => commitTime c =? t) (RecentActivity.commits activity)
              ++ rest))
  /\ (descendingBy prTime (RecentActivity.pullRequests activity)
      /\ (forall pr : PullRequest.t,
             In pr (RecentActivity.pullRequests activity) -> In pr recentPullRequests)
      /\ ((List.length recentPullRequests <= 50)%nat ->
          Permutation recentPullRequests (RecentActivity.pullRequests activity))
      /\ (forall t : Z,
             exists rest : list PullRequest.t,
               filter (fun pr => prTime pr =? t) recentPullRequests
               = filter (fun pr => prTime pr =? t) (RecentActivity.pullRequests activity)
                 ++ rest)).
Proof.
  intros Hcommits Hprs. unfold computeOrganizationStats.
  cbn [OrganizationStats.recentActivity RecentActivity.commits
       RecentActivity.pullRequests]. cbv zeta.
  split.
  - rewrite (sort_ext (byCommitDate Date_parse)
               (descendingCompare
                  (fun c => timeOf (Date_parse (GitPerson.date (Commit.author c)))))).
    + apply sorted_slice.
    + intros a b Ha Hb. unfold byCommitDate, descendingCompare, JS.sub.
      pose proof (Hcommits a Ha). pose proof (Hcommits b Hb).
      destruct (Date_parse (GitPerson.date (Commit.author a)));
        destruct (Date_parse (GitPerson.date (Commit.author b)));
        simpl; congruence.
  - rewrite (sort_ext (byCreatedAt Date_parse)
               (descendingCompare
                  (fun pr => timeOf (Date_parse (PullRequest.created_at pr))))).
    + apply sorted_slice.
    + intros a b Ha Hb. unfold byCreatedAt, descendingCompare, JS.sub.
      pose proof (Hprs a Ha). pose proof (Hprs b Hb).
      destruct (Date_parse (PullRequest.created_at a));
        destruct (Date_parse (PullRequest.created_at b));
        simpl; congruence.
Qed.

Lemma X16_two_dated_commits_witness :
  descendingBy
    (fun c => timeOf (Date_parse_iso (GitPerson.date (Commit.author c))))
    (RecentActivity.commits
       (OrganizationStats.recentActivity
          (computeOrganizationStats Date_parse_iso (Organization.mk "acme") [] [] [] []
             [mapCommit januaryCommit; mapCommit juneCommit] []))).
Proof.
  apply (X16_recent_activity_is_a_stable_sorted_cut Date_parse_iso
           (Organization.mk "acme") [] [] [] []
           [mapCommit januaryCommit; mapCommit juneCommit] []).
  - intros c [<-|[<-|[]]]; vm_compute; discriminate.
  - intros pr [].
Defined.

(* ================================================================== *)
(** ** The request handler *)
(* ================================================================== *)

Section HandlerFacts.

Variable Date_parse : string -> option Z.
Variable srv : Server.
Variable ep : Endpoints.

Lemma validateToken_run (log : list Request) :
  validateToken ep log
  = (Ret match ep_user ep userUrl with Ok _ => true | _ => false end,
     log ++ [GET_url userUrl]).
Proof.
  unfold validateToken, try_catch, bind, makeRequest.
  destruct (ep_user ep userUrl); reflexivity.
Qed.

Lemma getRateLimit_run (log : list Request) :
  getRateLimit ep log
  = (Ret match ep_rate_limit ep rateLimitUrl with Ok data => Some data | _ => None end,
     log ++ [GET_url rateLimitUrl]).
Proof.
  unfold getRateLimit, try_catch, bind, makeRequest.
  destruct (ep_rate_limit ep rateLimitUrl); reflexivity.
Qed.

Lemma dispatch_status (fuel : nat) (action : string) (config : GitHubConfig.t)
      (log log' : list Request) (response : HttpResponse.t) :
  dispatch Date_parse srv ep fuel action config log = (Ret response, log') ->
  HttpResponse.status response = 200 \/ HttpResponse.status response = 400.
Proof.
  unfold dispatch.
  destruct (String.eqb action "validate").
  - unfold bind at 1. rewrite validateToken_run.
    destruct (ep_user ep userUrl); unfold bind, ret, getOrganization, makeRequest;
      try (destruct (srv_org srv (GitHubConfig.organization config)));
      intros H; try discriminate; injection H as <- _; now left.
  - destruct (String.eqb action "analyze").
    + unfold bind, ret.
      destruct (performFullAnalysis Date_parse srv config fuel log) as [[s| |] l];
        intros H; try discriminate. injection H as <- _. now left.
    + destruct (String.eqb action "rate-limit").
      * unfold bind. rewrite getRateLimit_run. unfold ret.
        intros H. injection H as <- _. now left.
      * unfold ret. intros H. injection H as <- _. now right.
Qed.

(** X17: the handler answers without sending any request to the API
    when it can tell from the request alone: 200 with the three CORS
    headers for OPTIONS, 405 for any method but POST, 500 with the
    parser's message for a body that cannot be read, 400 for a missing
    configuration or an empty token or organisation, and 400 for an
    action other than validate, analyze and rate-limit. *)
Theorem X17_requests_rejected_before_any_call (fuel : nat) (req : HttpRequest.t)
        (log : list Request) :
  (HttpRequest.method req = "OPTIONS" ->
   handler Date_parse srv ep fuel req log
   = (Ret (HttpResponse.mk 200 preflightHeaders NoBody), log))
  /\ (HttpRequest.method req <> "OPTIONS" -> HttpRequest.method req <> "POST" ->
      handler Date_parse srv ep fuel req log
      = (Ret (jsonResponse 405 (ErrorBody "Method not allowed")), log))
  /\ (HttpRequest.method req = "POST" ->
      (forall message : string,
          HttpRequest.json req = inl message ->
          handler Date_parse srv ep fuel req log
          = (Ret (jsonResponse 500 (ErrorBody message)), log))
      /\ (forall body : AnalysisRequest.t,
             HttpRequest.json req = inr body ->
             (missingConfiguration (AnalysisRequest.config body) = true ->
              handler Date_parse srv ep fuel req log
              = (Ret (jsonResponse 400 (ErrorBody "Missing required configuration")),
                 log))
             /\ (missingConfiguration (AnalysisRequest.config body) = false ->
                 AnalysisRequest.action body <> "validate" ->
                 AnalysisRequest.action body <> "analyze" ->
                 AnalysisRequest.action body <> "rate-limit" ->
                 handler Date_parse srv ep fuel req log
                 = (Ret (jsonResponse 400 (ErrorBody "Invalid action")), log)))).
Proof.
  unfold handler. split; [|split].
  - intros ->. reflexivity.
  - intros Hopt Hpost. apply String.eqb_neq in Hopt, Hpost.
    rewrite Hopt, Hpost. reflexivity.
  - intros Hpost. rewrite Hpost. cbn [String.eqb Ascii.eqb Bool.eqb negb]. split.
    + intros message ->. reflexivity.
    + intros body ->. split.
      * intros ->. reflexivity.
      * intros Hconf Hv Ha Hr. rewrite Hconf.
        destruct (AnalysisRequest.config body) as [config|]; [|discriminate].
        unfold dispatch. apply String.eqb_neq in Hv, Ha, Hr.
        rewrite Hv, Ha, Hr. reflexivity.
Qed.

(** X18: for a validate request the handler first checks the token and,
    only when it is accepted, looks the organisation up.  A rejected
    token is answered with 200 and valid = false after that single
    request; an accepted token with a found organisation with 200 and
    valid = true; an accepted token with a failed organisation lookup
    with 500 and the message of the lookup's error. *)
Theorem X18_validate_checks_token_then_organisation (fuel : nat)
        (config : GitHubConfig.t) (log : list Request) :
  missingConfiguration (Some config) = false ->
  let req := HttpRequest.mk "POST" (inr (AnalysisRequest.mk "validate" (Some config))) in
  let org := GitHubConfig.organization config in
  (errorOf (ep_user ep userUrl) <> None ->
   handler Date_parse srv ep fuel req log
   = (Ret (jsonResponse 200 (ValidBody false)), log ++ [GET_url userUrl]))
  /\ (errorOf (ep_user ep userUrl) = None ->
      errorOf (srv_org srv org) = None ->
      handler Date_parse srv ep fuel req log
      = (Ret (jsonResponse 200 (ValidBody true)),
         log ++ [GET_url userUrl] ++ [GET_org org]))
  /\ (errorOf (ep_user ep userUrl) = None ->
      forall e : Error,
        errorOf (srv_org srv org) = Some e ->
        handler Date_parse srv ep fuel req log
        = (Ret (jsonResponse 500 (ErrorBody (messageOf e))),
           log ++ [GET_url userUrl] ++ [GET_org org])).
Proof.
  intros Hconf req org. unfold handler, req.
  cbn [HttpRequest.method HttpRequest.json AnalysisRequest.config
       AnalysisRequest.action String.eqb Ascii.eqb Bool.eqb negb].
  rewrite Hconf. unfold dispatch. cbn [String.eqb Ascii.eqb Bool.eqb].
  unfold try_catch, bind. rewrite validateToken_run.
  unfold getOrganization, makeRequest, ret. fold org. split; [|split].
  - intros Huser. destruct (ep_user ep userUrl); [simpl in Huser; congruence| |];
      reflexivity.
  - intros Huser Horg. destruct (ep_user ep userUrl); try discriminate.
    destruct (srv_org srv org); try discriminate.
    now rewrite <- app_assoc.
  - intros Huser e Horg. destruct (ep_user ep userUrl); try discriminate.
    destruct (srv_org srv org); simpl in Horg; try discriminate;
      injection Horg as <-; now rewrite <- app_assoc.
Qed.

(** X19: the handler never throws: whatever the request and whatever
    the API answers, it returns a response with status 200, 400, 405 or
    500 (unless the run is still paging through a listing).  An analyze
    request whose organisation lookup fails is answered with 500 and
    the error's message after that one request, and a rate-limit
    request always with 200, carrying the quota or null. *)
Theorem X19_handler_always_answers (fuel : nat) (req : HttpRequest.t)
        (log : list Request) :
  (exists log' : list Request,
      handler Date_parse srv ep fuel req log = (OutOfFuel, log')
      \/ exists response : HttpResponse.t,
           handler Date_parse srv ep fuel req log = (Ret response, log')
           /\ In (HttpResponse.status response) [200; 400; 405; 500])
  /\ (forall (config : GitHubConfig.t) (e : Error),
         missingConfiguration (Some config) = false ->
         errorOf (srv_org srv (GitHubConfig.organization config)) = Some e ->
         handler Date_parse srv ep fuel
                 (HttpRequest.mk "POST" (inr (AnalysisRequest.mk "analyze" (Some config))))
                 log
         = (Ret (jsonResponse 500 (ErrorBody (messageOf e))),
            log ++ [GET_org (GitHubConfig.organization config)]))
  /\ (forall config : GitHubConfig.t,
         missingConfiguration (Some config) = false ->
         handler Date_parse srv ep fuel
                 (HttpRequest.mk "POST" (inr (AnalysisRequest.mk "rate-limit" (Some config))))
                 log
         = (Ret (jsonResponse 200
                   (RateLimitBody match ep_rate_limit ep rateLimitUrl with
                                  | Ok data => Some data
                                  | _ => None
                                  end)),
            log ++ [GET_url rateLimitUrl])).
Proof.
  split; [|split].
  - unfold handler.
    destruct (String.eqb (HttpRequest.method req) "OPTIONS").
    { exists log. right. eexists. split; [reflexivity|]. simpl. tauto. }
    unfold try_catch.
    destruct (negb (String.eqb (HttpRequest.method req) "POST")).
    { exists log. right. eexists. split; [reflexivity|]. simpl. tauto. }
    destruct (HttpRequest.json req) as [message|body].
    { exists log. right. eexists. split; [reflexivity|]. simpl. tauto. }
    destruct (missingConfiguration (AnalysisRequest.config body)).
    { exists log. right. eexists. split; [reflexivity|]. simpl. tauto. }
    destruct (AnalysisRequest.config body) as [config|].
    2:{ exists log. right. eexists. split; [reflexivity|]. simpl. tauto. }
    destruct (dispatch Date_parse srv ep fuel (AnalysisRequest.action body) config log)
      as [[response|e|] log'] eqn:E.
    + exists log'. right. exists response. split; [reflexivity|].
      destruct (dispatch_status _ _ _ _ _ _ E) as [-> | ->]; simpl; tauto.
    + exists log'. right. eexists. split; [reflexivity|]. simpl. tauto.
    + exists log'. now left.
  - intros config e Hconf He. unfold handler.
    cbn [HttpRequest.method HttpRequest.json AnalysisRequest.config
         AnalysisRequest.action String.eqb Ascii.eqb Bool.eqb negb].
    rewrite Hconf. unfold dispatch. cbn [String.eqb Ascii.eqb Bool.eqb].
    unfold try_catch, bind at 1. unfold performFullAnalysis, bind at 1.
    unfold getOrganization, makeRequest.
    destruct (srv_org srv (GitHubConfig.organization config)); simpl in He;
      try discriminate; injection He as <-; reflexivity.
  - intros config Hconf. unfold handler.
    cbn [HttpRequest.method HttpRequest.json AnalysisRequest.config
         AnalysisRequest.action String.eqb Ascii.eqb Bool.eqb negb].
    rewrite Hconf. unfold dispatch. cbn [String.eqb Ascii.eqb Bool.eqb].
    unfold try_catch, bind. rewrite getRateLimit_run. reflexivity.
Qed.

End HandlerFacts.

Lemma X18_rejected_token_witness :
  handler Date_parse_iso offline noEndpoints 1
          (HttpRequest.mk "POST" (inr (AnalysisRequest.mk "validate" (Some demoConfig))))
          []
  = (Ret (jsonResponse 200 (ValidBody false)), [] ++ [GET_url userUrl]).
Proof.
  apply (X18_validate_checks_token_then_organisation Date_parse_iso offline noEndpoints
           1 demoConfig []).
  - reflexivity.
  - discriminate.
Defined.

(* ================================================================== *)
(** ** A listing page that fails *)
(* ================================================================== *)

Section FailedPages.

Variable srv : Server.
Variable config : GitHubConfig.t.

Let org : string := GitHubConfig.organization config.

Lemma getRepositories_loop_fails (k : nat) (e : Error) :
  forall (fuel : nat) (acc : list Repository.t) (page : nat) (log : list Request),
    (forall p : nat, (page <= p < page + k)%nat -> fullPage (srv_org_repos srv org 100 p)) ->
    errorOf (srv_org_repos srv org 100 (page + k)) = Some e ->
    (k < fuel)%nat ->
    getRepositories_loop srv config fuel acc page true log
    = (Throw e, log ++ map (GET_org_repos org 100) (seq page (S k))).
Proof.
  induction k as [|k IH]; intros fuel acc page log Hfull Hfail Hfuel.
  - destruct fuel as [|fuel]; [lia|]. rewrite Nat.add_0_r in Hfail.
    cbn [getRepositories_loop]. unfold bind, makeRequest. fold org.
    destruct (srv_org_repos srv org 100 page); simpl in Hfail; try discriminate;
      injection Hfail as <-; reflexivity.
  - destruct fuel as [|fuel]; [lia|].
    destruct (Hfull page ltac:(lia)) as (data & Hd & Hlen).
    rewrite (getRepositories_loop_step srv config _ _ data) by exact Hd.
    rewrite Hlen. change (100 =? 100)%nat with true.
    rewrite IH.
    + rewrite Nat.add_1_r. cbn [seq map]. rewrite <- app_assoc. reflexivity.
    + intros p Hp. apply Hfull. lia.
    + replace (page + 1 + k)%nat with (page + S k)%nat by lia. exact Hfail.
    + lia.
Qed.

Lemma getOrganizationMembers_loop_fails (k : nat) (e : Error) :
  forall (fuel : nat) (acc : list User.t) (page : nat) (log : list Request),
    (forall p : nat, (page <= p < page + k)%nat ->
                     fullPage (srv_org_members srv org 100 p)) ->
    errorOf (srv_org_members srv org 100 (page + k)) = Some e ->
    (k < fuel)%nat ->
    getOrganizationMembers_loop srv config fuel acc page true log
    = (Throw e, log ++ flat_map (memberPageRequests srv org) (seq page k)
                    ++ [GET_org_members org 100 (page + k)]).
Proof.
  induction k as [|k IH]; intros fuel acc page log Hfull Hfail Hfuel.
  - destruct fuel as [|fuel]; [lia|]. rewrite Nat.add_0_r in *.
    cbn [getOrganizationMembers_loop]. unfold bind, makeRequest. fold org.
    destruct (srv_org_members srv org 100 page); simpl in Hfail; try discriminate;
      injection Hfail as <-; reflexivity.
  - destruct fuel as [|fuel]; [lia|].
    destruct (Hfull page ltac:(lia)) as (data & Hd & Hlen).
    rewrite (getOrganizationMembers_loop_step srv config _ _ data) by exact Hd.
    rewrite Hlen. change (100 =? 100)%nat with true.
    rewrite IH.
    + rewrite Nat.add_1_r. cbn [seq flat_map]. rewrite <- !app_assoc.
      replace (S page + k)%nat with (page + S k)%nat by lia. reflexivity.
    + intros p Hp. apply Hfull. lia.
    + replace (page + 1 + k)%nat with (page + S k)%nat by lia. exact Hfail.
    + lia.
Qed.

End FailedPages.

(** X20: a page of the repository or member listing that fails ends the
    listing with that error, and the items of the pages fetched before
    it are dropped.  [performFullAnalysis] has no handler around the
    listings, so a failed repository page ends the whole run with the
    error: no member, file, commit or pull request is asked for. *)
Theorem X20_failed_listing_page_aborts (srv : Server) (config : GitHubConfig.t)
        (fuel k : nat) (e : Error) (log : list Request) :
  (k < fuel)%nat ->
  let org := GitHubConfig.organization config in
  ((forall p : nat, (1 <= p < 1 + k)%nat -> fullPage (srv_org_repos srv org 100 p)) ->
   errorOf (srv_org_repos srv org 100 (1 + k)) = Some e ->
   getRepositories srv config fuel log
   = (Throw e, log ++ map (GET_org_repos org 100) (seq 1 (S k)))
   /\ forall Date_parse : string -> option Z,
        errorOf (srv_org srv org) = None ->
        performFullAnalysis Date_parse srv config fuel log
        = (Throw e, log ++ GET_org org :: map (GET_org_repos org 100) (seq 1 (S k))))
  /\ ((forall p : nat, (1 <= p < 1 + k)%nat -> fullPage (srv_org_members srv org 100 p)) ->
      errorOf (srv_org_members srv org 100 (1 + k)) = Some e ->
      getOrganizationMembers srv config fuel log
      = (Throw e, log ++ flat_map (memberPageRequests srv org) (seq 1 k)
                      ++ [GET_org_members org 100 (1 + k)])).
Proof.
  intros Hfuel org. split.
  - intros Hfull Hfail. split.
    + unfold getRepositories. now apply getRepositories_loop_fails.
    + intros Date_parse Horg. unfold performFullAnalysis, bind at 1.
      unfold getOrganization, makeRequest. fold org.
      destruct (srv_org srv org) as [o| |]; try discriminate.
      unfold bind at 1. unfold getRepositories.
      rewrite (getRepositories_loop_fails srv config k e) by assumption.
      rewrite <- app_assoc. reflexivity.
  - intros Hfull Hfail. unfold getOrganizationMembers.
    now apply getOrganizationMembers_loop_fails.
Qed.

Lemma X20_first_page_down_witness :
  getRepositories offline demoConfig 1 []
  = (Throw (GitHubApiError 503 "Service Unavailable"),
     [] ++ map (GET_org_repos "acme" 100) (seq 1 1)).
Proof.
  apply (X20_failed_listing_page_aborts offline demoConfig 1 0
           (GitHubApiError 503 "Service Unavailable") []).
  - lia.
  - intros p Hp. lia.
  - reflexivity.
Defined.

(* ================================================================== *)
(** ** The last activity of a member *)
(* ================================================================== *)

Lemma Forall_set_pair {V : Type} (P : string * V -> Prop) (m : OMap.t V)
      (k : string) (v : V) :
  Forall P m -> P (k, v) -> Forall P (OMap.set m k v).
Proof.
  intros Hm Hv. induction Hm as [|[k' v'] m Hx Hm IH]; simpl.
  - constructor; [exact Hv|constructor].
  - destruct (String.eqb_spec k' k) as [->|Hne]; constructor; auto.
Qed.

Lemma get_of_distinct {V : Type} (m : OMap.t V) (k : string) (v : V) :
  NoDup (OMap.keys m) -> In (k, v) m -> OMap.get m k = Some v.
Proof.
  unfold OMap.keys. induction m as [|[k' v'] m IH]; simpl; [contradiction|].
  intros Hnd [Heq|Hin].
  - injection Heq as -> ->. now rewrite String.eqb_refl.
  - inversion Hnd as [|x l Hnotin Hnd']; subst.
    destruct (String.eqb_spec k' k) as [->|Hne]; [|now apply IH].
    exfalso. apply Hnotin. change k with (fst (k, v)). now apply in_map.
Qed.

Section LastActivity.

Variable Date_parse : string -> option Z.
Hypothesis empty_is_invalid : Date_parse EmptyString = None.

Lemma tracks_untouched (m : OMap.t UserStats.t) (events : list (string * string))
      (login date : string) :
  tracksActivity Date_parse m events -> OMap.get m login = None ->
  tracksActivity Date_parse m (events ++ [(login, date)]).
Proof.
  intros Hq Hnone l us Hget. destruct (Hq l us Hget) as (t & Ht & Hpos & Hle & Hprov).
  exists t. split; [exact Ht|]. split; [exact Hpos|]. split.
  - intros d td Hin Hd. apply in_app_or in Hin. destruct Hin as [Hin|[Heq|[]]].
    + now apply (Hle d).
    + injection Heq as <- <-. congruence.
  - destruct Hprov as [Hp|Hp]; [now left|right; apply in_or_app; now left].
Qed.

Lemma tracks_touched (m : OMap.t UserStats.t) (events : list (string * string))
      (login date : string) (us us' : UserStats.t) :
  tracksActivity Date_parse m events ->
  OMap.get m login = Some us ->
  UserStats.lastActivity us'
  = (if JS.gt (Date_parse date)
              (lastActivityTime Date_parse (UserStats.lastActivity us))
     then date else UserStats.lastActivity us) ->
  tracksActivity Date_parse (OMap.set m login us') (events ++ [(login, date)]).
Proof.
  intros Hq Hus Hlast l us0 Hget.
  destruct (String.eqb_spec l login) as [->|Hne].
  - rewrite get_set_eq in Hget. injection Hget as <-.
    destruct (Hq login us Hus) as (t & Ht & Hpos & Hle & Hprov).
    rewrite Ht in Hlast. unfold JS.gt in Hlast.
    destruct (Date_parse date) as [a|] eqn:Ha.
    + destruct (Z.ltb_spec t a) as [Hlt|Hge].
      * exists a. rewrite Hlast. split.
        { unfold lastActivityTime.
          destruct (String.eqb_spec date EmptyString) as [->|_]; [congruence|exact Ha]. }
        split; [lia|]. split.
        { intros d td Hin Hd. apply in_app_or in Hin. destruct Hin as [Hin|[Heq|[]]].
          - specialize (Hle d td Hin Hd). lia.
          - injection Heq as <-. rewrite Ha in Hd. injection Hd as <-. lia. }
        right. apply in_or_app. right. now left.
      * exists t. rewrite Hlast. split; [exact Ht|]. split; [exact Hpos|]. split.
        { intros d td Hin Hd. apply in_app_or in Hin. destruct Hin as [Hin|[Heq|[]]].
          - now apply (Hle d).
          - injection Heq as <-. rewrite Ha in Hd. injection Hd as <-. lia. }
        destruct Hprov as [Hp|Hp]; [now left|right; apply in_or_app; now left].
    + exists t. rewrite Hlast. split; [exact Ht|]. split; [exact Hpos|]. split.
      { intros d td Hin Hd. apply in_app_or in Hin. destruct Hin as [Hin|[Heq|[]]].
        - now apply (Hle d).
        - injection Heq as <-. congruence. }
      destruct Hprov as [Hp|Hp]; [now left|right; apply in_or_app; now left].
  - rewrite get_set_ne in Hget by exact Hne.
    destruct (Hq l us0 Hget) as (t & Ht & Hpos & Hle & Hprov).
    exists t. split; [exact Ht|]. split; [exact Hpos|]. split.
    + intros d td Hin Hd. apply in_app_or in Hin. destruct Hin as [Hin|[Heq|[]]].
      * now apply (Hle d).
      * injection Heq as Heq _. congruence.
    + destruct Hprov as [Hp|Hp]; [now left|right; apply in_or_app; now left].
Qed.

Lemma keyed_touched (m : OMap.t UserStats.t) (login : string) (us us' : UserStats.t) :
  keyedByLogin m -> OMap.get m login = Some us ->
  UserStats.user us' = UserStats.user us ->
  keyedByLogin (OMap.set m login us').
Proof.
  intros [Hnd Hkeys] Hus Huser. split; [now apply NoDup_keys_set|].
  apply Forall_set_pair; [exact Hkeys|].
  simpl. rewrite Huser. apply get_In in Hus. rewrite Forall_forall in Hkeys.
  exact (Hkeys _ Hus).
Qed.

Lemma commit_tracks (members : list User.t) (m : OMap.t UserStats.t)
      (events : list (string * string)) (commit : Commit.t) :
  tracksActivity Date_parse m events -> keyedByLogin m ->
  tracksActivity Date_parse (processCommit Date_parse members m commit)
    (events ++ match attributedLogin members commit with
               | Some login => [(login, GitPerson.date (Commit.author commit))]
               | None => []
               end)
  /\ keyedByLogin (processCommit Date_parse members m commit).
Proof.
  intros Hq Hk. unfold processCommit, attributedLogin.
  destruct (findUserByEmail members (GitPerson.email (Commit.author commit)))
    as [member|]; [|rewrite app_nil_r; now split].
  destruct (String.eqb (User.login member) EmptyString); cbn [negb andb];
    [rewrite app_nil_r; now split|].
  unfold OMap.has.
  destruct (OMap.get m (User.login member)) as [us|] eqn:G.
  - split.
    + now apply (tracks_touched m events _ _ us).
    + now apply (keyed_touched m _ us).
  - split; [now apply tracks_untouched|exact Hk].
Qed.

Lemma pull_request_tracks (m : OMap.t UserStats.t) (events : list (string * string))
      (pr : PullRequest.t) :
  tracksActivity Date_parse m events -> keyedByLogin m ->
  tracksActivity Date_parse (processPullRequest Date_parse m pr)
    (events ++ [(User.login (PullRequest.user pr), PullRequest.created_at pr)])
  /\ keyedByLogin (processPullRequest Date_parse m pr).
Proof.
  intros Hq Hk. unfold processPullRequest.
  destruct (OMap.get m (User.login (PullRequest.user pr))) as [us|] eqn:G.
  - split.
    + now apply (tracks_touched m events _ _ us).
    + now apply (keyed_touched m _ us).
  - split; [now apply tracks_untouched|exact Hk].
Qed.

Lemma init_tracks (members : list User.t) :
  forall m : OMap.t UserStats.t,
    keyedByLogin m ->
    Forall (fun kv => UserStats.lastActivity (snd kv) = EmptyString) m ->
    keyedByLogin (fold_left initUserStats members m)
    /\ Forall (fun kv => UserStats.lastActivity (snd kv) = EmptyString)
              (fold_left initUserStats members m).
Proof.
  induction members as [|u rest IH]; intros m Hk Hempty; simpl; [now split|].
  apply IH.
  - destruct Hk as [Hnd Hkeys]. split; [now apply NoDup_keys_set|].
    apply Forall_set_pair; [exact Hkeys|reflexivity].
  - unfold initUserStats.
    now apply (Forall_set (fun v => UserStats.lastActivity v = EmptyString)).
Qed.

Lemma final_map_tracks (members : list User.t) (commits : list Commit.t)
      (pullRequests : list PullRequest.t) :
  let m := fold_left (processPullRequest Date_parse) pullRequests
                     (userStatsAfterCommits Date_parse members commits) in
  tracksActivity Date_parse m (activityOf members commits pullRequests) /\ keyedByLogin m.
Proof.
  cbv zeta. unfold userStatsAfterCommits, activityOf.
  destruct (init_tracks members OMap.empty) as [Hk0 He0].
  { split; constructor. }
  { constructor. }
  set (m0 := fold_left initUserStats members OMap.empty) in *.
  assert (Hq0 : tracksActivity Date_parse m0 []).
  { intros l us Hget. apply get_In in Hget. rewrite Forall_forall in He0.
    specialize (He0 _ Hget). simpl in He0. exists 0. rewrite He0.
    split; [reflexivity|]. split; [lia|]. split; [intros d td []|now left]. }
  assert (Hc : forall (m : OMap.t UserStats.t) (events : list (string * string)),
             tracksActivity Date_parse m events -> keyedByLogin m ->
             tracksActivity Date_parse
               (fold_left (processCommit Date_parse members) commits m)
               (events
                ++ flat_map (fun c => match attributedLogin members c with
                                      | Some login =>
                                          [(login, GitPerson.date (Commit.author c))]
                                      | None => []
                                      end) commits)
             /\ keyedByLogin (fold_left (processCommit Date_parse members) commits m)).
  { induction commits as [|c rest IH]; intros m events Hq Hk; simpl.
    - rewrite app_nil_r. now split.
    - destruct (commit_tracks members m events c Hq Hk) as [Hq' Hk'].
      rewrite app_assoc. now apply IH. }
  assert (Hp : forall (m : OMap.t UserStats.t) (events : list (string * string)),
             tracksActivity Date_parse m events -> keyedByLogin m ->
             tracksActivity Date_parse
               (fold_left (processPullRequest Date_parse) pullRequests m)
               (events
                ++ map (fun pr => (User.login (PullRequest.user pr),
                                   PullRequest.created_at pr)) pullRequests)
             /\ keyedByLogin (fold_left (processPullRequest Date_parse) pullRequests m)).
  { induction pullRequests as [|pr rest IH]; intros m events Hq Hk; simpl.
    - rewrite app_nil_r. now split.
    - destruct (pull_request_tracks m events pr Hq Hk) as [Hq' Hk'].
      change (events ++ (User.login (PullRequest.user pr), PullRequest.created_at pr)
                     :: map (fun pr0 => (User.login (PullRequest.user pr0),
                                         PullRequest.created_at pr0)) rest)
        with (events ++ [(User.login (PullRequest.user pr), PullRequest.created_at pr)]
                     ++ map (fun pr0 => (User.login (PullRequest.user pr0),
                                         PullRequest.created_at pr0)) rest).
      rewrite app_assoc. now apply IH. }
  destruct (Hc m0 [] Hq0 Hk0) as [Hq1 Hk1]. simpl in Hq1.
  now apply Hp.
Qed.

End LastActivity.

(** X21: the last activity of a returned entry is the date of the latest
    dated event of its user.  With the empty string not a date, every entry
    [us] that [computeUserStats] returns has a last activity whose time [t]
    is a number, not negative, and at least the time of every pooled event
    of that user with a valid date (the author dates of the commits counted
    for the user and the creation dates of the user's pull requests); the
    field is empty or the date of one of these events.  Events whose date
    does not parse never move the field. *)
Theorem X21_last_activity_is_the_latest_dated_event
        (Date_parse : string -> option Z)
        (members : list User.t) (repositories : list Repository.t)
        (commits : list Commit.t) (pullRequests : list PullRequest.t)
        (us : UserStats.t) :
  Date_parse EmptyString = None ->
  In us (computeUserStats Date_parse members repositories commits pullRequests) ->
  exists t : Z,
    lastActivityTime Date_parse (UserStats.lastActivity us) = Some t
    /\ 0 <= t
    /\ (forall (d : string) (td : Z),
           In (User.login (UserStats.user us), d)
              (activityOf members commits pullRequests) ->
           Date_parse d = Some td -> td <= t)
    /\ (UserStats.lastActivity us = EmptyString
        \/ In (User.login (UserStats.user us), UserStats.lastActivity us)
              (activityOf members commits pullRequests)).
Proof.
  intros Hempty Hin.
  destruct (final_map_tracks Date_parse Hempty members commits pullRequests)
    as [Hq [Hnd Hkeys]].
  unfold computeUserStats, OMap.values in Hin. cbv zeta in Hin.
  apply in_map_iff in Hin. destruct Hin as ([k v] & Hv & Hin).
  simpl in Hv. subst v.
  rewrite Forall_forall in Hkeys. pose proof (Hkeys _ Hin) as Hk. simpl in Hk.
  subst k. apply (Hq _ us). now apply get_of_distinct.
Qed.

Lemma X21_alice_witness :
  exists t : Z,
    lastActivityTime Date_parse_iso
      (UserStats.lastActivity
         (UserStats.mk alice 1 0 0 0 "2024-01-01T00:00:00Z")) = Some t
    /\ 0 <= t
    /\ (forall (d : string) (td : Z),
           In ("alice", d)
              (activityOf [alice; alias; carol]
                 [mapCommit januaryCommit; mapCommit orphanCommit] []) ->
           Date_parse_iso d = Some td -> td <= t)
    /\ (UserStats.lastActivity (UserStats.mk alice 1 0 0 0 "2024-01-01T00:00:00Z")
        = EmptyString
        \/ In ("alice", UserStats.lastActivity
                          (UserStats.mk alice 1 0 0 0 "2024-01-01T00:00:00Z"))
              (activityOf [alice; alias; carol]
                 [mapCommit januaryCommit; mapCommit orphanCommit] [])).
Proof.
  apply (X21_last_activity_is_the_latest_dated_event Date_parse_iso
           [alice; alias; carol] []
           [mapCommit januaryCommit; mapCommit orphanCommit] []
           (UserStats.mk alice 1 0 0 0 "2024-01-01T00:00:00Z")).
  - reflexivity.
  - vm_compute. left. reflexivity.
Defined.
